(** * Browser-use launcher and installers: a shallow embedding

    The three scripts of the repository (run_browser_automation.py,
    browser_use_setup.py, termux_browser_use_setup.py) are glue code around
    external collaborators: the Python import system, package managers run
    through [subprocess.run], python-dotenv, the LLM client classes and the
    browser-use [Browser] and [Agent] classes.

    The embedding is a state-and-exception monad over a [World]:
    - [environ] is [os.environ], [files] the text files the scripts touch;
    - [trace] records every observable action (prints, imports, subprocess
      calls, object constructions, awaits, file writes), most recent first;
      [history] gives them in the order they happened;
    - [ext] holds the external collaborators as oracles: each answers from
      the trace so far, so that the same call may fail first and succeed
      later (an import before and after a pip install).

    Text.  A [str] is modelled by its UTF-8 encoding, one [ascii] for each
    byte, so that the text of the scripts reads as it is written.
    [str.strip] and [str.split] take as whitespace the characters Python
    takes, by their encodings.  [int] is computed for ASCII literals of at
    most 640 digits; what it makes of any other string depends on the
    interpreter (its Unicode tables, its limit on the digits of a
    conversion) and is asked of the collaborators.  [str.lower] is
    modelled as far as a comparison with an ASCII word can tell.  A [str]
    with lone surrogates, as undecodable input gives, has no encoding and
    is left out.

    Limits of the model.  File contents are the text Python sees in text
    mode (newlines already translated to a line feed).  [print] and the
    file operations do not fail.  Only subclasses of [Exception] are
    raised: KeyboardInterrupt and the like are left out.  Standard
    input is a finite list of the lines still to be read: [input] at its
    end raises EOFError, and the prompts it writes are kept on the console,
    apart from the trace.  The [while True] loops of the menu take fuel:
    running out of it is no result, and the theorems about them give fuel
    enough for the lines there are to read. *)

From Stdlib Require Import String Ascii List ZArith Bool Lia DecimalString.
From stdpp Require Import base gmap strings list.

Open Scope string_scope.
Open Scope list_scope.

(** ** Python data *)

(** Values handed to, or received from, external classes.  An object is
    recorded by its class and the keyword arguments it was built from. *)
#[warnings="-register-all"] Inductive pyval : Type :=
| VNone
| VBool (b : bool)
| VInt (n : Z)
| VStr (s : string)
| VObj (cls : string) (kwargs : list (string * pyval)).

(** The exception classes the scripts name in an [except] clause or raise
    themselves; every other subclass of [Exception] is [OtherException]. *)
Inductive exn_class : Type :=
| ImportError
| ModuleNotFoundError
| CalledProcessError
| FileNotFoundError
| ValueError
| OtherException (name : string).

(** An exception value: its class and [str(e)]. *)
Record exn : Type := Exn { exn_cls : exn_class; exn_str : string }.

(** [except ImportError]: ModuleNotFoundError is its subclass. *)
Definition isinstance_ImportError (e : exn) : bool :=
  match exn_cls e with
  | ImportError | ModuleNotFoundError => true
  | _ => false
  end.

(** [except subprocess.CalledProcessError] *)
Definition isinstance_CalledProcessError (e : exn) : bool :=
  match exn_cls e with
  | CalledProcessError => true
  | _ => false
  end.

(** [except (subprocess.CalledProcessError, FileNotFoundError)] *)
Definition isinstance_CalledProcessError_or_FileNotFoundError (e : exn) : bool :=
  match exn_cls e with
  | CalledProcessError | FileNotFoundError => true
  | _ => false
  end.

(** [except Exception]: every modelled class derives from [Exception]. *)
Definition isinstance_Exception (e : exn) : bool := true.

(** ** Observable actions *)

Inductive event : Type :=
| EvPrint (s : string)
| EvLoadDotenv (override : bool)
| EvImport (module : string) (name : option string) (r : option exn)
| EvSubprocess (argv : list string) (shell : bool) (r : option exn)
| EvNew (cls : string) (kwargs : list (string * pyval)) (r : option exn)
| EvAwait (method : string) (self : pyval) (r : string + exn)
| EvWrite (path content : string)
| EvChmod (path : string) (mode : Z)
| EvStep (name : string)
| EvStepDone (name : string) (ok : bool).

(** ** The world *)

(** External collaborators.  Every oracle receives the trace so far (most
    recent event first).  [None] means the call completed. *)
Record External : Type := {
  (** [import module] or [from module import name] *)
  ext_import : list event -> string -> option string -> option exn;
  (** [subprocess.run(argv, check=True, shell=shell)] *)
  ext_subprocess : list event -> list string -> bool -> option exn;
  (** construction of an object of an external class *)
  ext_new : list event -> string -> list (string * pyval) -> option exn;
  (** [await agent.arun()]: the printed form of the result, or an error *)
  ext_arun : list event -> pyval -> string + exn;
  (** the key/value pairs python-dotenv reads from the .env file it finds *)
  ext_dotenv : list event -> gmap string string;
  (** [int(s)] for a string that is no plain literal (see [py_int]): the
      number, or the message of the ValueError *)
  ext_int : list event -> string -> Z + string;
  (** [sys.executable] *)
  sys_executable : string;
  (** [platform.system().lower()] *)
  platform_system : string;
  (** [sys.version_info[:2]] and [sys.version] *)
  version_info : Z * Z;
  sys_version : string;
  (** [os.path.exists("/data/data/com.termux")] *)
  termux_prefix_exists : bool;
}.

Record World : Type := {
  environ : gmap string string;
  files : gmap string string;
  trace : list event;
  ext : External;
}.

Definition set_trace (t : list event) (w : World) : World :=
  {| environ := environ w; files := files w; trace := t; ext := ext w |}.

Definition set_environ (e : gmap string string) (w : World) : World :=
  {| environ := e; files := files w; trace := trace w; ext := ext w |}.

Definition set_files (f : gmap string string) (w : World) : World :=
  {| environ := environ w; files := f; trace := trace w; ext := ext w |}.

Definition record (ev : event) (w : World) : World :=
  set_trace (ev :: trace w) w.

(** The events in the order they happened. *)
Definition history (w : World) : list event := rev (trace w).

(** ** The monad: state plus Python exceptions *)

Inductive outcome (A : Type) : Type :=
| Returned (a : A)
| Raised (e : exn).
Arguments Returned {A} a.
Arguments Raised {A} e.

Definition M (A : Type) : Type := World -> outcome A * World.

Definition ret {A} (a : A) : M A := fun w => (Returned a, w).

Definition raise {A} (e : exn) : M A := fun w => (Raised e, w).

Definition bind {A B} (m : M A) (k : A -> M B) : M B :=
  fun w =>
    match m w with
    | (Returned a, w') => k a w'
    | (Raised e, w') => (Raised e, w')
    end.

(** [try: body  except <classes> as e: handler e] *)
Definition try_except {A} (body : M A) (catches : exn -> bool)
    (handler : exn -> M A) : M A :=
  fun w =>
    match body w with
    | (Returned a, w') => (Returned a, w')
    | (Raised e, w') => if catches e then handler e w' else (Raised e, w')
    end.

Notation "x <- c1 ;; c2" := (bind c1 (fun x => c2))
  (at level 100, c1 at next level, right associativity).
Notation "c1 ;; c2" := (bind c1 (fun _ => c2))
  (at level 100, right associativity).

(** ** Primitive actions *)

Definition emit (ev : event) : M unit := fun w => (Returned tt, record ev w).

Definition print (s : string) : M unit := emit (EvPrint s).

(** A call into an external collaborator that returns nothing. *)
Definition external (r : option exn) (ev : event) : M unit :=
  fun w =>
    match r with
    | None => (Returned tt, record ev w)
    | Some e => (Raised e, record ev w)
    end.

Definition import_module (module : string) : M unit :=
  fun w =>
    let r := ext_import (ext w) (trace w) module None in
    external r (EvImport module None r) w.

Definition import_from (module name : string) : M unit :=
  fun w =>
    let r := ext_import (ext w) (trace w) module (Some name) in
    external r (EvImport module (Some name) r) w.

(** [subprocess.run(argv, check=True)], with [shell=True] when [shell].
    [capture_output] does not change the outcome and is not recorded. *)
Definition subprocess_run (argv : list string) (shell : bool) : M unit :=
  fun w =>
    let r := ext_subprocess (ext w) (trace w) argv shell in
    external r (EvSubprocess argv shell r) w.

(** [cls(k1=v1, ...)] for an external class. *)
Definition new (cls : string) (kwargs : list (string * pyval)) : M pyval :=
  fun w =>
    let r := ext_new (ext w) (trace w) cls kwargs in
    let w' := record (EvNew cls kwargs r) w in
    match r with
    | None => (Returned (VObj cls kwargs), w')
    | Some e => (Raised e, w')
    end.

(** [await agent.arun()] *)
Definition await_arun (agent : pyval) : M string :=
  fun w =>
    let r := ext_arun (ext w) (trace w) agent in
    let w' := record (EvAwait "arun" agent r) w in
    match r with
    | inl result => (Returned result, w')
    | inr e => (Raised e, w')
    end.

(** [os.getenv(key)] *)
Definition getenv (key : string) : M (option string) :=
  fun w => (Returned (environ w !! key), w).

(** [load_dotenv(override=...)]: with [override] the file's values replace
    those of the process environment, without it they only fill gaps. *)
Definition load_dotenv (override : bool) : M unit :=
  fun w =>
    let vals := ext_dotenv (ext w) (trace w) in
    let env' := if override then vals ∪ environ w else environ w ∪ vals in
    (Returned tt, record (EvLoadDotenv override) (set_environ env' w)).

Definition get_sys_executable : M string :=
  fun w => (Returned (sys_executable (ext w)), w).

Definition get_platform_system : M string :=
  fun w => (Returned (platform_system (ext w)), w).

(** [path.exists()] for the files of the model. *)
Definition path_exists (path : string) : M bool :=
  fun w => (Returned (bool_decide (is_Some (files w !! path))), w).

(** [with open(path, 'w') as f: f.write(content)] *)
Definition write_text (path content : string) : M unit :=
  fun w => (Returned tt, record (EvWrite path content) (set_files (<[path := content]> (files w)) w)).

(** Truth value of an [os.getenv] result: [None] and [""] are false. *)
Definition truthy (v : option string) : bool :=
  match v with
  | Some s => negb (String.eqb s "")
  | None => false
  end.

Definition of_option (v : option string) : pyval :=
  match v with
  | Some s => VStr s
  | None => VNone
  end.

(** ** Python built-ins used by the scripts *)

Definition nl : string := String (ascii_of_nat 10) EmptyString.

Definition is_newline (c : ascii) : bool := Nat.eqb (nat_of_ascii c) 10.

(** [f.readlines()]: the lines of a text, each keeping its line feed; a last
    line without line feed is returned as it is. *)
Fixpoint readlines (s : string) : list string :=
  match s with
  | EmptyString => []
  | String c s' =>
      if is_newline c then String c EmptyString :: readlines s'
      else match readlines s' with
           | [] => [String c EmptyString]
           | l :: ls => String c l :: ls
           end
  end.

(** [f.writelines(lines)]: the strings one after the other, nothing added. *)
Definition writelines (lines : list string) : string :=
  fold_right String.append EmptyString lines.

(** [line.startswith(p)] *)
Definition startswith (line p : string) : bool := String.prefix p line.

(** *** Whitespace *)

(** The characters [str.strip], [str.split] and [str.isspace] take as
    whitespace, by their UTF-8 encodings.  One byte: U+0009 to U+000D and
    U+001C to U+0020. *)
Definition is_space1 (c : ascii) : bool :=
  let n := nat_of_ascii c in
  (Nat.leb 9 n && Nat.leb n 13) || (Nat.leb 28 n && Nat.leb n 32).

(** Two bytes: U+0085 and U+00A0. *)
Definition is_space2 (c1 c2 : ascii) : bool :=
  let n2 := nat_of_ascii c2 in
  Nat.eqb (nat_of_ascii c1) 194 && (Nat.eqb n2 133 || Nat.eqb n2 160).

(** Three bytes: U+1680, U+2000 to U+200A, U+2028, U+2029, U+202F, U+205F
    and U+3000. *)
Definition is_space3 (c1 c2 c3 : ascii) : bool :=
  let n1 := nat_of_ascii c1 in
  let n2 := nat_of_ascii c2 in
  let n3 := nat_of_ascii c3 in
  (Nat.eqb n1 225 && Nat.eqb n2 154 && Nat.eqb n3 128)
  || (Nat.eqb n1 226 && Nat.eqb n2 128 &&
      ((Nat.leb 128 n3 && Nat.leb n3 138)
       || Nat.eqb n3 168 || Nat.eqb n3 169 || Nat.eqb n3 175))
  || (Nat.eqb n1 226 && Nat.eqb n2 129 && Nat.eqb n3 159)
  || (Nat.eqb n1 227 && Nat.eqb n2 128 && Nat.eqb n3 128).

(** Leading whitespace removed.  [sp2] and [sp3] recognise the characters
    of two and three bytes, so that the same function serves on a reversed
    text. *)
Fixpoint lstrip_with (sp2 : ascii -> ascii -> bool)
    (sp3 : ascii -> ascii -> ascii -> bool) (l : list ascii) : list ascii :=
  match l with
  | [] => []
  | c1 :: l1 =>
      if is_space1 c1 then lstrip_with sp2 sp3 l1
      else
        match l1 with
        | [] => l
        | c2 :: l2 =>
            if sp2 c1 c2 then lstrip_with sp2 sp3 l2
            else
              match l2 with
              | [] => l
              | c3 :: l3 => if sp3 c1 c2 c3 then lstrip_with sp2 sp3 l3 else l
              end
        end
  end.

(** [s.lstrip()] *)
Definition lstrip (l : list ascii) : list ascii :=
  lstrip_with is_space2 is_space3 l.

(** [s.rstrip()]: the last character of the text is the first of the
    reversed text, its bytes in reverse order. *)
Definition rstrip (l : list ascii) : list ascii :=
  rev (lstrip_with (fun c2 c1 => is_space2 c1 c2)
         (fun c3 c2 c1 => is_space3 c1 c2 c3) (rev l)).

(** [s.strip()] *)
Definition strip (l : list ascii) : list ascii := rstrip (lstrip l).

(** The text begins with a whitespace character. *)
Definition starts_with_space (l : list ascii) : bool :=
  match l with
  | [] => false
  | c1 :: l1 =>
      is_space1 c1 ||
      match l1 with
      | [] => false
      | c2 :: l2 =>
          is_space2 c1 c2 ||
          match l2 with
          | [] => false
          | c3 :: _ => is_space3 c1 c2 c3
          end
      end
  end.

(** *** [int] *)

(** Whitespace around an ASCII literal, as [int] skips it: the space and
    U+0009 to U+000D.  U+001C to U+001F, whitespace for [str.strip], are
    none here. *)
Definition is_c_space (c : ascii) : bool :=
  let n := nat_of_ascii c in
  Nat.eqb n 32 || (Nat.leb 9 n && Nat.leb n 13).

Fixpoint lstrip_c (l : list ascii) : list ascii :=
  match l with
  | c :: l' => if is_c_space c then lstrip_c l' else l
  | [] => []
  end.

Definition strip_c (l : list ascii) : list ascii :=
  rev (lstrip_c (rev (lstrip_c l))).

Definition is_digit (c : ascii) : bool :=
  let n := nat_of_ascii c in
  Nat.leb 48 n && Nat.leb n 57.

Definition digit_value (c : ascii) : option Z :=
  if is_digit c then Some (Z.of_nat (nat_of_ascii c - 48)) else None.

(** Decimal digits, single underscores allowed between two digits. *)
Fixpoint digits (acc : Z) (after_digit : bool) (l : list ascii) : option Z :=
  match l with
  | [] => if after_digit then Some acc else None
  | c :: l' =>
      match digit_value c with
      | Some d => digits (10 * acc + d) true l'
      | None =>
          if Ascii.eqb c "_" && after_digit then digits acc false l' else None
      end
  end.

(** The value of an ASCII literal in base 10: surrounding whitespace, an
    optional sign, then digits.  [None] when it is no literal. *)
Definition int_literal (s : string) : option Z :=
  match strip_c (list_ascii_of_string s) with
  | c :: l =>
      if Ascii.eqb c "-" then Z.opp <$> digits 0 false l
      else if Ascii.eqb c "+" then digits 0 false l
      else digits 0 false (c :: l)
  | [] => None
  end.

(** A string for which [int] does the same on every interpreter: ASCII
    only, so that no Unicode table is consulted, and at most 640 digits,
    below which no limit on the digits of a conversion applies. *)
Definition plain_literal (s : string) : bool :=
  let l := list_ascii_of_string s in
  forallb (fun c => Nat.ltb (nat_of_ascii c) 128) l
  && Nat.leb (length (List.filter is_digit l)) 640.

Definition backslash : ascii := ascii_of_nat 92.
Definition single_quote : ascii := ascii_of_nat 39.
Definition double_quote : ascii := ascii_of_nat 34.

Definition hex_digit (n : nat) : ascii :=
  if Nat.ltb n 10 then ascii_of_nat (48 + n) else ascii_of_nat (87 + n).

(** One character of [repr(s)] for an ASCII string quoted with [quote]. *)
Definition repr_char (quote c : ascii) : list ascii :=
  let n := nat_of_ascii c in
  if Ascii.eqb c quote || Ascii.eqb c backslash then [backslash; c]
  else if Nat.eqb n 9 then [backslash; "t"%char]
  else if Nat.eqb n 10 then [backslash; "n"%char]
  else if Nat.eqb n 13 then [backslash; "r"%char]
  else if Nat.ltb n 32 || Nat.eqb n 127 then
    [backslash; "x"%char; hex_digit (n / 16); hex_digit (n mod 16)]
  else [c].

(** [repr(s)] for an ASCII string: single quotes, unless the string holds
    a single quote and no double quote. *)
Definition repr_ascii (s : string) : list ascii :=
  let l := list_ascii_of_string s in
  let quote :=
    if existsb (Ascii.eqb single_quote) l && negb (existsb (Ascii.eqb double_quote) l)
    then double_quote else single_quote in
  quote :: List.concat (List.map (repr_char quote) l) ++ [quote].

(** The message of the ValueError of [int(s)] for an ASCII string that is
    no literal: it shows the first 200 characters of [repr(s)]. *)
Definition invalid_literal (s : string) : string :=
  "invalid literal for int() with base 10: "
  +:+ string_of_list_ascii (firstn 200 (repr_ascii s)).

(** [int(s)] for a string, base 10: the number, or the message of the
    ValueError.  The interpreter [x] is asked, with the events so far,
    about a string that is no plain literal. *)
Definition py_int (x : External) (h : list event) (s : string) : Z + string :=
  if plain_literal s then
    match int_literal s with
    | Some n => inl n
    | None => inr (invalid_literal s)
    end
  else ext_int x h s.

(** [int(os.getenv(key, default))] once [os.getenv(key)] is known: the
    default is an [int] already, a value of the variable is parsed. *)
Definition int_of_getenv (v : option string) (default : Z) : M Z :=
  match v with
  | None => ret default
  | Some s =>
      fun w =>
        match py_int (ext w) (trace w) s with
        | inl n => (Returned n, w)
        | inr message => (Raised (Exn ValueError message), w)
        end
  end.

(** [str(n)] for a natural number. *)
Definition str_nat (n : nat) : string :=
  DecimalString.NilEmpty.string_of_uint (Nat.to_uint n).

(** [s * n] on strings. *)
Fixpoint repeat_string (s : string) (n : nat) : string :=
  match n with
  | O => EmptyString
  | S n' => s +:+ repeat_string s n'
  end.

(** The text of a triple-quoted literal, line by line: every line of the
    literal ends with a line feed. *)
Definition unlines (lines : list string) : string :=
  writelines (List.map (fun l => l +:+ nl) lines).

(** [dir / name] on paths, as the name of the file. *)
Definition path_join (dir name : string) : string := dir +:+ "/" +:+ name.

(** [s.split()[0]]: the first run of characters that are no whitespace;
    IndexError when there is none. *)
Fixpoint take_word (l : list ascii) : list ascii :=
  match l with
  | c :: l' => if starts_with_space l then [] else c :: take_word l'
  | [] => []
  end.

Definition first_word (s : string) : M string :=
  match take_word (lstrip (list_ascii_of_string s)) with
  | [] => raise (Exn (OtherException "IndexError") "list index out of range")
  | word => ret (string_of_list_ascii word)
  end.

(** * run_browser_automation.py *)

Module Launcher.

(** The credentials file [setup_api_keys] creates when there is none. *)
Definition env_content : string :=
  unlines [
    "# Browser-Use API Configuration";
    "GEMINI_API_KEY=";
    "OPENAI_API_KEY=";
    "ANTHROPIC_API_KEY=";
    "GROQ_API_KEY=";
    "";
    "# Browser Settings";
    "HEADLESS=false";
    "BROWSER_SLOW_MO=1000"
  ].

(** [update_env_file], the list part: the first line that starts with
    [key_name=] is overwritten at its index, and the loop stops there; when
    no line matched the new line is appended. *)
Definition update_lines (key_name key_value : string) (lines : list string)
    : list string :=
  let entry := key_name +:+ "=" +:+ key_value +:+ nl in
  match list_find (fun line => Is_true (startswith line (key_name +:+ "="))) lines with
  | Some (i, _) => <[i := entry]> lines
  | None => lines ++ [entry]
  end.

(** [update_env_file(self, key_name, key_value)]; [env_file] is
    [self.env_file].  Nothing happens when the file does not exist. *)
Definition update_env_file (env_file key_name key_value : string) : M unit :=
  fun w =>
    match files w !! env_file with
    | Some text =>
        let lines := readlines text in
        let lines' := update_lines key_name key_value lines in
        write_text env_file (writelines lines') w
    | None => (Returned tt, w)
    end.

(** One branch of [get_llm_instance]: import the client class and build the
    client; on ImportError install the package with pip and do the same
    again, this time unprotected. *)
Definition load_client (module cls model key_kw key_var pkg label : string)
    : M (pyval * string) :=
  let construct :=
    (import_from module cls ;;
     key <- getenv key_var ;;
     llm <- new cls [("model", VStr model); (key_kw, of_option key)] ;;
     ret (llm, label)) in
  try_except construct isinstance_ImportError
    (fun _ =>
       exe <- get_sys_executable ;;
       subprocess_run [exe; "-m"; "pip"; "install"; pkg] false ;;
       construct).

Definition no_api_key : exn :=
  Exn ValueError "No valid API key found. Please set up an API key first.".

(** [get_llm_instance(self)] *)
Definition get_llm_instance : M (pyval * string) :=
  load_dotenv true ;;
  gemini <- getenv "GEMINI_API_KEY" ;;
  if truthy gemini then
    load_client "langchain_google_genai" "ChatGoogleGenerativeAI"
      "gemini-1.5-flash" "google_api_key" "GEMINI_API_KEY"
      "langchain-google-genai" "Gemini (FREE)"
  else
    groq <- getenv "GROQ_API_KEY" ;;
    if truthy groq then
      load_client "langchain_groq" "ChatGroq"
        "mixtral-8x7b-32768" "groq_api_key" "GROQ_API_KEY"
        "langchain-groq" "Groq (FREE)"
    else
      openai <- getenv "OPENAI_API_KEY" ;;
      if truthy openai then
        load_client "langchain_openai" "ChatOpenAI"
          "gpt-4" "api_key" "OPENAI_API_KEY"
          "langchain-openai" "OpenAI GPT-4"
      else
        anthropic <- getenv "ANTHROPIC_API_KEY" ;;
        if truthy anthropic then
          load_client "langchain_anthropic" "ChatAnthropic"
            "claude-3-sonnet-20240229" "api_key" "ANTHROPIC_API_KEY"
            "langchain-anthropic" "Claude 3"
        else
          raise no_api_key.

(** [run_automation_task(self, task, headless=False)]: the whole body is
    one [try] whose [except Exception] prints and returns [None]. *)
Definition run_automation_task (task : string) (headless : bool)
    : M (option string) :=
  try_except
    (import_from "browser_use" "Agent" ;;
     import_from "browser_use.browser.browser" "Browser" ;;
     selected <- get_llm_instance ;;
     print ("🤖 Using " +:+ snd selected) ;;
     slow_mo_var <- getenv "BROWSER_SLOW_MO" ;;
     slow_mo <- int_of_getenv slow_mo_var 1000 ;;
     browser <- new "Browser" [("headless", VBool headless); ("slow_mo", VInt slow_mo)] ;;
     agent <- new "Agent" [("task", VStr task); ("llm", fst selected); ("browser", browser)] ;;
     print ("🚀 Running task: " +:+ task) ;;
     result <- await_arun agent ;;
     print "✅ Task completed!" ;;
     print ("Result: " +:+ result) ;;
     ret (Some result))
    isinstance_Exception
    (fun e =>
       print ("❌ Task failed: " +:+ exn_str e) ;;
       ret None).

(** [install_browser_use(self)] *)
Definition install_browser_use : M bool :=
  print "📦 Installing browser-use..." ;;
  try_except
    (exe <- get_sys_executable ;;
     subprocess_run [exe; "-m"; "pip"; "install"; "browser-use"; "playwright"; "python-dotenv"] false ;;
     subprocess_run [exe; "-m"; "playwright"; "install"; "chromium"] false ;;
     print "✅ Installation complete!" ;;
     ret true)
    isinstance_CalledProcessError
    (fun e =>
       print ("❌ Installation failed: " +:+ exn_str e) ;;
       ret false).

(** [check_installation(self)].  The first [except] clause returns from the
    function; the second runs two installs outside any [try]. *)
Definition check_installation : M bool :=
  print "🔍 Checking installation..." ;;
  early <- try_except
    (import_module "browser_use" ;;
     print "✅ Browser-use installed" ;;
     ret None)
    isinstance_ImportError
    (fun _ =>
       print "❌ Browser-use not installed" ;;
       r <- install_browser_use ;;
       ret (Some r)) ;;
  match early with
  | Some r => ret r
  | None =>
      try_except
        (import_module "playwright" ;;
         print "✅ Playwright available")
        isinstance_ImportError
        (fun _ =>
           print "❌ Installing Playwright..." ;;
           exe <- get_sys_executable ;;
           subprocess_run [exe; "-m"; "pip"; "install"; "playwright"] false ;;
           subprocess_run [exe; "-m"; "playwright"; "install"; "chromium"] false) ;;
      ret true
  end.

End Launcher.

(** ** The loop shared by the two installers *)

(** The loop of both setup drivers:
    [for step_name, step_func in steps: if not step_func(): failed_steps.append(step_name)].
    [before] is what the driver does ahead of each call (the Termux driver
    prints a line, the desktop one nothing).  [EvStep] and [EvStepDone]
    mark the call of a step and its return in the trace; they are ghost
    events, nothing is printed for them. *)
Fixpoint run_steps (before : string -> M unit) (steps : list (string * M bool))
    (failed_steps : list string) : M (list string) :=
  match steps with
  | [] => ret failed_steps
  | (step_name, step_func) :: rest =>
      before step_name ;;
      emit (EvStep step_name) ;;
      ok <- step_func ;;
      emit (EvStepDone step_name ok) ;;
      run_steps before rest
        (if ok then failed_steps else failed_steps ++ [step_name])
  end.

(** [for step in failed_steps: print(f"   - {step}")] *)
Fixpoint print_failed (failed_steps : list string) : M unit :=
  match failed_steps with
  | [] => ret tt
  | step :: rest => print ("   - " +:+ step) ;; print_failed rest
  end.

(** * browser_use_setup.py *)

Module Setup.

(** [check_python_version(self)]: [sys.version_info < (3, 11)] compares the
    major and minor numbers lexicographically. *)
Definition check_python_version : M bool :=
  print "🔍 Checking Python version..." ;;
  fun w =>
    let '(major, minor) := version_info (ext w) in
    let version := sys_version (ext w) in
    if (major <? 3)%Z || ((major =? 3)%Z && (minor <? 11)%Z) then
      (print ("❌ Python 3.11+ required. Current version: " +:+ version) ;;
       print "Please upgrade Python to 3.11 or higher" ;;
       ret false) w
    else
      (short <- first_word version ;;
       print ("✅ Python " +:+ short +:+ " - Compatible!") ;;
       ret true) w.

(** [install_uv(self)] *)
Definition install_uv : M bool :=
  print (nl +:+ "📦 Installing UV package manager...") ;;
  found <- try_except
    (subprocess_run ["uv"; "--version"] false ;;
     print "✅ UV already installed!" ;;
     ret true)
    isinstance_CalledProcessError_or_FileNotFoundError
    (fun _ => ret false) ;;
  if found : bool then ret true
  else
    try_except
      (system <- get_platform_system ;;
       (if String.eqb system "windows" then
          exe <- get_sys_executable ;;
          subprocess_run [exe; "-m"; "pip"; "install"; "uv"] false
        else
          subprocess_run ["curl"; "-LsSf"; "https://astral.sh/uv/install.sh"] true) ;;
       print "✅ UV installed successfully!" ;;
       ret true)
      isinstance_CalledProcessError
      (fun e =>
         print ("❌ Failed to install UV: " +:+ exn_str e) ;;
         print "Please install UV manually from: https://github.com/astral-sh/uv" ;;
         ret false).

(** [install_browser_use(self)]: only CalledProcessError leads to the pip
    fallback. *)
Definition install_browser_use : M bool :=
  print (nl +:+ "🌐 Installing browser-use...") ;;
  try_except
    (subprocess_run ["uv"; "pip"; "install"; "browser-use"] false ;;
     print "✅ Browser-use installed successfully!" ;;
     ret true)
    isinstance_CalledProcessError
    (fun _ =>
       try_except
         (exe <- get_sys_executable ;;
          subprocess_run [exe; "-m"; "pip"; "install"; "browser-use"] false ;;
          print "✅ Browser-use installed successfully (via pip)!" ;;
          ret true)
         isinstance_CalledProcessError
         (fun e =>
            print ("❌ Failed to install browser-use: " +:+ exn_str e) ;;
            ret false)).

(** [install_chromium(self)] *)
Definition install_chromium : M bool :=
  print (nl +:+ "🌍 Installing Chromium browser...") ;;
  try_except
    (subprocess_run ["uvx"; "playwright"; "install"; "chromium"; "--with-deps"; "--no-shell"] false ;;
     print "✅ Chromium installed successfully!" ;;
     ret true)
    isinstance_CalledProcessError
    (fun _ =>
       try_except
         (exe <- get_sys_executable ;;
          subprocess_run [exe; "-m"; "playwright"; "install"; "chromium"] false ;;
          print "✅ Chromium installed successfully (fallback method)!" ;;
          ret true)
         isinstance_CalledProcessError
         (fun e =>
            print ("❌ Failed to install Chromium: " +:+ exn_str e) ;;
            print "Please install manually: python -m playwright install chromium" ;;
            ret false)).

(** The credentials file written by [setup_env_file]. *)
Definition env_content : string :=
  unlines [
    "# Browser-Use Environment Configuration";
    "# Get your FREE Gemini API key from: https://makersuite.google.com/app/apikey";
    "";
    "# REQUIRED: Choose ONE of the following LLM providers";
    "GEMINI_API_KEY=your_gemini_api_key_here";
    "";
    "# OPTIONAL: Alternative LLM providers (uncomment and add key if preferred)";
    "# OPENAI_API_KEY=your_openai_api_key_here";
    "# ANTHROPIC_API_KEY=your_anthropic_api_key_here";
    "# GROQ_API_KEY=your_groq_api_key_here";
    "";
    "# OPTIONAL: Browser settings";
    "# HEADLESS=false  # Set to true for headless mode";
    "# BROWSER_SLOW_MO=1000  # Milliseconds to slow down browser actions";
    "";
    "# OPTIONAL: Logging";
    "# LOG_LEVEL=INFO"
  ].

Section Scripts.

(** [setup_dir] is [Path.cwd()].  The texts of the two generated scripts
    are string literals of the source (browser_use_setup.py, lines 138-203
    and 216-395); nothing below depends on what they say. *)
Variable setup_dir : string.
Variables demo_content advanced_content : string.

Definition env_file : string := path_join setup_dir ".env".

(** [setup_env_file(self)] *)
Definition setup_env_file : M bool :=
  print (nl +:+ "🔑 Setting up environment variables...") ;;
  present <- path_exists env_file ;;
  if present : bool then
    print "✅ .env file already exists!" ;;
    ret true
  else
    print "Creating .env file for API keys..." ;;
    write_text env_file env_content ;;
    print ("✅ Created .env file at: " +:+ env_file) ;;
    print (nl +:+ "🚨 IMPORTANT: You need to add your API key to the .env file!") ;;
    print "For FREE unlimited usage, get a Gemini API key from:" ;;
    print "https://makersuite.google.com/app/apikey" ;;
    ret true.

(** [create_demo_script(self)] *)
Definition create_demo_script : M bool :=
  print (nl +:+ "📝 Creating demo script...") ;;
  let demo_file := path_join setup_dir "demo_browser_use.py" in
  write_text demo_file demo_content ;;
  print ("✅ Demo script created: " +:+ demo_file) ;;
  ret true.

(** [create_advanced_script(self)] *)
Definition create_advanced_script : M bool :=
  print (nl +:+ "🎯 Creating advanced usage script...") ;;
  let advanced_file := path_join setup_dir "advanced_browser_use.py" in
  write_text advanced_file advanced_content ;;
  print ("✅ Advanced script created: " +:+ advanced_file) ;;
  ret true.

(** The fixed list of [run_full_setup]. *)
Definition steps : list (string * M bool) := [
  ("Python Version Check", check_python_version);
  ("UV Package Manager", install_uv);
  ("Browser-Use Installation", install_browser_use);
  ("Chromium Installation", install_chromium);
  ("Environment Setup", setup_env_file);
  ("Demo Script Creation", create_demo_script);
  ("Advanced Script Creation", create_advanced_script)
].

(** [run_full_setup(self)] *)
Definition run_full_setup : M unit :=
  print "🚀 Browser-Use Complete Setup" ;;
  print (repeat_string "=" 50) ;;
  failed_steps <- run_steps (fun _ => ret tt) steps [] ;;
  print (nl +:+ repeat_string "=" 50) ;;
  (match failed_steps with
   | [] =>
       print "🎉 SETUP COMPLETE! Browser-Use is ready for unlimited automation!" ;;
       print (nl +:+ "📋 Next Steps:") ;;
       print "1. Get your FREE Gemini API key: https://makersuite.google.com/app/apikey" ;;
       print "2. Add it to the .env file (replace 'your_gemini_api_key_here')" ;;
       print "3. Run: python demo_browser_use.py" ;;
       print "4. For advanced features: python advanced_browser_use.py" ;;
       print (nl +:+ "💡 Tips:") ;;
       print "- Gemini API is completely FREE with no usage limits" ;;
       print "- Use headless=True for faster, background automation" ;;
       print "- Check the .env file for more configuration options"
   | _ =>
       print ("⚠️  Setup completed with " +:+ str_nat (length failed_steps) +:+ " issues:") ;;
       print_failed failed_steps ;;
       print (nl +:+ "Please resolve these issues and try again.")
   end) ;;
  print (nl +:+ "🔗 Resources:") ;;
  print "- Documentation: https://browser-use.com" ;;
  print "- GitHub: https://github.com/browser-use/browser-use" ;;
  print "- Discord: https://discord.gg/browser-use".

End Scripts.

End Setup.

(** * termux_browser_use_setup.py *)

Module Termux.

(** [check_termux_environment(self)] *)
Definition check_termux_environment : M bool :=
  print "🔍 Checking Termux environment..." ;;
  fun w =>
    if termux_prefix_exists (ext w) then
      (print "✅ Termux environment detected!" ;;
       ret true) w
    else
      (print "❌ This script is designed for Termux on Android" ;;
       print "For PC setup, use browser_use_setup.py instead" ;;
       ret false) w.

(** [update_packages(self)] *)
Definition update_packages : M bool :=
  print (nl +:+ "📦 Updating Termux packages...") ;;
  try_except
    (subprocess_run ["pkg"; "update"; "-y"] false ;;
     subprocess_run ["pkg"; "upgrade"; "-y"] false ;;
     print "✅ Packages updated!" ;;
     ret true)
    isinstance_CalledProcessError
    (fun e =>
       print ("❌ Failed to update packages: " +:+ exn_str e) ;;
       ret false).

(** The loop of [install_dependencies]: each package in its own [try]. *)
Fixpoint install_packages (packages : list string) : M unit :=
  match packages with
  | [] => ret tt
  | package :: rest =>
      try_except
        (print ("Installing " +:+ package +:+ "...") ;;
         subprocess_run ["pkg"; "install"; package; "-y"] false)
        isinstance_CalledProcessError
        (fun _ => print ("⚠️  Failed to install " +:+ package +:+ ", continuing...")) ;;
      install_packages rest
  end.

(** [install_dependencies(self)] *)
Definition install_dependencies : M bool :=
  print (nl +:+ "🔧 Installing dependencies...") ;;
  install_packages ["python"; "python-pip"; "git"; "nodejs"; "chromium"; "x11-repo"; "tur-repo"] ;;
  print "✅ Dependencies installation completed!" ;;
  ret true.

(** The loop of [install_python_packages], inside that function's [try]. *)
Fixpoint pip_install_each (exe : string) (packages : list string) : M unit :=
  match packages with
  | [] => ret tt
  | package :: rest =>
      print ("Installing " +:+ package +:+ "...") ;;
      subprocess_run [exe; "-m"; "pip"; "install"; package] false ;;
      pip_install_each exe rest
  end.

(** [install_python_packages(self)] *)
Definition install_python_packages : M bool :=
  print (nl +:+ "🐍 Installing Python packages...") ;;
  try_except
    (exe <- get_sys_executable ;;
     subprocess_run [exe; "-m"; "pip"; "install"; "--upgrade"; "pip"] false ;;
     pip_install_each exe ["browser-use"; "python-dotenv"; "langchain-google-genai"; "playwright"; "asyncio"] ;;
     print "✅ Python packages installed!" ;;
     ret true)
    isinstance_CalledProcessError
    (fun e =>
       print ("❌ Failed to install Python packages: " +:+ exn_str e) ;;
       ret false).

(** [setup_playwright(self)]: reports success also when the install failed. *)
Definition setup_playwright : M bool :=
  print (nl +:+ "🎭 Setting up Playwright...") ;;
  try_except
    (exe <- get_sys_executable ;;
     subprocess_run [exe; "-m"; "playwright"; "install"; "chromium"] false ;;
     print "✅ Playwright setup complete!" ;;
     ret true)
    isinstance_CalledProcessError
    (fun e =>
       print ("❌ Playwright setup failed: " +:+ exn_str e) ;;
       print "Trying alternative Chromium setup..." ;;
       ret true).

Definition dq : string := String (ascii_of_nat 34) EmptyString.

(** The VNC start script written by [setup_display]. *)
Definition vnc_content : string :=
  unlines [
    "#!/bin/bash";
    "# Start VNC server for browser automation";
    "export DISPLAY=:1";
    "vncserver -geometry 1280x720 -depth 24 :1";
    "echo " +:+ dq +:+ "VNC server started on display :1" +:+ dq;
    "echo " +:+ dq +:+ "Connect with VNC viewer to localhost:5901" +:+ dq
  ].

(** The credentials file written by [create_env_file]. *)
Definition env_content : string :=
  unlines [
    "# Browser-Use Configuration for Termux";
    "# Get FREE Gemini API key: https://makersuite.google.com/app/apikey";
    "";
    "# REQUIRED: Add your API key here";
    "GEMINI_API_KEY=your_gemini_api_key_here";
    "";
    "# Termux-specific settings";
    "HEADLESS=true";
    "BROWSER_EXECUTABLE=/data/data/com.termux/files/usr/bin/chromium";
    "DISPLAY=:1";
    "";
    "# Optional: Other LLM providers";
    "# OPENAI_API_KEY=your_openai_key_here";
    "# GROQ_API_KEY=your_groq_key_here";
    "";
    "# Performance settings for mobile";
    "BROWSER_TIMEOUT=60000";
    "BROWSER_SLOW_MO=2000"
  ].

Section Scripts.

(** [setup_dir] is [Path.home()].  The texts of the generated demo script
    and of TERMUX_SETUP.md are string literals of the source
    (termux_browser_use_setup.py, lines 172-343 and 356-402); nothing below
    depends on what they say. *)
Variable setup_dir : string.
Variables demo_content instructions : string.

Definition env_file : string := path_join setup_dir ".env".

(** [setup_display(self)] *)
Definition setup_display : M bool :=
  print (nl +:+ "🖥️  Setting up display...") ;;
  try_except
    (subprocess_run ["pkg"; "install"; "tigervnc"; "-y"] false ;;
     let vnc_script := path_join setup_dir "start_vnc.sh" in
     write_text vnc_script vnc_content ;;
     emit (EvChmod vnc_script 493) ;;
     print "✅ VNC setup complete!" ;;
     print "Run './start_vnc.sh' to start GUI support" ;;
     ret true)
    isinstance_CalledProcessError
    (fun _ =>
       print "⚠️  VNC setup failed, browser will run in headless mode" ;;
       ret true).

(** [create_env_file(self)]: writes the file whether or not it exists. *)
Definition create_env_file : M bool :=
  print (nl +:+ "🔑 Creating environment file...") ;;
  write_text env_file env_content ;;
  print ("✅ Environment file created: " +:+ env_file) ;;
  ret true.

(** [create_termux_demo(self)] *)
Definition create_termux_demo : M bool :=
  print (nl +:+ "📱 Creating Termux demo script...") ;;
  let demo_file := path_join setup_dir "termux_browser_demo.py" in
  write_text demo_file demo_content ;;
  print ("✅ Termux demo created: " +:+ demo_file) ;;
  ret true.

(** [create_setup_instructions(self)] *)
Definition create_setup_instructions : M bool :=
  print (nl +:+ "📋 Creating setup instructions...") ;;
  let instructions_file := path_join setup_dir "TERMUX_SETUP.md" in
  write_text instructions_file instructions ;;
  print ("✅ Instructions created: " +:+ instructions_file) ;;
  ret true.

(** The fixed list of [run_complete_setup]. *)
Definition steps : list (string * M bool) := [
  ("Package Update", update_packages);
  ("Dependencies Installation", install_dependencies);
  ("Python Packages", install_python_packages);
  ("Playwright Setup", setup_playwright);
  ("Display Setup", setup_display);
  ("Environment Configuration", create_env_file);
  ("Demo Script Creation", create_termux_demo);
  ("Instructions Creation", create_setup_instructions)
].

(** [run_complete_setup(self)].  The driver's own strings spell the line
    feed as a backslash followed by [n] (the source escapes the backslash),
    so these two characters are what is printed. *)
Definition run_complete_setup : M unit :=
  print "📱 Browser-Use Setup for Termux" ;;
  print (repeat_string "=" 50) ;;
  in_termux <- check_termux_environment ;;
  if negb in_termux then ret tt
  else
    failed_steps <- run_steps (fun step_name => print ("\n🔄 " +:+ step_name +:+ "...")) steps [] ;;
    print ("\n" +:+ repeat_string "=" 50) ;;
    (match failed_steps with
     | [] =>
         print "🎉 TERMUX SETUP COMPLETE!" ;;
         print "\n📋 Next Steps:" ;;
         print "1. Get FREE Gemini API key: https://makersuite.google.com/app/apikey" ;;
         print "2. Edit .env file: nano .env" ;;
         print "3. Add your API key to replace 'your_gemini_api_key_here'" ;;
         print "4. Run: python termux_browser_demo.py" ;;
         print "\n💡 Termux Tips:" ;;
         print "- Browser runs in headless mode for performance" ;;
         print "- Use 'termux-wake-lock' to prevent sleep during automation" ;;
         print "- Check TERMUX_SETUP.md for detailed instructions"
     | _ =>
         print ("⚠️  Setup completed with " +:+ str_nat (length failed_steps) +:+ " issues:") ;;
         print_failed failed_steps
     end) ;;
    print "\n🔗 Resources:" ;;
    print "- Termux Wiki: https://wiki.termux.com/" ;;
    print "- Browser-Use Docs: https://browser-use.com".

End Scripts.

End Termux.

(** * Vocabulary of the properties *)

(** ** The LLM providers, as the specification names them *)

Inductive provider : Type := Gemini | Groq | OpenAI | Anthropic.

Definition env_var (p : provider) : string :=
  match p with
  | Gemini => "GEMINI_API_KEY"
  | Groq => "GROQ_API_KEY"
  | OpenAI => "OPENAI_API_KEY"
  | Anthropic => "ANTHROPIC_API_KEY"
  end.

(** The fixed order of the specification: Gemini > Groq > OpenAI > Anthropic. *)
Definition priority_order : list provider := [Gemini; Groq; OpenAI; Anthropic].

(** A provider is configured when its variable holds a non-empty string. *)
Definition configured (env : gmap string string) (p : provider) : bool :=
  truthy (env !! env_var p).

(** The selection rule in the specification's words: the first provider of
    the priority list whose secret is present and non-empty. *)
Definition highest_priority (env : gmap string string) : option provider :=
  List.find (configured env) priority_order.

(** The number of configured providers. *)
Definition configured_count (env : gmap string string) : nat :=
  length (List.filter (configured env) priority_order).

(** ** Credentials and selection *)

(** The credential set provider selection works on: the process
    environment overridden by what python-dotenv reads at history [h]. *)
Definition credentials_at (w : World) (h : list event) : gmap string string :=
  ext_dotenv (ext w) h ∪ environ w.

Definition credentials (w : World) : gmap string string :=
  credentials_at w (trace w).

(** [get_llm_instance] after its first statement: the world once
    [load_dotenv(override=True)] has run. *)
Definition reloaded (w : World) : World :=
  record (EvLoadDotenv true) (set_environ (credentials w) w).

(** The constants of the four branches of [get_llm_instance]. *)
Definition client_module (p : provider) : string :=
  match p with
  | Gemini => "langchain_google_genai"
  | Groq => "langchain_groq"
  | OpenAI => "langchain_openai"
  | Anthropic => "langchain_anthropic"
  end.

Definition client_class (p : provider) : string :=
  match p with
  | Gemini => "ChatGoogleGenerativeAI"
  | Groq => "ChatGroq"
  | OpenAI => "ChatOpenAI"
  | Anthropic => "ChatAnthropic"
  end.

Definition client_model (p : provider) : string :=
  match p with
  | Gemini => "gemini-1.5-flash"
  | Groq => "mixtral-8x7b-32768"
  | OpenAI => "gpt-4"
  | Anthropic => "claude-3-sonnet-20240229"
  end.

Definition client_key_kw (p : provider) : string :=
  match p with
  | Gemini => "google_api_key"
  | Groq => "groq_api_key"
  | OpenAI | Anthropic => "api_key"
  end.

Definition client_package (p : provider) : string :=
  match p with
  | Gemini => "langchain-google-genai"
  | Groq => "langchain-groq"
  | OpenAI => "langchain-openai"
  | Anthropic => "langchain-anthropic"
  end.

Definition provider_label (p : provider) : string :=
  match p with
  | Gemini => "Gemini (FREE)"
  | Groq => "Groq (FREE)"
  | OpenAI => "OpenAI GPT-4"
  | Anthropic => "Claude 3"
  end.

(** The branch of [get_llm_instance] for provider [p]. *)
Definition load_client_of (p : provider) : M (pyval * string) :=
  Launcher.load_client (client_module p) (client_class p) (client_model p)
    (client_key_kw p) (env_var p) (client_package p) (provider_label p).

(** The client object of provider [p] built with secret [key]. *)
Definition client (p : provider) (key : string) : pyval :=
  VObj (client_class p)
    [("model", VStr (client_model p)); (client_key_kw p, VStr key)].

(** Position in the priority order; smaller is higher. *)
Definition rank (p : provider) : nat :=
  match p with
  | Gemini => 0
  | Groq => 1
  | OpenAI => 2
  | Anthropic => 3
  end.

(** The placeholder both installers write as the value of GEMINI_API_KEY. *)
Definition placeholder : string := "your_gemini_api_key_here".

(** ** Reading a trace *)

Definition is_await (ev : event) : bool :=
  match ev with EvAwait _ _ _ => true | _ => false end.

Definition is_new (ev : event) : bool :=
  match ev with EvNew _ _ _ => true | _ => false end.

Definition is_load_dotenv (ev : event) : bool :=
  match ev with EvLoadDotenv _ => true | _ => false end.

Definition is_subprocess (ev : event) : bool :=
  match ev with EvSubprocess _ _ _ => true | _ => false end.

(** An event that belongs to loading the client of provider [p]. *)
Definition loads (exe : string) (p : provider) (ev : event) : Prop :=
  match ev with
  | EvImport m (Some c) _ => m = client_module p /\ c = client_class p
  | EvSubprocess argv sh _ =>
      argv = [exe; "-m"; "pip"; "install"; client_package p] /\ sh = false
  | EvNew cls _ _ => cls = client_class p
  | _ => False
  end.

(** The events of loading an LLM client: imports, installs and the
    construction of one of the four client classes. *)
Definition client_event (ev : event) : bool :=
  match ev with
  | EvImport _ _ _ | EvSubprocess _ _ _ => true
  | EvNew cls _ _ =>
      existsb (fun p => String.eqb cls (client_class p)) priority_order
  | _ => false
  end.

(** A successful [Agent(...)]. *)
Definition agent_built (ev : event) : bool :=
  match ev with
  | EvNew cls _ None => String.eqb cls "Agent"
  | _ => false
  end.

(** The keyword arguments of every [Browser(...)] call of a trace. *)
Fixpoint browser_calls (evs : list event) : list (list (string * pyval)) :=
  match evs with
  | [] => []
  | EvNew cls kwargs _ :: rest =>
      if String.eqb cls "Browser" then kwargs :: browser_calls rest
      else browser_calls rest
  | _ :: rest => browser_calls rest
  end.

(** The number of [await]s in a trace. *)
Definition awaits (evs : list event) : nat := length (List.filter is_await evs).

(** The number of provider selections in a trace: each call of
    [get_llm_instance] starts with its [load_dotenv]. *)
Definition selections (evs : list event) : nat :=
  length (List.filter is_load_dotenv evs).

(** The steps called, most recent first. *)
Fixpoint steps_called (evs : list event) : list string :=
  match evs with
  | [] => []
  | EvStep name :: rest => name :: steps_called rest
  | _ :: rest => steps_called rest
  end.

(** The steps that returned, with what they returned, most recent first. *)
Fixpoint step_results (evs : list event) : list (string * bool) :=
  match evs with
  | [] => []
  | EvStepDone name ok :: rest => (name, ok) :: step_results rest
  | _ :: rest => step_results rest
  end.

(** The names of the steps that returned False, in the order they ran. *)
Definition failures (results : list (string * bool)) : list string :=
  List.map fst (List.filter (fun r => negb (snd r)) results).

(** The world after [lines] have been printed, one after the other, and
    nothing else has happened. *)
Definition after_prints (lines : list string) (w : World) : World :=
  fold_left (fun w0 line => record (EvPrint line) w0) lines w.

(** The steps of a driver's list run from [w], one after the other and each
    to its end: what each of them returned, and the world the last one has
    left.  [before] is what the driver does ahead of each call. *)
Inductive steps_run (before : string -> M unit) :
    list (string * M bool) -> World -> list bool -> World -> Prop :=
| steps_run_nil (w : World) : steps_run before [] w [] w
| steps_run_cons (step_name : string) (step_func : M bool)
    (rest : list (string * M bool)) (w w0 w1 w' : World) (ok : bool)
    (oks : list bool) :
    before step_name w = (Returned tt, w0) ->
    step_func (record (EvStep step_name) w0) = (Returned ok, w1) ->
    steps_run before rest (record (EvStepDone step_name ok) w1) oks w' ->
    steps_run before ((step_name, step_func) :: rest) w (ok :: oks) w'.

(** The names of the steps that returned False, in the order of the list. *)
Fixpoint failed_names (steps : list (string * M bool)) (oks : list bool)
    : list string :=
  match steps, oks with
  | (step_name, _) :: steps', ok :: oks' =>
      if ok then failed_names steps' oks'
      else step_name :: failed_names steps' oks'
  | _, _ => []
  end.

(** A line of the failure report of the drivers. *)
Definition report_line (step_name : string) : string := "   - " +:+ step_name.

Definition is_report_line (line : string) : bool := String.prefix "   - " line.

(** The lines printed, most recent first. *)
Fixpoint printed (evs : list event) : list string :=
  match evs with
  | [] => []
  | EvPrint s :: rest => s :: printed rest
  | _ :: rest => printed rest
  end.

(** ** Assumptions on the collaborators *)

(** External collaborators that let a client library be loaded: installs
    and constructions succeed, and an import fails, if at all, with an
    ImportError and only while nothing has been installed yet. *)
Record provisioned (x : External) : Prop := {
  installs_succeed : forall h argv sh, ext_subprocess x h argv sh = None;
  constructors_succeed : forall h cls kw, ext_new x h cls kw = None;
  imports_after_install : forall h m n e,
    ext_import x h m n = Some e ->
    isinstance_ImportError e = true /\ existsb is_subprocess h = false;
}.

(** What it means for [get_llm_instance], run in [w], to select provider
    [p] with secret [key]: whenever it returns it returns [p]'s client and
    label; it does return when the collaborators are [provisioned]; and
    after the reload of the environment it touches [p]'s library only. *)
Definition selects (w : World) (p : provider) (key : string) : Prop :=
  (forall r w', Launcher.get_llm_instance w = (Returned r, w') ->
     r = (client p key, provider_label p)) /\
  (provisioned (ext w) ->
     exists w', Launcher.get_llm_instance w
                = (Returned (client p key, provider_label p), w')) /\
  (forall r w', Launcher.get_llm_instance w = (r, w') ->
     exists evs, trace w' = evs ++ EvLoadDotenv true :: trace w /\
                 Forall (loads (sys_executable (ext w)) p) evs).

(** The history at the moment [run_automation_task], started in [w], calls
    [get_llm_instance]: its two imports of browser-use have succeeded. *)
Definition selection_history (w : World) : list event :=
  EvImport "browser_use.browser.browser" (Some "Browser") None
  :: EvImport "browser_use" (Some "Agent") None :: trace w.

(** [n] is [int(os.getenv("BROWSER_SLOW_MO", 1000))] on the interpreter
    [x] when [os.getenv] sees [v]. *)
Definition slow_mo_value (x : External) (v : option string) (n : Z) : Prop :=
  match v with
  | None => n = 1000%Z
  | Some s => exists h, py_int x h s = inl n
  end.

(** Collaborators and configuration with which a task gets as far as its
    agent: client libraries can be loaded, browser-use can be imported, a
    provider is configured and BROWSER_SLOW_MO, when set, is a string
    [int] accepts. *)
Record ready (w : World) : Prop := {
  ready_provisioned : provisioned (ext w);
  ready_browser_use : forall h m n,
    m = "browser_use" \/ m = "browser_use.browser.browser" ->
    ext_import (ext w) h m n = None;
  ready_configured : forall h, 1 <= configured_count (credentials_at w h);
  ready_slow_mo : forall h h' s,
    credentials_at w h !! "BROWSER_SLOW_MO" = Some s ->
    exists n, py_int (ext w) h' s = inl n;
}.

(** Every command the scripts run can be started: a failing
    [subprocess.run] is a non-zero exit status, never a missing executable. *)
Definition commands_start (x : External) : Prop :=
  forall h argv sh e,
    ext_subprocess x h argv sh = Some e -> isinstance_CalledProcessError e = true.

(** [sys.version] has a first word, as it always has. *)
Definition version_has_word (x : External) : Prop :=
  take_word (lstrip (list_ascii_of_string (sys_version x))) <> [].

(** [m], run with collaborators [x], leaves them as they are, leaves no
    step marker of its own in the trace, and lets no exception out except
    those [allowed]. *)
Definition contained (x : External) (allowed : exn -> bool) {A} (m : M A) : Prop :=
  forall w, ext w = x ->
    exists r w' evs,
      m w = (r, w') /\ trace w' = evs ++ trace w /\ ext w' = x /\
      steps_called evs = [] /\ step_results evs = [] /\
      match r with
      | Returned _ => True
      | Raised e => allowed e = true
      end.

Definition nothing : exn -> bool := fun _ => false.

(** ** Lines of a credentials file *)

(** A complete line: no line feed except the one that ends it. *)
Fixpoint complete_line (s : string) : bool :=
  match s with
  | EmptyString => false
  | String c EmptyString => is_newline c
  | String c s' => negb (is_newline c) && complete_line s'
  end.

(** A text file in which every line is complete: it is empty or ends with
    a line feed. *)
Fixpoint terminated (s : string) : bool :=
  match s with
  | EmptyString => true
  | String c EmptyString => is_newline c
  | String _ s' => terminated s'
  end.

Fixpoint no_newline (s : string) : bool :=
  match s with
  | EmptyString => true
  | String c s' => negb (is_newline c) && no_newline s'
  end.

(** The line [update_env_file] writes for a key. *)
Definition env_entry (key_name key_value : string) : string :=
  key_name +:+ "=" +:+ key_value +:+ nl.

(** ** Concrete collaborators *)

(** [str(e)] of the FileNotFoundError raised when [prog] is not installed. *)
Definition no_such_file (prog : string) : exn :=
  Exn FileNotFoundError ("[Errno 2] No such file or directory: '" +:+ prog +:+ "'").

(** [repr] of a list of plain strings. *)
Definition repr_list (l : list string) : string :=
  "[" +:+ String.concat ", " (List.map (fun s => "'" +:+ s +:+ "'") l) +:+ "]".

(** The CalledProcessError of [subprocess.run(argv, check=True)] when the
    command exits with [status]. *)
Definition exit_status (argv : list string) (status : string) : exn :=
  Exn CalledProcessError
    ("Command '" +:+ repr_list argv +:+ "' returned non-zero exit status "
     +:+ status +:+ ".").

Definition module_not_found (module : string) : exn :=
  Exn ModuleNotFoundError ("No module named '" +:+ module +:+ "'").

(** A Linux machine with CPython 3.12 whose collaborators answer the same
    way whatever happened before: [imports] for an import, [commands] for a
    command line, [agent] for [arun]; constructors succeed and no .env file
    is found.  On the machines below [ext_int] is never asked: every string
    their runs hand to [int] is a plain literal. *)
Definition machine (imports : string -> option exn)
    (commands : list string -> option exn) (agent : string + exn)
    (termux : bool) : External := {|
  ext_import := fun _ module _ => imports module;
  ext_subprocess := fun _ argv _ => commands argv;
  ext_new := fun _ _ _ => None;
  ext_arun := fun _ _ => agent;
  ext_dotenv := fun _ => ∅;
  ext_int := fun _ _ => inr "invalid literal for int()";
  sys_executable := "/usr/bin/python3";
  platform_system := "linux";
  version_info := (3, 12)%Z;
  sys_version := "3.12.3 (main, Jan  1 2025) [GCC 13.2.0]";
  termux_prefix_exists := termux;
|}.

(** Collaborators that never fail: every import, install and construction
    succeeds and the agent answers ["done"]. *)
Definition quiet : External :=
  machine (fun _ => None) (fun _ => None) (inl "done") false.

(** Collaborators whose agent fails: [arun] raises. *)
Definition failing_agent : External :=
  machine (fun _ => None) (fun _ => None)
    (inr (Exn (OtherException "TimeoutError") "navigation timed out")) false.

(** A machine without uv: running [uv] or [uvx] raises FileNotFoundError,
    the shell started for the curl command exits with a non-zero status,
    every other command succeeds. *)
Definition without_uv : External :=
  machine (fun _ => None)
    (fun argv =>
       match argv with
       | prog :: _ =>
           if String.eqb prog "uv" || String.eqb prog "uvx"
           then Some (no_such_file prog)
           else if String.eqb prog "curl" then Some (exit_status argv "2")
           else None
       | [] => None
       end)
    (inl "done") false.

(** A Termux machine on which uv is installed but every other command
    exits with a non-zero status (no network). *)
Definition offline : External :=
  machine (fun _ => None)
    (fun argv =>
       match argv with
       | [_; flag] =>
           if String.eqb flag "--version" then None
           else Some (exit_status argv "1")
       | _ => Some (exit_status argv "1")
       end)
    (inl "done") true.

(** browser-use is installed, Playwright is not, and pip cannot reach the
    network. *)
Definition playwright_missing : External :=
  machine
    (fun module =>
       if String.eqb module "playwright" then Some (module_not_found module)
       else None)
    (fun argv => Some (exit_status argv "1"))
    (inl "done") false.

(** The client libraries are not installed yet but pip can install them:
    an import of a langchain module fails until a command has been run. *)
Definition clients_missing : External := {|
  ext_import := fun h module _ =>
    if String.prefix "langchain" module && negb (existsb is_subprocess h)
    then Some (module_not_found module)
    else None;
  ext_subprocess := fun _ _ _ => None;
  ext_new := fun _ _ _ => None;
  ext_arun := fun _ _ => inl "done";
  ext_dotenv := fun _ => ∅;
  ext_int := fun _ _ => inr "invalid literal for int()";
  sys_executable := "/usr/bin/python3";
  platform_system := "linux";
  version_info := (3, 12)%Z;
  sys_version := "3.12.3 (main, Jan  1 2025) [GCC 13.2.0]";
  termux_prefix_exists := false;
|}.

(** ** Concrete worlds *)

(** A fresh process with environment [env] and files [fs]. *)
Definition start (env fs : gmap string string) (x : External) : World :=
  {| environ := env; files := fs; trace := []; ext := x |}.

(** Groq and Anthropic are both configured. *)
Definition two_keys : World :=
  start {["GROQ_API_KEY" := "gsk_live"; "ANTHROPIC_API_KEY" := "sk-ant"]} ∅ quiet.

(** The same, with the client libraries still to be installed. *)
Definition two_keys_fresh : World :=
  start {["GROQ_API_KEY" := "gsk_live"; "ANTHROPIC_API_KEY" := "sk-ant"]} ∅
    clients_missing.

(** Only OpenAI is configured; Gemini is present but empty. *)
Definition one_key : World :=
  start {["GEMINI_API_KEY" := ""; "OPENAI_API_KEY" := "sk-live"]} ∅ quiet.

(** The environment right after an installer's template was loaded: Gemini
    holds the placeholder text. *)
Definition template_key : World :=
  start {["GEMINI_API_KEY" := placeholder]} ∅ quiet.

(** No provider is configured. *)
Definition no_keys : World :=
  start {["GEMINI_API_KEY" := ""; "HEADLESS" := "false"]} ∅ quiet.

(** Gemini is configured, nothing else is set. *)
Definition gemini_only : World :=
  start {["GEMINI_API_KEY" := "AIza-live"]} ∅ quiet.

(** Gemini is configured and the agent will fail. *)
Definition gemini_failing : World :=
  start {["GEMINI_API_KEY" := "AIza-live"]} ∅ failing_agent.

(** Gemini is configured but BROWSER_SLOW_MO is set to the empty string. *)
Definition blank_slow_mo : World :=
  start {["GEMINI_API_KEY" := "AIza-live"; "BROWSER_SLOW_MO" := ""]} ∅ quiet.

(** Gemini is configured and the values of the Termux template are in the
    environment: HEADLESS=true, BROWSER_TIMEOUT=60000, BROWSER_SLOW_MO=2000. *)
Definition termux_settings : World :=
  start {["GEMINI_API_KEY" := "AIza-live"; "HEADLESS" := "true";
          "BROWSER_TIMEOUT" := "60000"; "BROWSER_SLOW_MO" := "2000"]} ∅ quiet.

(** A credentials file whose last line has no line feed. *)
Definition unterminated_env : World :=
  start ∅ {[".env" := "HEADLESS=false"]} quiet.

(** The credentials file as the launcher itself creates it. *)
Definition launcher_env : World :=
  start ∅ {[".env" := Launcher.env_content]} quiet.

(** A process without any credentials file. *)
Definition no_env_file : World := start ∅ ∅ quiet.

(** * run_browser_automation.py: the interactive part *)

(** ** The console *)

(** Standard input as the lines still to be read, each without its line
    feed, and the prompts [input] has written so far, most recent first,
    each with the number of events that came before it. *)
Record Console : Type := {
  stdin : list string;
  prompts : list (nat * string);
}.

(** The EOFError of [input] at the end of standard input. *)
Definition eof_error : exn :=
  Exn (OtherException "EOFError") "EOF when reading a line".

(** Interactive code: state and exceptions over the console and the world.
    [None] says that the fuel of a [while True] loop ran out before the
    code came to an end. *)
Definition IO (A : Type) : Type :=
  Console -> World -> option (outcome A * Console * World).

Definition io_ret {A} (a : A) : IO A := fun c w => Some (Returned a, c, w).

Definition io_bind {A B} (m : IO A) (k : A -> IO B) : IO B :=
  fun c w =>
    match m c w with
    | Some (Returned a, c', w') => k a c' w'
    | Some (Raised e, c', w') => Some (Raised e, c', w')
    | None => None
    end.

(** Code that does not touch the console. *)
Definition lift {A} (m : M A) : IO A :=
  fun c w => let (r, w') := m w in Some (r, c, w').

Definition out_of_fuel {A} : IO A := fun _ _ => None.

Declare Scope io_scope.
Delimit Scope io_scope with io.
Notation "x <- c1 ;; c2" := (io_bind c1 (fun x => c2))
  (at level 100, c1 at next level, right associativity) : io_scope.
Notation "c1 ;; c2" := (io_bind c1 (fun _ => c2))
  (at level 100, right associativity) : io_scope.

(** [input(prompt)]: the prompt is written, then a line is read. *)
Definition input (prompt : string) : IO string :=
  fun c w =>
    let shown := (length (trace w), prompt) :: prompts c in
    match stdin c with
    | line :: rest =>
        Some (Returned line, {| stdin := rest; prompts := shown |}, w)
    | [] => Some (Raised eof_error, {| stdin := []; prompts := shown |}, w)
    end.

(** ** String methods *)

Definition lower_ascii (c : ascii) : ascii :=
  let n := nat_of_ascii c in
  if Nat.leb 65 n && Nat.leb n 90 then ascii_of_nat (n + 32) else c.

Definition upper_ascii (c : ascii) : ascii :=
  let n := nat_of_ascii c in
  if Nat.leb 97 n && Nat.leb n 122 then ascii_of_nat (n - 32) else c.

(** The Kelvin sign U+212A, the one character outside ASCII whose lower
    case is an ASCII letter. *)
Definition is_kelvin (c1 c2 c3 : ascii) : bool :=
  Nat.eqb (nat_of_ascii c1) 226 && Nat.eqb (nat_of_ascii c2) 132
  && Nat.eqb (nat_of_ascii c3) 170.

(** [s.lower()], as far as a comparison with an ASCII word can tell.  The
    ASCII letters and the Kelvin sign are mapped as Python maps them.  Any
    other character is kept, where Python may put other characters for it,
    of which one at least is outside ASCII: the result is an ASCII word
    exactly when Python's is, and is then the same word.  The scripts
    compare the results with ASCII words and use them for nothing else. *)
Fixpoint lower (s : string) : string :=
  match s with
  | EmptyString => EmptyString
  | String c s' =>
      match s' with
      | String c2 (String c3 s3) =>
          if is_kelvin c c2 c3 then String "k" (lower s3)
          else String (lower_ascii c) (lower s')
      | _ => String (lower_ascii c) (lower s')
      end
  end.

(** [s.upper()] for an ASCII string; the launcher applies it to the four
    provider words only. *)
Fixpoint upper (s : string) : string :=
  match s with
  | EmptyString => EmptyString
  | String c s' => String (upper_ascii c) (upper s')
  end.

(** [s.strip()] *)
Definition str_strip (s : string) : string :=
  string_of_list_ascii (strip (list_ascii_of_string s)).

(** [x in words] for a list of strings. *)
Definition among (x : string) (words : list string) : bool :=
  existsb (String.eqb x) words.

(** ** The launcher's menu *)

Module Menu.

(** [__init__(self)]: besides computing paths it loads the .env file, the
    values already in the process environment taking precedence. *)
Definition init : M unit := load_dotenv false.

(** [show_docs(self)] *)
Definition show_docs : M unit :=
  print (nl +:+ "📚 Documentation & Resources") ;;
  print (repeat_string "=" 40) ;;
  print "• Browser-Use Docs: https://browser-use.com" ;;
  print "• GitHub Repository: https://github.com/browser-use/browser-use" ;;
  print "• Discord Community: https://discord.gg/browser-use" ;;
  print "• Free Gemini API: https://makersuite.google.com/app/apikey" ;;
  print "• Free Groq API: https://console.groq.com/" ;;
  print "• Examples: https://github.com/browser-use/browser-use/tree/main/examples".

(** [show_menu(self)] *)
Definition show_menu : IO string :=
  (lift (print (nl +:+ "🤖 Browser Automation Launcher")) ;;
   lift (print (repeat_string "=" 40)) ;;
   lift (print "1. Run predefined tasks") ;;
   lift (print "2. Interactive mode") ;;
   lift (print "3. Setup/check API keys") ;;
   lift (print "4. Test installation") ;;
   lift (print "5. View documentation") ;;
   lift (print "6. Exit") ;;
   choice <- input (nl +:+ "Choose option (1-6): ") ;;
   io_ret (str_strip choice))%io.

(** The dictionary of [run_predefined_tasks], in the order of its literal. *)
Definition tasks : list (string * string) := [
  ("1", "Go to Google and search for 'browser automation python'");
  ("2", "Visit GitHub.com, search for 'browser-use' and get the star count");
  ("3", "Go to news.ycombinator.com and get the titles of top 5 articles");
  ("4", "Visit example.com and extract all the text content");
  ("5", "Go to httpbin.org/json and extract the JSON data")
].

(** [for key, task in tasks.items(): print(f"{key}. {task}")] *)
Fixpoint print_tasks (items : list (string * string)) : M unit :=
  match items with
  | [] => ret tt
  | (key, task) :: rest => print (key +:+ ". " +:+ task) ;; print_tasks rest
  end.

(** [tasks[choice]] when [choice in tasks]. *)
Definition lookup_task (choice : string) : option string :=
  snd <$> List.find (fun item => String.eqb choice (fst item)) tasks.

(** [run_predefined_tasks(self)]; tasks are run with the default
    [headless=False]. *)
Definition run_predefined_tasks : IO unit :=
  (lift (print "🎯 Predefined Tasks:") ;;
   lift (print_tasks tasks) ;;
   line <- input (nl +:+ "Select task (1-5) or 'c' for custom: ") ;;
   let choice := str_strip line in
   match lookup_task choice with
   | Some task =>
       lift (Launcher.run_automation_task task false) ;;
       io_ret tt
   | None =>
       if String.eqb (lower choice) "c" then
         line <- input "Enter your custom task: " ;;
         let custom_task := str_strip line in
         if negb (String.eqb custom_task "") then
           lift (Launcher.run_automation_task custom_task false) ;;
           io_ret tt
         else io_ret tt
       else lift (print "Invalid choice")
   end)%io.

(** The loop of [interactive_mode]: [while True] with a [break]. *)
Fixpoint interactive_loop (fuel : nat) : IO unit :=
  match fuel with
  | O => out_of_fuel
  | S fuel' =>
      (line <- input (nl +:+ "🤖 What would you like to automate? ") ;;
       let task := str_strip line in
       if among (lower task) ["quit"; "exit"; "q"] then io_ret tt
       else
         (if negb (String.eqb task "") then
            lift (Launcher.run_automation_task task false) ;;
            io_ret tt
          else io_ret tt) ;;
         interactive_loop fuel')%io
  end.

(** [interactive_mode(self)] *)
Definition interactive_mode (fuel : nat) : IO unit :=
  (lift (print "🎮 Interactive Browser Automation") ;;
   lift (print "Type your automation tasks, or 'quit' to exit") ;;
   interactive_loop fuel)%io.

Section Instance.

(** [self.env_file]: the .env file of the current directory. *)
Variable env_file : string.

(** [setup_api_keys(self)].  [api_keys] and [working_keys] are
    dictionaries; their order is the order of the literal. *)
Definition setup_api_keys : IO bool :=
  (lift (print "🔑 API Key Setup...") ;;
   present <- lift (path_exists env_file) ;;
   (if present : bool then io_ret tt
    else lift (write_text env_file Launcher.env_content)) ;;
   gemini <- lift (getenv "GEMINI_API_KEY") ;;
   openai <- lift (getenv "OPENAI_API_KEY") ;;
   anthropic <- lift (getenv "ANTHROPIC_API_KEY") ;;
   groq <- lift (getenv "GROQ_API_KEY") ;;
   let api_keys := [("GEMINI_API_KEY", gemini); ("OPENAI_API_KEY", openai);
                    ("ANTHROPIC_API_KEY", anthropic); ("GROQ_API_KEY", groq)] in
   let working_keys := List.filter (fun item => truthy (snd item)) api_keys in
   match working_keys with
   | [] =>
       lift (print "❌ No API keys found!") ;;
       lift (print (nl +:+ "🆓 For FREE unlimited usage, get a Gemini API key:")) ;;
       lift (print "https://makersuite.google.com/app/apikey") ;;
       lift (print (nl +:+ "After getting your key, add it to the .env file:")) ;;
       lift (print ("Edit: " +:+ env_file)) ;;
       answer <- input (nl +:+ "Would you like to add an API key now? (y/n): ") ;;
       if String.eqb (lower answer) "y" then
         line <- input "Choose provider (gemini/openai/anthropic/groq): " ;;
         let provider := lower line in
         if among provider ["gemini"; "openai"; "anthropic"; "groq"] then
           line <- input ("Enter your " +:+ upper provider +:+ " API key: ") ;;
           let key := str_strip line in
           if negb (String.eqb key "") then
             let key_name := upper provider +:+ "_API_KEY" in
             lift (Launcher.update_env_file env_file key_name key) ;;
             lift (print ("✅ " +:+ upper provider +:+ " API key saved!")) ;;
             io_ret true
           else io_ret false
         else io_ret false
       else io_ret false
   | _ =>
       lift (print ("✅ Found API keys: " +:+ repr_list (List.map fst working_keys))) ;;
       io_ret true
   end)%io.

(** The list of [run_tests]: a test passes when its function returns a
    true value ([__import__] returns the module) and fails when it returns
    False or raises. *)
Definition tests : list (string * M bool) := [
  ("Python version",
   fun w =>
     let '(major, minor) := version_info (ext w) in
     ret ((3 <? major)%Z || ((major =? 3)%Z && (8 <=? minor)%Z)) w);
  ("Browser-use import", import_module "browser_use" ;; ret true);
  ("Playwright import", import_module "playwright" ;; ret true);
  ("Dotenv import", import_module "dotenv" ;; ret true);
  ("Environment file", path_exists env_file)
].

(** The loop of [run_tests]: each test in its own [try]. *)
Fixpoint run_each (tests : list (string * M bool)) : M unit :=
  match tests with
  | [] => ret tt
  | (test_name, test_func) :: rest =>
      try_except
        (result <- test_func ;;
         if result : bool then print ("✅ " +:+ test_name)
         else print ("❌ " +:+ test_name))
        isinstance_Exception
        (fun e => print ("❌ " +:+ test_name +:+ ": " +:+ exn_str e)) ;;
      run_each rest
  end.

(** [run_tests(self)] *)
Definition run_tests : M unit :=
  print "🧪 Running tests..." ;;
  run_each tests.

(** The loop of [main]: [while True], left by option 6 only. *)
Fixpoint main_loop (fuel : nat) : IO unit :=
  match fuel with
  | O => out_of_fuel
  | S fuel' =>
      (choice <- show_menu ;;
       if String.eqb choice "1" then
         run_predefined_tasks ;; main_loop fuel'
       else if String.eqb choice "2" then
         interactive_mode fuel' ;; main_loop fuel'
       else if String.eqb choice "3" then
         setup_api_keys ;; main_loop fuel'
       else if String.eqb choice "4" then
         lift run_tests ;; main_loop fuel'
       else if String.eqb choice "5" then
         lift show_docs ;; main_loop fuel'
       else if String.eqb choice "6" then
         lift (print "👋 Goodbye!")
       else
         lift (print "Invalid choice, please try again.") ;; main_loop fuel')%io
  end.

(** [main(self)] *)
Definition main (fuel : nat) : IO unit :=
  (lift (print "🚀 Browser-Use Automation Launcher") ;;
   lift (print "Complete setup with all APIs included") ;;
   lift (print (repeat_string "=" 50)) ;;
   installed <- lift Launcher.check_installation ;;
   if negb installed then
     lift (print "Installation failed. Please check errors above.")
   else
     keys <- setup_api_keys ;;
     if negb keys then
       lift (print "API key setup required. Please add your key to .env file.") ;;
       lift (print "For free usage, get Gemini API key: https://makersuite.google.com/app/apikey")
     else main_loop fuel)%io.

(** The script run as a program: the module's own import of python-dotenv,
    then [BrowserAutomationLauncher()] and [asyncio.run(launcher.main())]. *)
Definition program (fuel : nat) : IO unit :=
  (lift (import_from "dotenv" "load_dotenv") ;;
   lift init ;;
   main fuel)%io.

End Instance.

End Menu.

(** ** Concrete consoles *)

(** A console on which [lines] will be typed. *)
Definition typed (lines : list string) : Console :=
  {| stdin := lines; prompts := [] |}.

(** ** More concrete collaborators and worlds *)

(** python-dotenv finds the credentials file as the launcher creates it:
    the four provider variables with empty values and the two browser
    settings. *)
Definition template_found : External := {|
  ext_import := fun _ _ _ => None;
  ext_subprocess := fun _ _ _ => None;
  ext_new := fun _ _ _ => None;
  ext_arun := fun _ _ => inl "done";
  ext_dotenv := fun _ =>
    {["GEMINI_API_KEY" := ""; "OPENAI_API_KEY" := ""; "ANTHROPIC_API_KEY" := "";
      "GROQ_API_KEY" := ""; "HEADLESS" := "false"; "BROWSER_SLOW_MO" := "1000"]};
  ext_int := fun _ _ => inr "invalid literal for int()";
  sys_executable := "/usr/bin/python3";
  platform_system := "linux";
  version_info := (3, 12)%Z;
  sys_version := "3.12.3 (main, Jan  1 2025) [GCC 13.2.0]";
  termux_prefix_exists := false;
|}.

(** A Gemini key exported in the shell, next to that file. *)
Definition exported_key : World :=
  start {["GEMINI_API_KEY" := "AIza-live"]} {[".env" := Launcher.env_content]}
    template_found.

(** ** Invariants, return values and emitted events *)

(** [m] keeps the invariant [I], however it ends. *)
Definition preserves (I : World -> Prop) {A} (m : M A) : Prop :=
  forall w r w', I w -> m w = (r, w') -> I w'.

(** An invariant that does not look at the trace. *)
Definition timeless (I : World -> Prop) : Prop :=
  forall w t, I w -> I (set_trace t w).

(** Whenever [m] returns, the value it returns satisfies [Q]. *)
Definition yields {A} (Q : A -> Prop) (m : M A) : Prop :=
  forall w a w', m w = (Returned a, w') -> Q a.

(** However [m] ends, it has only added events to the trace, and each of
    them satisfies [P]. *)
Definition emits (P : event -> Prop) {A} (m : M A) : Prop :=
  forall w r w', m w = (r, w') ->
    exists evs, trace w' = evs ++ trace w /\ Forall P evs.

(** The commands run, with how each ended, most recent first. *)
Fixpoint commands_run (evs : list event) : list (list string * option exn) :=
  match evs with
  | [] => []
  | EvSubprocess argv _ r :: rest => (argv, r) :: commands_run rest
  | _ :: rest => commands_run rest
  end.

(** A command that ran to a zero exit status. *)
Definition succeeded (argv : list string) : list string * option exn :=
  (argv, None).

(** Not a line of the failure report of the setup drivers. *)
Definition no_report_line (ev : event) : Prop :=
  match ev with
  | EvPrint s => String.prefix "   - " s = false
  | _ => True
  end.

(** Whenever [m] returns, the world it leaves satisfies [E]. *)
Definition establishes (E : World -> Prop) {A} (m : M A) : Prop :=
  forall w a w', m w = (Returned a, w') -> E w'.

(** With collaborators [x], [m] returns, and leaves them as they are. *)
Definition returns (x : External) {A} (m : M A) : Prop :=
  forall w, ext w = x -> exists a w', m w = (Returned a, w') /\ ext w' = x.

(** A credentials file with a key the user has saved, on a machine
    without uv. *)
Definition saved_key_without_uv : World :=
  start ∅ {[path_join "/home/user" ".env" := "GEMINI_API_KEY=AIza-live" +:+ nl]}
    without_uv.

(** The same file inside Termux, with no network. *)
Definition saved_key_offline : World :=
  start ∅ {[path_join "/home/user" ".env" := "GEMINI_API_KEY=AIza-live" +:+ nl]}
    offline.

(** The commands of [install_dependencies], in the order of its list. *)
Definition pkg_commands : list (list string) :=
  List.map (fun package => ["pkg"; "install"; package; "-y"])
    ["python"; "python-pip"; "git"; "nodejs"; "chromium"; "x11-repo"; "tur-repo"].

(** The commands of [install_python_packages], in order: the upgrade of
    pip, then one install per package of its list. *)
Definition pip_commands (exe : string) : list (list string) :=
  [exe; "-m"; "pip"; "install"; "--upgrade"; "pip"]
  :: List.map (fun package => [exe; "-m"; "pip"; "install"; package])
       ["browser-use"; "python-dotenv"; "langchain-google-genai"; "playwright";
        "asyncio"].

(** Termux: pip cannot install python-dotenv, every other command
    succeeds. *)
Definition no_dotenv_package : External :=
  machine (fun _ => None)
    (fun argv =>
       if among "python-dotenv" argv then Some (exit_status argv "1") else None)
    (inl "done") true.

(** ** Vocabulary of the interactive part *)

(** The name by which [setup_api_keys] asks for a provider. *)
Definition provider_word (p : provider) : string :=
  match p with
  | Gemini => "gemini"
  | Groq => "groq"
  | OpenAI => "openai"
  | Anthropic => "anthropic"
  end.

(** The order in which [setup_api_keys] lists the variables it found: the
    order of its dictionary, which is not the order of selection. *)
Definition report_order : list provider := [Gemini; OpenAI; Anthropic; Groq].

(** The launcher's template with the value [keys p] on the line of each
    provider [p]. *)
Definition env_template (keys : provider -> string) : string :=
  unlines [
    "# Browser-Use API Configuration";
    "GEMINI_API_KEY=" +:+ keys Gemini;
    "OPENAI_API_KEY=" +:+ keys OpenAI;
    "ANTHROPIC_API_KEY=" +:+ keys Anthropic;
    "GROQ_API_KEY=" +:+ keys Groq;
    "";
    "# Browser Settings";
    "HEADLESS=false";
    "BROWSER_SLOW_MO=1000"
  ].

(** The template with [key] as the value of provider [p], the other
    providers empty. *)
Definition only_key (p : provider) (key : string) (q : provider) : string :=
  if Nat.eqb (rank p) (rank q) then key else "".

(** The files after [setup_api_keys] has made sure the credentials file
    exists. *)
Definition with_template (env_file : string) (fs : gmap string string)
    : gmap string string :=
  match fs !! env_file with
  | Some _ => fs
  | None => <[env_file := Launcher.env_content]> fs
  end.

(** A line that ends [interactive_mode]. *)
Definition quits (line : string) : bool :=
  among (lower (str_strip line)) ["quit"; "exit"; "q"].

(** The tasks [interactive_mode] makes of the lines typed: each line
    without its surrounding blanks, blank lines left out. *)
Definition typed_tasks (lines : list string) : list string :=
  List.filter (fun task => negb (String.eqb task ""))
    (List.map str_strip lines).

(** The tasks run one after the other, each with the default
    [headless=False]. *)
Fixpoint run_all (tasks : list string) : M unit :=
  match tasks with
  | [] => ret tt
  | task :: rest => Launcher.run_automation_task task false ;; run_all rest
  end.

(** Each event of a run satisfies [P], however the run ends. *)
Definition io_emits (P : event -> Prop) {A} (m : IO A) : Prop :=
  forall c w r c' w', m c w = Some (r, c', w') ->
    exists evs, trace w' = evs ++ trace w /\ Forall P evs.

(** An event that is not the construction of a headless Browser: a Browser
    is built with [headless=False] and a [slow_mo], nothing else. *)
Definition windowed (ev : event) : Prop :=
  match ev with
  | EvNew cls kwargs _ =>
      cls = "Browser" ->
      exists n, kwargs = [("headless", VBool false); ("slow_mo", VInt n)]
  | _ => True
  end.







(** * The scripts the installers write *)

(** The installers write three scripts as text: demo_browser_use.py and
    advanced_browser_use.py (browser_use_setup.py, lines 138-203 and
    216-395) and termux_browser_demo.py (termux_browser_use_setup.py, lines
    172-343).  Their functions are embedded below as the programs they are
    once written.  In the text of a script a doubled backslash of the source
    is a single one, so what the source spells as a backslash and [n] inside
    these literals is a line feed when the script runs.  Left out:
    [run_mobile_tasks] of the Termux script, which slices the agent's
    result (the model has only its printed form), and with it that script's
    [main] and [check_termux_setup]. *)

(** [try: body  except <classes> as e: handler e] around interactive code. *)
Definition io_try_except {A} (body : IO A) (catches : exn -> bool)
    (handler : exn -> IO A) : IO A :=
  fun c w =>
    match body c w with
    | Some (Raised e, c', w') =>
        if catches e then handler e c' w' else Some (Raised e, c', w')
    | other => other
    end.

(** [s or default] for a string [s]. *)
Definition or_default (s default : string) : string :=
  if String.eqb s "" then default else s.

(** [repr] of a dictionary of plain strings. *)
Definition repr_dict (items : list (string * string)) : string :=
  "{" +:+ String.concat ", "
            (List.map (fun item => "'" +:+ fst item +:+ "': '" +:+ snd item +:+ "'") items)
  +:+ "}".

(** ** demo_browser_use.py *)

Module Demo.

(** [demo_search()] *)
Definition demo_search : M unit :=
  key <- getenv "GEMINI_API_KEY" ;;
  if negb (truthy key) then
    print "❌ Please set your GEMINI_API_KEY in the .env file!" ;;
    print "Get a free key from: https://makersuite.google.com/app/apikey"
  else
    print "🚀 Starting browser automation demo..." ;;
    try_except
      (import_from "browser_use.browser.browser" "Browser" ;;
       import_from "browser_use.agent.service" "Agent" ;;
       import_from "langchain_google_genai" "ChatGoogleGenerativeAI" ;;
       key <- getenv "GEMINI_API_KEY" ;;
       llm <- new "ChatGoogleGenerativeAI"
                [("model", VStr "gemini-1.5-flash"); ("google_api_key", of_option key)] ;;
       browser <- new "Browser" [] ;;
       agent <- new "Agent"
                  [("task", VStr "Go to GitHub, search for 'browser-use' repository, and tell me how many stars it has");
                   ("llm", llm); ("browser", browser)] ;;
       result <- await_arun agent ;;
       print ("✅ Demo completed! Result: " +:+ result))
      isinstance_Exception
      (fun e =>
         print ("❌ Demo failed: " +:+ exn_str e) ;;
         print "This might be due to missing dependencies or API key issues.").

(** [run_demo()]: [asyncio.run(demo_search())] *)
Definition run_demo : M unit := demo_search.

(** The script run as a program: its imports, [load_dotenv()], then the
    block under [if __name__ == "__main__"]. *)
Definition program : IO unit :=
  (lift (import_from "browser_use" "Agent") ;;
   lift (import_from "dotenv" "load_dotenv") ;;
   lift (load_dotenv false) ;;
   lift (print "🤖 Browser-Use Demo") ;;
   lift (print "Make sure you've set your GEMINI_API_KEY in .env first!") ;;
   choice <- input "Press Enter to run demo, or 'q' to quit: " ;;
   if negb (String.eqb (lower choice) "q") then lift run_demo
   else io_ret tt)%io.

End Demo.

(** ** advanced_browser_use.py *)

Module Advanced.

Definition no_api_key : exn :=
  Exn ValueError "No API key found! Please set GEMINI_API_KEY or OPENAI_API_KEY in .env".

(** [BrowserAutomation.setup_llm(self)]; the value returned is what the
    method stores in [self.llm]. *)
Definition setup_llm : M pyval :=
  gemini <- getenv "GEMINI_API_KEY" ;;
  if truthy gemini then
    import_from "langchain_google_genai" "ChatGoogleGenerativeAI" ;;
    key <- getenv "GEMINI_API_KEY" ;;
    llm <- new "ChatGoogleGenerativeAI"
             [("model", VStr "gemini-1.5-flash"); ("google_api_key", of_option key)] ;;
    print "✅ Using Gemini API (FREE)" ;;
    ret llm
  else
    openai <- getenv "OPENAI_API_KEY" ;;
    if truthy openai then
      import_from "langchain_openai" "ChatOpenAI" ;;
      key <- getenv "OPENAI_API_KEY" ;;
      llm <- new "ChatOpenAI" [("model", VStr "gpt-4"); ("api_key", of_option key)] ;;
      print "✅ Using OpenAI API" ;;
      ret llm
    else raise no_api_key.

(** [web_search_task(self, query)]; [llm] is [self.llm]. *)
Definition web_search_task (llm : pyval) (query : string) : M string :=
  import_from "browser_use.browser.browser" "Browser" ;;
  import_from "browser_use.agent.service" "Agent" ;;
  browser <- new "Browser" [("headless", VBool false)] ;;
  agent <- new "Agent"
             [("task", VStr ("Search Google for '" +:+ query +:+ "' and summarize the top 3 results"));
              ("llm", llm); ("browser", browser)] ;;
  await_arun agent.

(** [form_filling_task(self, form_data)] *)
Definition form_filling_task (llm : pyval) (form_data : list (string * string))
    : M string :=
  import_from "browser_use.browser.browser" "Browser" ;;
  import_from "browser_use.agent.service" "Agent" ;;
  browser <- new "Browser" [("headless", VBool false)] ;;
  let task_description :=
    nl +:+ "        Go to a demo form website and fill out the form with this information:"
    +:+ nl +:+ "        " +:+ repr_dict form_data
    +:+ nl +:+ "        Then submit the form."
    +:+ nl +:+ "        " in
  agent <- new "Agent"
             [("task", VStr task_description); ("llm", llm); ("browser", browser)] ;;
  await_arun agent.

(** [data_extraction_task(self, url, data_to_extract)] *)
Definition data_extraction_task (llm : pyval) (url data_to_extract : string)
    : M string :=
  import_from "browser_use.browser.browser" "Browser" ;;
  import_from "browser_use.agent.service" "Agent" ;;
  browser <- new "Browser" [("headless", VBool true)] ;;
  agent <- new "Agent"
             [("task", VStr ("Go to " +:+ url +:+ " and extract: " +:+ data_to_extract
                             +:+ ". Return the data in a structured format."));
              ("llm", llm); ("browser", browser)] ;;
  await_arun agent.

(** [multi_tab_task(self)] *)
Definition multi_tab_task (llm : pyval) : M string :=
  import_from "browser_use.browser.browser" "Browser" ;;
  import_from "browser_use.agent.service" "Agent" ;;
  browser <- new "Browser" [("headless", VBool false)] ;;
  let task :=
    nl +:+ "        Open multiple tabs:"
    +:+ nl +:+ "        1. Tab 1: Go to GitHub and search for 'browser-use'"
    +:+ nl +:+ "        2. Tab 2: Go to Python.org and check the latest Python version"
    +:+ nl +:+ "        3. Tab 3: Go to Stack Overflow and search for 'web automation'"
    +:+ nl +:+ "        "
    +:+ nl +:+ "        Then provide a summary of what you found in each tab."
    +:+ nl +:+ "        " in
  agent <- new "Agent" [("task", VStr task); ("llm", llm); ("browser", browser)] ;;
  await_arun agent.

(** The dictionary [main] hands to [form_filling_task]. *)
Definition form_data : list (string * string) := [
  ("name", "Test User");
  ("email", "test@example.com");
  ("message", "This is a test message from browser-use automation")
].

(** [main()]: [BrowserAutomation()] runs [setup_llm]; the constructor and
    the first [input] are outside the [try]. *)
Definition main : IO unit :=
  (llm <- lift setup_llm ;;
   lift (print "🤖 Advanced Browser Automation") ;;
   lift (print "Choose a task:") ;;
   lift (print "1. Web Search & Summarization") ;;
   lift (print "2. Form Filling Demo") ;;
   lift (print "3. Data Extraction") ;;
   lift (print "4. Multi-tab Operations") ;;
   lift (print "5. Custom Task") ;;
   choice <- input "Enter your choice (1-5): " ;;
   io_try_except
     (if String.eqb choice "1" then
        line <- input "Enter search query: " ;;
        let query := or_default line "browser automation python" in
        result <- lift (web_search_task llm query) ;;
        lift (print (nl +:+ "✅ Search Results:" +:+ nl +:+ result))
      else if String.eqb choice "2" then
        result <- lift (form_filling_task llm form_data) ;;
        lift (print (nl +:+ "✅ Form Filling Result:" +:+ nl +:+ result))
      else if String.eqb choice "3" then
        line <- input "Enter URL to extract data from: " ;;
        let url := or_default line "https://news.ycombinator.com" in
        line <- input "What data to extract: " ;;
        let data_to_extract := or_default line "top 5 article titles" in
        result <- lift (data_extraction_task llm url data_to_extract) ;;
        lift (print (nl +:+ "✅ Extracted Data:" +:+ nl +:+ result))
      else if String.eqb choice "4" then
        result <- lift (multi_tab_task llm) ;;
        lift (print (nl +:+ "✅ Multi-tab Results:" +:+ nl +:+ result))
      else if String.eqb choice "5" then
        custom_task <- input "Enter your custom task: " ;;
        if negb (String.eqb custom_task "") then
          lift (import_from "browser_use.browser.browser" "Browser") ;;
          lift (import_from "browser_use.agent.service" "Agent") ;;
          browser <- lift (new "Browser" [("headless", VBool false)]) ;;
          agent <- lift (new "Agent" [("task", VStr custom_task); ("llm", llm);
                                      ("browser", browser)]) ;;
          result <- lift (await_arun agent) ;;
          lift (print (nl +:+ "✅ Custom Task Result:" +:+ nl +:+ result))
        else io_ret tt
      else lift (print "Invalid choice!"))
     isinstance_Exception
     (fun e =>
        lift (print ("❌ Error: " +:+ exn_str e)) ;;
        lift (print "Make sure your API key is set correctly in the .env file")))%io.

(** The script run as a program. *)
Definition program : IO unit :=
  (lift (import_from "browser_use" "Agent") ;;
   lift (import_from "dotenv" "load_dotenv") ;;
   lift (load_dotenv false) ;;
   main)%io.

End Advanced.

(** ** termux_browser_demo.py *)

Module TermuxDemo.

(** [termux_demo()]: of its two [except] clauses the first takes the
    import errors, the second everything else. *)
Definition termux_demo : M unit :=
  print "🤖 Starting Termux Browser Automation Demo..." ;;
  key <- getenv "GEMINI_API_KEY" ;;
  if negb (truthy key) || bool_decide (key = Some "your_gemini_api_key_here") then
    print "❌ Please set your GEMINI_API_KEY in the .env file!" ;;
    print "Get a free key from: https://makersuite.google.com/app/apikey"
  else
    try_except
      (import_from "browser_use" "Agent" ;;
       import_from "browser_use.browser.browser" "Browser" ;;
       import_from "langchain_google_genai" "ChatGoogleGenerativeAI" ;;
       key <- getenv "GEMINI_API_KEY" ;;
       llm <- new "ChatGoogleGenerativeAI"
                [("model", VStr "gemini-1.5-flash"); ("google_api_key", of_option key)] ;;
       browser <- new "Browser"
                    [("headless", VBool true); ("slow_mo", VInt 2000);
                     ("timeout", VInt 60000)] ;;
       print "🌐 Browser initialized in headless mode..." ;;
       agent <- new "Agent"
                  [("task", VStr "Go to httpbin.org/json and extract the data from the JSON response");
                   ("llm", llm); ("browser", browser)] ;;
       print "🚀 Running automation task..." ;;
       result <- await_arun agent ;;
       print "✅ Demo completed!" ;;
       print ("Result: " +:+ result))
      isinstance_Exception
      (fun e =>
         if isinstance_ImportError e then
           print ("❌ Missing dependency: " +:+ exn_str e) ;;
           print "Run: pip install browser-use langchain-google-genai"
         else
           print ("❌ Error: " +:+ exn_str e) ;;
           print "This might be due to Termux-specific issues").

(** [run_custom_task(task)]: only the run itself is inside the [try]. *)
Definition run_custom_task (task : string) : M unit :=
  import_from "browser_use" "Agent" ;;
  import_from "browser_use.browser.browser" "Browser" ;;
  import_from "langchain_google_genai" "ChatGoogleGenerativeAI" ;;
  key <- getenv "GEMINI_API_KEY" ;;
  llm <- new "ChatGoogleGenerativeAI"
           [("model", VStr "gemini-1.5-flash"); ("google_api_key", of_option key)] ;;
  browser <- new "Browser" [("headless", VBool true)] ;;
  agent <- new "Agent" [("task", VStr task); ("llm", llm); ("browser", browser)] ;;
  try_except
    (result <- await_arun agent ;;
     print ("✅ Custom Task Result: " +:+ result))
    isinstance_Exception
    (fun e => print ("❌ Custom Task Failed: " +:+ exn_str e)).

End TermuxDemo.


(** * The modelled built-ins on small inputs *)

Section Builtins.

(** [readlines] cuts the text without losing or adding a character. *)
Lemma writelines_readlines (text : string) : writelines (readlines text) = text.
Proof.
  induction text as [|c text IH]; [reflexivity|].
  cbn [readlines]. destruct (is_newline c).
  - cbn. change (fold_right String.append EmptyString (readlines text))
      with (writelines (readlines text)). rewrite IH. reflexivity.
  - destruct (readlines text) as [|l ls]; cbn in *; rewrite <- IH; reflexivity.
Qed.

Example readlines_two_lines :
  readlines ("A=1" +:+ nl +:+ "B=2" +:+ nl) = ["A=1" +:+ nl; "B=2" +:+ nl].
Proof. reflexivity. Qed.

Example readlines_unterminated :
  readlines ("A=1" +:+ nl +:+ "B=2") = ["A=1" +:+ nl; "B=2"].
Proof. reflexivity. Qed.

(** On a plain literal [int] is the same on every interpreter. *)
Lemma py_int_plain (x : External) (h : list event) (s : string) :
  plain_literal s = true ->
  py_int x h s = match int_literal s with
                 | Some n => inl n
                 | None => inr (invalid_literal s)
                 end.
Proof. intros H. unfold py_int. rewrite H. reflexivity. Qed.

Example py_int_accepts (x : External) (h : list event) :
  py_int x h "1000" = inl 1000%Z /\ py_int x h " 2000 " = inl 2000%Z /\
  py_int x h "-5" = inl (-5)%Z /\ py_int x h "+7" = inl 7%Z /\
  py_int x h "1_000" = inl 1000%Z /\ py_int x h "007" = inl 7%Z.
Proof. repeat split; reflexivity. Qed.

Example py_int_rejects (x : External) (h : list event) :
  py_int x h "" = inr "invalid literal for int() with base 10: ''" /\
  py_int x h "  " = inr "invalid literal for int() with base 10: '  '" /\
  py_int x h "1.5" = inr "invalid literal for int() with base 10: '1.5'" /\
  py_int x h "1__0" = inr "invalid literal for int() with base 10: '1__0'" /\
  py_int x h "_1" = inr "invalid literal for int() with base 10: '_1'" /\
  py_int x h "- 1" = inr "invalid literal for int() with base 10: '- 1'" /\
  py_int x h "it's" = inr ("invalid literal for int() with base 10: "
                           +:+ String double_quote "it's" +:+ String double_quote "").
Proof. repeat split; reflexivity. Qed.

(** U+001C is whitespace for [str.strip] and none for [int]. *)
Example py_int_file_separator (x : External) (h : list event) :
  let s := String (ascii_of_nat 28) "7" in
  py_int x h s
  = inr ("invalid literal for int() with base 10: '" +:+ String backslash "x1c7'") /\
  string_of_list_ascii (strip (list_ascii_of_string s)) = "7".
Proof. split; reflexivity. Qed.

(** A string outside ASCII is the interpreter's to judge. *)
Example py_int_outside_ascii (x : External) (h : list event) :
  let seven := string_of_list_ascii [ascii_of_nat 217; ascii_of_nat 167] in
  py_int x h seven = ext_int x h seven.
Proof. reflexivity. Qed.

(** The no-break space U+00A0 and the ideographic space U+3000 are
    stripped like the ASCII blanks. *)
Example strip_unicode_whitespace :
  let nbsp := string_of_list_ascii [ascii_of_nat 194; ascii_of_nat 160] in
  let wide := string_of_list_ascii [ascii_of_nat 227; ascii_of_nat 128; ascii_of_nat 128] in
  string_of_list_ascii (strip (list_ascii_of_string (wide +:+ " quit" +:+ nbsp)))
  = "quit".
Proof. reflexivity. Qed.

Example first_word_of_version :
  fst (first_word "3.12.3 (main, Jan  1 2025) [GCC 13.2.0]" no_env_file)
  = Returned "3.12.3".
Proof. reflexivity. Qed.

End Builtins.

(** * Properties of provider selection *)

Section Selection.

Local Ltac oracle :=
  match goal with
  | |- context [match ?r with None => _ | Some _ => _ end] => destruct r eqn:?
  | |- context [if ?b then _ else _] => destruct b eqn:?
  end.

Lemma truthy_Some (v : option string) :
  truthy v = true -> exists key, v = Some key /\ key <> "".
Proof.
  destruct v as [key|]; [|discriminate]. cbn.
  intros H. exists key. split; [reflexivity|].
  intros ->. discriminate.
Qed.

Lemma truthy_of_key (v : option string) key :
  v = Some key -> key <> "" -> truthy v = true.
Proof.
  intros -> Hne. cbn. destruct (String.eqb_spec key ""); [contradiction|reflexivity].
Qed.

(** The priority list and [rank] agree. *)
Lemma priority_order_rank (p : provider) : priority_order !! rank p = Some p.
Proof. destruct p; reflexivity. Qed.

(** The first configured provider of the list is configured and no
    configured provider ranks above it. *)
Lemma highest_priority_least env p :
  highest_priority env = Some p ->
  configured env p = true /\
  forall q, configured env q = true -> rank p <= rank q.
Proof.
  unfold highest_priority, priority_order. cbn [List.find].
  destruct (configured env Gemini) eqn:E1;
  [|destruct (configured env Groq) eqn:E2;
  [|destruct (configured env OpenAI) eqn:E3;
  [|destruct (configured env Anthropic) eqn:E4]]];
  intros [= <-]; (split; [assumption|]);
  intros [] Hq; cbn; try lia; congruence.
Qed.

Lemma least_highest_priority env p :
  configured env p = true ->
  (forall q, rank q < rank p -> configured env q = false) ->
  highest_priority env = Some p.
Proof.
  intros Hp Hlow.
  unfold highest_priority, priority_order. cbn [List.find].
  destruct p; cbn in Hlow;
    repeat match goal with
    | |- context [configured env ?q] =>
        first [rewrite Hp | rewrite (Hlow q) by (cbn; lia)]
    end; reflexivity.
Qed.

(** The if/elif chain takes the branch of the first configured provider. *)
Lemma get_llm_instance_selected w p :
  highest_priority (credentials w) = Some p ->
  Launcher.get_llm_instance w = load_client_of p (reloaded w).
Proof.
  unfold highest_priority, configured, priority_order, credentials, credentials_at.
  cbn [List.find env_var].
  unfold Launcher.get_llm_instance, bind, load_dotenv, getenv. cbn.
  repeat (oracle; [intros [= <-]; reflexivity | cbn]).
  intros; discriminate.
Qed.

(** With no configured provider the chain ends in its [else]. *)
Lemma get_llm_instance_none w :
  highest_priority (credentials w) = None ->
  Launcher.get_llm_instance w = (Raised Launcher.no_api_key, reloaded w).
Proof.
  unfold highest_priority, configured, priority_order, credentials, credentials_at.
  cbn [List.find env_var].
  unfold Launcher.get_llm_instance, bind, load_dotenv, getenv. cbn.
  repeat (oracle; [intros; discriminate | cbn]).
  reflexivity.
Qed.

(** What one branch does, whatever the collaborators answer. *)
Lemma load_client_frame p key w r w' :
  environ w !! env_var p = Some key ->
  load_client_of p w = (r, w') ->
  exists evs, trace w' = evs ++ trace w /\
    Forall (loads (sys_executable (ext w)) p) evs /\
    environ w' = environ w /\ files w' = files w /\ ext w' = ext w /\
    (forall a, r = Returned a -> a = (client p key, provider_label p)).
Proof.
  intros Hkey.
  unfold load_client_of, Launcher.load_client, try_except, bind, import_from,
    subprocess_run, get_sys_executable, external, new, getenv, ret.
  cbn.
  repeat (first [rewrite Hkey | oracle]; cbn); intros [= <- <-]; cbn.
  all: first [ eexists [_]; split; [reflexivity|]
             | eexists [_;_]; split; [reflexivity|]
             | eexists [_;_;_]; split; [reflexivity|]
             | eexists [_;_;_;_]; split; [reflexivity|]
             | eexists [_;_;_;_;_]; split; [reflexivity|] ].
  all: (split; [repeat constructor|]).
  all: repeat (split; [reflexivity|]).
  all: first [ intros a [= <-]; reflexivity | intros a; discriminate ].
Qed.

(** With [provisioned] collaborators a branch returns its client, directly
    or after installing the package. *)
Lemma load_client_returns p key w :
  provisioned (ext w) ->
  environ w !! env_var p = Some key ->
  exists w', load_client_of p w = (Returned (client p key, provider_label p), w').
Proof.
  intros [Hrun Hnew Himp] Hkey.
  unfold load_client_of, Launcher.load_client, try_except, bind, import_from,
    subprocess_run, get_sys_executable, external, new, getenv, ret.
  cbn.
  destruct (ext_import (ext w) (trace w) _ _) as [e|] eqn:E1; cbn.
  - destruct (Himp _ _ _ _ E1) as [-> _]. rewrite Hrun. cbn.
    match goal with
    | |- context [ext_import (ext w) ?h ?m ?n] =>
        destruct (ext_import (ext w) h m n) as [e'|] eqn:E2
    end; cbn.
    + destruct (Himp _ _ _ _ E2) as [_ Hno]. cbn in Hno. discriminate.
    + rewrite Hkey, Hnew. cbn. eexists. reflexivity.
  - rewrite Hkey, Hnew. cbn. eexists. reflexivity.
Qed.

Lemma selects_highest_priority w p key :
  highest_priority (credentials w) = Some p ->
  credentials w !! env_var p = Some key ->
  selects w p key.
Proof.
  intros Hsel Hkey. unfold selects.
  rewrite (get_llm_instance_selected w p Hsel).
  assert (Hk : environ (reloaded w) !! env_var p = Some key) by exact Hkey.
  repeat split.
  - intros r w' Hrun.
    destruct (load_client_frame p key _ _ _ Hk Hrun) as (evs & _ & _ & _ & _ & _ & Hr).
    apply Hr. reflexivity.
  - intros Hx. apply load_client_returns; assumption.
  - intros r w' Hrun.
    destruct (load_client_frame p key _ _ _ Hk Hrun) as (evs & Ht & Hev & _).
    exists evs. split; assumption.
Qed.

End Selection.

Section SelectionClaims.

Lemma configured_count_cases env :
  configured_count env =
    Nat.b2n (configured env Gemini) + Nat.b2n (configured env Groq)
    + Nat.b2n (configured env OpenAI) + Nat.b2n (configured env Anthropic).
Proof.
  unfold configured_count, priority_order. cbn [List.filter].
  destruct (configured env Gemini), (configured env Groq),
    (configured env OpenAI), (configured env Anthropic); reflexivity.
Qed.

Lemma highest_priority_exists env :
  1 <= configured_count env -> exists p, highest_priority env = Some p.
Proof.
  rewrite configured_count_cases.
  unfold highest_priority, priority_order. cbn [List.find].
  destruct (configured env Gemini), (configured env Groq),
    (configured env OpenAI), (configured env Anthropic); cbn;
    intros H; eauto; lia.
Qed.

Lemma highest_priority_unique env p :
  configured_count env = 1 -> configured env p = true ->
  highest_priority env = Some p.
Proof.
  rewrite configured_count_cases.
  unfold highest_priority, priority_order. cbn [List.find].
  destruct p; intros H Hp; rewrite Hp in *;
    destruct (configured env Gemini), (configured env Groq),
      (configured env OpenAI), (configured env Anthropic);
    cbn in *; first [reflexivity | lia | discriminate].
Qed.

Lemma highest_priority_absent env :
  configured_count env = 0 -> highest_priority env = None.
Proof.
  rewrite configured_count_cases.
  unfold highest_priority, priority_order. cbn [List.find].
  destruct (configured env Gemini), (configured env Groq),
    (configured env OpenAI), (configured env Anthropic); cbn;
    intros H; first [reflexivity | lia].
Qed.

(** C1: when two or more providers are configured, [get_llm_instance]
    selects the configured provider that ranks highest in the order
    Gemini > Groq > OpenAI > Anthropic: it returns that provider's client
    (built with that provider's secret) and label, and it tries no other
    provider's library. *)
Theorem get_llm_instance_highest_priority (w : World) :
  2 <= configured_count (credentials w) ->
  exists p key,
    credentials w !! env_var p = Some key /\ key <> "" /\
    (forall q, configured (credentials w) q = true -> rank p <= rank q) /\
    selects w p key.
Proof.
  intros Hcount.
  destruct (highest_priority_exists (credentials w)) as [p Hp]; [lia|].
  destruct (highest_priority_least _ _ Hp) as [Hconf Hleast].
  destruct (truthy_Some _ Hconf) as (key & Hkey & Hne).
  exists p, key. repeat split; try assumption.
  all: apply (selects_highest_priority w p key Hp Hkey).
Qed.

Lemma get_llm_instance_highest_priority_witness :
  2 <= configured_count (credentials two_keys) /\
  exists p key,
    credentials two_keys !! env_var p = Some key /\ key <> "" /\
    (forall q, configured (credentials two_keys) q = true -> rank p <= rank q) /\
    selects two_keys p key.
Proof.
  split.
  - vm_compute. lia.
  - apply (get_llm_instance_highest_priority two_keys). vm_compute. lia.
Defined.

(** In [two_keys] the selected provider is Groq, ahead of Anthropic. *)
Example two_keys_selects_groq :
  fst (Launcher.get_llm_instance two_keys)
  = Returned (client Groq "gsk_live", "Groq (FREE)").
Proof. vm_compute. reflexivity. Qed.

(** The same when the Groq client library is not installed yet: the import
    fails, pip installs [langchain-groq], the import succeeds. *)
Example two_keys_fresh_history :
  let run := Launcher.get_llm_instance two_keys_fresh in
  fst run = Returned (client Groq "gsk_live", "Groq (FREE)") /\
  history (snd run) =
    [EvLoadDotenv true;
     EvImport "langchain_groq" (Some "ChatGroq")
       (Some (module_not_found "langchain_groq"));
     EvSubprocess ["/usr/bin/python3"; "-m"; "pip"; "install"; "langchain-groq"]
       false None;
     EvImport "langchain_groq" (Some "ChatGroq") None;
     EvNew "ChatGroq"
       [("model", VStr "mixtral-8x7b-32768"); ("groq_api_key", VStr "gsk_live")]
       None].
Proof. vm_compute. split; reflexivity. Qed.

Lemma provisioned_clients_missing : provisioned clients_missing.
Proof.
  split; [reflexivity|reflexivity|].
  intros h m n e. cbn.
  destruct (existsb is_subprocess h); rewrite ?andb_false_r; cbn.
  - discriminate.
  - destruct (String.prefix "langchain" m); cbn; [|discriminate].
    intros [= <-]. split; reflexivity.
Qed.

(** C2: when exactly one provider is configured, [get_llm_instance]
    selects that provider. *)
Theorem get_llm_instance_single_provider (w : World) (p : provider) :
  configured_count (credentials w) = 1 ->
  configured (credentials w) p = true ->
  exists key,
    credentials w !! env_var p = Some key /\ key <> "" /\ selects w p key.
Proof.
  intros Hcount Hconf.
  pose proof (highest_priority_unique _ _ Hcount Hconf) as Hp.
  destruct (truthy_Some _ Hconf) as (key & Hkey & Hne).
  exists key. repeat split; try assumption.
  all: apply (selects_highest_priority w p key Hp Hkey).
Qed.

Lemma get_llm_instance_single_provider_witness :
  configured_count (credentials one_key) = 1 /\
  configured (credentials one_key) OpenAI = true /\
  exists key,
    credentials one_key !! env_var OpenAI = Some key /\ key <> "" /\
    selects one_key OpenAI key.
Proof.
  split; [reflexivity|]. split; [reflexivity|].
  apply (get_llm_instance_single_provider one_key OpenAI); reflexivity.
Defined.

Example one_key_selects_openai :
  fst (Launcher.get_llm_instance one_key)
  = Returned (client OpenAI "sk-live", "OpenAI GPT-4").
Proof. vm_compute. reflexivity. Qed.

(** C10: [get_llm_instance] looks at a secret only to see whether it is
    empty.  Any non-empty value of a provider's variable makes that provider
    configured and selects it (no provider ranking above it being
    configured), and the value is handed to the client as it is.  This
    holds for the placeholder text which both installers write
    into the credentials file as the value of GEMINI_API_KEY. *)
Theorem get_llm_instance_no_validation :
  (forall w p key,
     credentials w !! env_var p = Some key -> key <> "" ->
     (forall q, rank q < rank p -> configured (credentials w) q = false) ->
     selects w p key) /\
  (forall w,
     credentials w !! "GEMINI_API_KEY" = Some placeholder ->
     selects w Gemini placeholder) /\
  In ("GEMINI_API_KEY=" +:+ placeholder +:+ nl) (readlines Setup.env_content) /\
  In ("GEMINI_API_KEY=" +:+ placeholder +:+ nl) (readlines Termux.env_content).
Proof.
  assert (Hgen : forall w p key,
     credentials w !! env_var p = Some key -> key <> "" ->
     (forall q, rank q < rank p -> configured (credentials w) q = false) ->
     selects w p key).
  { intros w p key Hkey Hne Hlow.
    apply selects_highest_priority; [|assumption].
    apply least_highest_priority; [|assumption].
    unfold configured. eapply truthy_of_key; eassumption. }
  split; [exact Hgen|]. split.
  - intros w Hkey. apply (Hgen w Gemini placeholder Hkey).
    + discriminate.
    + intros q Hq. cbn in Hq. lia.
  - split; vm_compute; tauto.
Qed.

Lemma get_llm_instance_no_validation_witness :
  selects template_key Gemini placeholder.
Proof.
  apply (proj1 (proj2 get_llm_instance_no_validation) template_key).
  reflexivity.
Defined.

Example template_key_selects_gemini :
  fst (Launcher.get_llm_instance template_key)
  = Returned (client Gemini "your_gemini_api_key_here", "Gemini (FREE)").
Proof. vm_compute. reflexivity. Qed.

End SelectionClaims.

(** * Properties of the task runner *)

Section TaskRunner.

Local Ltac oracle :=
  match goal with
  | |- context [match ?r with None => _ | Some _ => _ end] => destruct r eqn:?
  | |- context [match ?r with inl _ => _ | inr _ => _ end] => destruct r eqn:?
  | |- context [if ?b then _ else _] => destruct b eqn:?
  end.

Local Ltac step :=
  match goal with
  | |- context [environ ?w !! ?k] => destruct (environ w !! k) eqn:?
  | |- context [py_int ?x ?h ?s] => destruct (py_int x h s) eqn:?
  | |- context [ext_new ?x ?h ?c ?k] => destruct (ext_new x h c k) eqn:?
  | |- context [ext_arun ?x ?h ?a] => destruct (ext_arun x h a) eqn:?
  end.

Local Ltac in_cases H :=
  cbn in H;
  repeat match type of H with
         | _ \/ _ => destruct H as [H|H]
         | False => destruct H
         | In _ (_ ++ _) => apply in_app_or in H; cbn in H
         | In _ ?l =>
             is_var l; exfalso;
             match goal with
             | Q : forall m a r, ~ In (EvAwait m a r) l |- _ => eapply Q, H
             end
         | _ = _ => first [discriminate H | injection H; intros; subst | subst]
         end.

Lemma loads_client_event exe p ev : loads exe p ev -> client_event ev = true.
Proof.
  destruct ev as [| |m [c|] r|argv sh r|cls kw r| | | | |]; cbn; try tauto.
  intros ->. destruct p; reflexivity.
Qed.

(** What [get_llm_instance] may do to the world, in every case. *)
Lemma get_llm_instance_frame w r w' :
  Launcher.get_llm_instance w = (r, w') ->
  exists evs, trace w' = evs ++ EvLoadDotenv true :: trace w /\
    forallb client_event evs = true /\
    environ w' = credentials w /\ files w' = files w /\ ext w' = ext w.
Proof.
  destruct (highest_priority (credentials w)) as [p|] eqn:Hp.
  - rewrite (get_llm_instance_selected w p Hp).
    destruct (highest_priority_least _ _ Hp) as [Hconf _].
    destruct (truthy_Some _ Hconf) as (key & Hkey & _).
    intros Hrun.
    destruct (load_client_frame p key (reloaded w) r w' Hkey Hrun)
      as (evs & Ht & Hev & He & Hf & Hx & _).
    exists evs. repeat split; try assumption.
    apply forallb_forall. intros ev Hin.
    rewrite Forall_forall in Hev.
    eapply loads_client_event, Hev, list_elem_of_In, Hin.
  - rewrite (get_llm_instance_none w Hp). intros [= <- <-].
    exists []. repeat split.
Qed.

Lemma client_events_quiet evs :
  forallb client_event evs = true ->
  awaits evs = 0 /\ selections evs = 0 /\ existsb agent_built evs = false /\
  browser_calls evs = [] /\ (forall m a r, ~ In (EvAwait m a r) evs).
Proof.
  unfold awaits, selections.
  induction evs as [|ev evs IH]; cbn [forallb]; [repeat split; auto|].
  intros [Hev Hevs]%andb_prop. destruct (IH Hevs) as (IH1 & IH2 & IH3 & IH4 & IH5).
  destruct ev as [| |m n r|argv sh r|cls kw r| | | | |]; try discriminate Hev; cbn.
  - repeat split; try assumption. intros m' a r' [H|H]; [discriminate|]. eapply IH5, H.
  - repeat split; try assumption. intros m' a r' [H|H]; [discriminate|]. eapply IH5, H.
  - cbn in Hev.
    assert (String.eqb cls "Agent" = false /\ String.eqb cls "Browser" = false) as [HA HB].
    { repeat (apply orb_prop in Hev; destruct Hev as [Hev|Hev]);
        try discriminate Hev; apply String.eqb_eq in Hev; subst; split; reflexivity. }
    rewrite HB. destruct r; rewrite ?HA; cbn.
    all: repeat split; try assumption.
    all: intros m' a r' [H|H]; [discriminate|]; eapply IH5, H.
Qed.

Lemma browser_calls_app evs1 evs2 :
  browser_calls (evs1 ++ evs2) = browser_calls evs1 ++ browser_calls evs2.
Proof.
  induction evs1 as [|ev evs1 IH]; [reflexivity|].
  destruct ev; cbn; try assumption.
  destruct (String.eqb cls "Browser"); cbn; congruence.
Qed.

(** [get_llm_instance] returns once a provider is configured and the
    collaborators are [provisioned]. *)
Lemma get_llm_instance_returns w :
  provisioned (ext w) -> 1 <= configured_count (credentials w) ->
  exists r w', Launcher.get_llm_instance w = (Returned r, w').
Proof.
  intros Hx Hc.
  destruct (highest_priority_exists _ Hc) as [p Hp].
  destruct (highest_priority_least _ _ Hp) as [Hconf _].
  destruct (truthy_Some _ Hconf) as (key & Hkey & _).
  destruct (selects_highest_priority w p key Hp Hkey) as (_ & Hret & _).
  destruct (Hret Hx) as [w' Hrun]. eauto.
Qed.

Local Ltac not_ready R :=
  match goal with
  | E : ext_new (ext ?w3) _ _ _ = Some _, Hx : ext ?w3 = ext ?w |- _ =>
      rewrite Hx, (constructors_succeed _ (ready_provisioned w R)) in E;
      discriminate E
  | E1 : environ ?w3 !! "BROWSER_SLOW_MO" = Some ?s, E2 : py_int _ ?h2 ?s = inr _,
    He : environ ?w3 = credentials_at ?w ?h, Hx : ext ?w3 = ext ?w |- _ =>
      rewrite He in E1; rewrite Hx in E2;
      destruct (ready_slow_mo w R h h2 s E1) as [? ?]; congruence
  | Hs : Launcher.get_llm_instance ?w2 = (Raised _, _), Hx : ext _ = ext ?w |- _ =>
      destruct (get_llm_instance_returns w2 (ready_provisioned w R)
                  (ready_configured w R (trace w2))) as (? & ? & ?);
      congruence
  end.

(** Every run of the task runner, path by path. *)
Lemma run_automation_task_trace (w : World) (task : string) (headless : bool) :
  exists r w' evs,
    Launcher.run_automation_task task headless w = (Returned r, w') /\
    trace w' = evs ++ trace w /\
    awaits evs = (if existsb agent_built evs then 1 else 0) /\
    selections evs <= 1 /\
    (forall m a e, In (EvAwait m a (inr e)) evs ->
       r = None /\ head evs = Some (EvPrint ("❌ Task failed: " +:+ exn_str e))) /\
    (forall m a res, In (EvAwait m a (inl res)) evs -> r = Some res) /\
    (ready w -> awaits evs = 1 /\ length (browser_calls evs) = 1) /\
    length (browser_calls evs) <= 1 /\
    (forall kw, In kw (browser_calls evs) ->
       exists n, kw = [("headless", VBool headless); ("slow_mo", VInt n)] /\
         slow_mo_value (ext w)
           (credentials_at w (selection_history w) !! "BROWSER_SLOW_MO") n).
Proof.
  unfold Launcher.run_automation_task, try_except.
  unfold bind at 1, import_from at 1, external.
  destruct (ext_import (ext w) (trace w) "browser_use" (Some "Agent")) as [e1|] eqn:E1.
  { cbn. eexists _, _, [_;_]. do 3 (split; [reflexivity|]). split; [cbn; lia|].
    split; [intros m a e H; in_cases H|].
    split; [intros m a e H; in_cases H|].
    split; [intros R; rewrite (ready_browser_use w R) in E1 by auto; discriminate|].
    split; [cbn; lia|]. intros kw H; in_cases H. }
  unfold bind at 1, import_from at 1, external. cbn [record set_trace trace ext].
  match goal with |- context [ext_import ?x ?h "browser_use.browser.browser" ?n] =>
    destruct (ext_import x h "browser_use.browser.browser" n) as [e2|] eqn:E2 end.
  { cbn. eexists _, _, [_;_;_]. do 3 (split; [reflexivity|]). split; [cbn; lia|].
    split; [intros m a e H; in_cases H|].
    split; [intros m a e H; in_cases H|].
    split; [intros R; rewrite (ready_browser_use w R) in E2 by auto; discriminate|].
    split; [cbn; lia|]. intros kw H; in_cases H. }
  unfold bind at 1.
  match goal with |- context [Launcher.get_llm_instance ?w2] =>
    destruct (Launcher.get_llm_instance w2) as [[sel|e3] w3] eqn:Hsel;
    destruct (get_llm_instance_frame _ _ _ Hsel) as (evs0 & Ht & Hq & Henv & Hfiles & Hext)
  end.
  all: cbn [record set_trace trace ext environ files] in Ht, Henv, Hfiles, Hext.
  all: change (environ w3 = credentials_at w (selection_history w)) in Henv.
  all: destruct (client_events_quiet _ Hq) as (Q1 & Q2 & Q3 & Q4 & Q5).
  all: unfold bind, print, emit, getenv, int_of_getenv, new, await_arun, ret, raise; cbn.
  all: repeat (step; cbn).
  all: first
    [ eexists _, _, ([_] ++ evs0 ++ [_;_;_]); split; [reflexivity|]; split; [cbn; rewrite Ht, <- ?app_assoc; reflexivity|]
    | eexists _, _, ([_;_] ++ evs0 ++ [_;_;_]); split; [reflexivity|]; split; [cbn; rewrite Ht, <- ?app_assoc; reflexivity|]
    | eexists _, _, ([_;_;_] ++ evs0 ++ [_;_;_]); split; [reflexivity|]; split; [cbn; rewrite Ht, <- ?app_assoc; reflexivity|]
    | eexists _, _, ([_;_;_;_] ++ evs0 ++ [_;_;_]); split; [reflexivity|]; split; [cbn; rewrite Ht, <- ?app_assoc; reflexivity|]
    | eexists _, _, ([_;_;_;_;_] ++ evs0 ++ [_;_;_]); split; [reflexivity|]; split; [cbn; rewrite Ht, <- ?app_assoc; reflexivity|]
    | eexists _, _, ([_;_;_;_;_;_] ++ evs0 ++ [_;_;_]); split; [reflexivity|]; split; [cbn; rewrite Ht, <- ?app_assoc; reflexivity|]
    | eexists _, _, ([_;_;_;_;_;_;_] ++ evs0 ++ [_;_;_]); split; [reflexivity|]; split; [cbn; rewrite Ht, <- ?app_assoc; reflexivity|]
    | eexists _, _, ([_;_;_;_;_;_;_;_] ++ evs0 ++ [_;_;_]); split; [reflexivity|]; split; [cbn; rewrite Ht, <- ?app_assoc; reflexivity|] ].
  all: unfold awaits, selections in *.
  all: rewrite !browser_calls_app, !List.filter_app, !existsb_app, !length_app;
       cbn; rewrite ?Q1, ?Q2, ?Q3, ?Q4; cbn.
  all: (split; [reflexivity|]); (split; [lia|]).
  all: (split; [intros m0 a0 err H; in_cases H; split; reflexivity|]).
  all: (split; [intros m0 a0 res H; in_cases H; reflexivity|]).
  all: split;
    [ intros R; first [split; reflexivity | exfalso; not_ready R] |].
  all: (split; [lia|]).
  all: intros kw H; in_cases H.
  all: eexists; split; [reflexivity|].
  all: rewrite <- Henv;
       match goal with E : environ _ !! _ = _ |- _ => rewrite E end;
       cbn; first [reflexivity | rewrite <- Hext; eexists; eassumption].
Qed.



(** C3: with no configured provider [get_llm_instance] raises its
    missing-credential error, having done nothing but reload the
    environment; [run_automation_task] then constructs nothing (no Browser,
    no Agent, no client), awaits nothing, prints the failure and returns
    [None].  The failure it prints is the missing-credential error unless
    browser-use itself could not be imported. *)
Theorem no_credentials_no_agent (w : World) (task : string) (headless : bool) :
  (forall h, configured_count (credentials_at w h) = 0) ->
  (exists w', Launcher.get_llm_instance w = (Raised Launcher.no_api_key, w') /\
     trace w' = EvLoadDotenv true :: trace w) /\
  (exists evs e w',
     Launcher.run_automation_task task headless w = (Returned None, w') /\
     trace w' = EvPrint ("❌ Task failed: " +:+ exn_str e) :: evs ++ trace w /\
     Forall (fun ev => is_new ev = false /\ is_await ev = false) evs /\
     (e = Launcher.no_api_key \/ exists m n, In (EvImport m n (Some e)) evs)).
Proof.
  intros Hnone. split.
  - exists (reloaded w). split; [|reflexivity].
    apply get_llm_instance_none, highest_priority_absent, Hnone.
  - unfold Launcher.run_automation_task, try_except.
    unfold bind at 1, import_from at 1, external.
    destruct (ext_import (ext w) (trace w) "browser_use" (Some "Agent")) as [e1|] eqn:E1.
    { cbn. exists [EvImport "browser_use" (Some "Agent") (Some e1)], e1. eexists.
      split; [reflexivity|]. split; [reflexivity|].
      split; [repeat constructor|]. right. eexists _, _. left. reflexivity. }
    unfold bind at 1, import_from at 1, external. cbn [record set_trace trace ext].
    match goal with |- context [ext_import ?x ?h "browser_use.browser.browser" ?n] =>
      destruct (ext_import x h "browser_use.browser.browser" n) as [e2|] eqn:E2 end.
    { cbn. eexists [_;_], e2, _.
      split; [reflexivity|]. split; [reflexivity|].
      split; [repeat constructor|]. right. eexists _, _. left. reflexivity. }
    unfold bind at 1.
    match goal with |- context [Launcher.get_llm_instance ?w2] =>
      rewrite (get_llm_instance_none w2)
        by (apply highest_priority_absent, (Hnone (trace w2)))
    end.
    cbn. eexists [_;_;_], Launcher.no_api_key, _.
    split; [reflexivity|]. split; [reflexivity|].
    split; [repeat constructor|]. left. reflexivity.
Qed.

Lemma no_credentials_no_agent_witness :
  (forall h, configured_count (credentials_at no_keys h) = 0) /\
  (exists w', Launcher.get_llm_instance no_keys = (Raised Launcher.no_api_key, w') /\
     trace w' = EvLoadDotenv true :: trace no_keys) /\
  (exists evs e w',
     Launcher.run_automation_task "open example.com" false no_keys
       = (Returned None, w') /\
     trace w' = EvPrint ("❌ Task failed: " +:+ exn_str e) :: evs ++ trace no_keys /\
     Forall (fun ev => is_new ev = false /\ is_await ev = false) evs /\
     (e = Launcher.no_api_key \/ exists m n, In (EvImport m n (Some e)) evs)).
Proof.
  assert (H : forall h, configured_count (credentials_at no_keys h) = 0)
    by (intros h; reflexivity).
  split; [exact H|].
  apply (no_credentials_no_agent no_keys "open example.com" false H).
Defined.

(** What the launcher prints and does in [no_keys], in order. *)
Example no_keys_history :
  let run := Launcher.run_automation_task "open example.com" false no_keys in
  fst run = Returned None /\
  history (snd run) =
    [EvImport "browser_use" (Some "Agent") None;
     EvImport "browser_use.browser.browser" (Some "Browser") None;
     EvLoadDotenv true;
     EvPrint "❌ Task failed: No valid API key found. Please set up an API key first."].
Proof. vm_compute. split; reflexivity. Qed.


Lemma provisioned_quiet : provisioned quiet.
Proof. split; intros; [reflexivity|reflexivity|discriminate]. Qed.

Lemma ready_gemini_only : ready gemini_only.
Proof.
  split.
  - exact provisioned_quiet.
  - intros; reflexivity.
  - intros h. vm_compute. lia.
  - intros h h' s H. vm_compute in H. discriminate.
Qed.



(** A run in which nothing fails: one selection, one Browser, one Agent,
    one await, the result returned. *)
Example gemini_only_history :
  let run := Launcher.run_automation_task "open example.com" false gemini_only in
  let llm := client Gemini "AIza-live" in
  let browser := VObj "Browser" [("headless", VBool false); ("slow_mo", VInt 1000)] in
  let agent := VObj "Agent" [("task", VStr "open example.com"); ("llm", llm);
                             ("browser", browser)] in
  fst run = Returned (Some "done") /\
  history (snd run) =
    [EvImport "browser_use" (Some "Agent") None;
     EvImport "browser_use.browser.browser" (Some "Browser") None;
     EvLoadDotenv true;
     EvImport "langchain_google_genai" (Some "ChatGoogleGenerativeAI") None;
     EvNew "ChatGoogleGenerativeAI"
       [("model", VStr "gemini-1.5-flash"); ("google_api_key", VStr "AIza-live")]
       None;
     EvPrint "🤖 Using Gemini (FREE)";
     EvNew "Browser" [("headless", VBool false); ("slow_mo", VInt 1000)] None;
     EvNew "Agent" [("task", VStr "open example.com"); ("llm", llm);
                    ("browser", browser)] None;
     EvPrint "🚀 Running task: open example.com";
     EvAwait "arun" agent (inl "done");
     EvPrint "✅ Task completed!";
     EvPrint "Result: done"].
Proof. vm_compute. split; reflexivity. Qed.


(** A failing agent: one await, the error printed, [None] returned. *)
Example gemini_failing_history :
  let run := Launcher.run_automation_task "open example.com" false gemini_failing in
  fst run = Returned None /\
  awaits (trace (snd run)) = 1 /\
  selections (trace (snd run)) = 1 /\
  head (trace (snd run)) = Some (EvPrint "❌ Task failed: navigation timed out").
Proof. vm_compute. repeat split; reflexivity. Qed.

(** What [run_automation_task] hands to the Browser it builds, in every
    run: exactly two keyword arguments, [headless], which is the [headless]
    argument of the invocation, and [slow_mo], which is what [int] makes of
    BROWSER_SLOW_MO, or 1000 when that variable is absent.  At most one
    Browser is built, and one is built when collaborators and configuration
    are [ready]. *)
Theorem run_automation_task_browser_arguments (w : World) (task : string) (headless : bool) :
  exists r w' evs,
    Launcher.run_automation_task task headless w = (Returned r, w') /\
    trace w' = evs ++ trace w /\
    length (browser_calls evs) <= 1 /\
    (forall kw, In kw (browser_calls evs) ->
       exists n, kw = [("headless", VBool headless); ("slow_mo", VInt n)] /\
         slow_mo_value (ext w)
           (credentials_at w (selection_history w) !! "BROWSER_SLOW_MO") n) /\
    (ready w -> length (browser_calls evs) = 1).
Proof.
  destruct (run_automation_task_trace w task headless)
    as (r & w' & evs & H1 & H2 & _ & _ & _ & _ & H7 & H8 & H9).
  exists r, w', evs. repeat (split; [assumption|]).
  intros R. apply (H7 R).
Qed.

Lemma run_automation_task_browser_arguments_witness :
  ready gemini_only /\
  exists r w' evs,
    Launcher.run_automation_task "open example.com" false gemini_only
      = (Returned r, w') /\
    trace w' = evs ++ trace gemini_only /\
    browser_calls evs = [[("headless", VBool false); ("slow_mo", VInt 1000)]].
Proof.
  split; [exact ready_gemini_only|].
  destruct (run_automation_task_browser_arguments gemini_only "open example.com" false)
    as (r & w' & evs & H1 & H2 & _ & H4 & H5).
  exists r, w', evs.
  split; [exact H1|]. split; [exact H2|].
  specialize (H5 ready_gemini_only).
  destruct (browser_calls evs) as [|kw [|kw' rest]]; try discriminate H5.
  destruct (H4 kw (or_introl eq_refl)) as (n & -> & Hn).
  vm_compute in Hn. subst n. reflexivity.
Defined.

(** C6 fails on the code.  With HEADLESS=true and BROWSER_TIMEOUT=60000 in
    the environment, the values the Termux installer writes into the
    credentials file, the launcher builds its Browser with [headless=False]
    and no timeout: nothing reads the two settings.  And an empty
    BROWSER_SLOW_MO is not taken as absent: [int] raises on it and the task
    fails before any Browser is built. *)
Lemma browser_ignores_environment :
  let run := Launcher.run_automation_task "open example.com" false termux_settings in
  let blank := Launcher.run_automation_task "open example.com" false blank_slow_mo in
  environ termux_settings !! "HEADLESS" = Some "true" /\
  environ termux_settings !! "BROWSER_TIMEOUT" = Some "60000" /\
  browser_calls (trace (snd run))
    = [[("headless", VBool false); ("slow_mo", VInt 2000)]] /\
  environ blank_slow_mo !! "BROWSER_SLOW_MO" = Some "" /\
  browser_calls (trace (snd blank)) = [] /\
  fst blank = Returned None.
Proof. vm_compute. repeat split; reflexivity. Qed.

End TaskRunner.

(** * Properties of the credentials file update *)

Section CredentialsFile.

Lemma readlines_complete_app (line rest : string) :
  complete_line line = true ->
  readlines (line +:+ rest) = line :: readlines rest.
Proof.
  induction line as [|c line IH]; [discriminate|].
  destruct line as [|c' line'].
  - cbn [complete_line]. intros Hc.
    change (String c EmptyString +:+ rest) with (String c rest).
    cbn [readlines]. rewrite Hc. reflexivity.
  - intros H. cbn [complete_line] in H. apply andb_prop in H as [Hc Hl].
    change (String c (String c' line') +:+ rest)
      with (String c (String c' line' +:+ rest)).
    cbn [readlines]. rewrite IH by assumption.
    destruct (is_newline c); [discriminate|reflexivity].
Qed.

(** Reading back what [writelines] wrote gives the same lines, provided
    every line is complete. *)
Lemma readlines_writelines (lines : list string) :
  Forall (fun l => complete_line l = true) lines ->
  readlines (writelines lines) = lines.
Proof.
  induction 1 as [|l ls Hl _ IH]; [reflexivity|].
  cbn [writelines fold_right].
  change (fold_right String.append EmptyString ls) with (writelines ls).
  rewrite readlines_complete_app by assumption. congruence.
Qed.

Lemma complete_line_nonempty (l : string) : complete_line l = true -> l <> EmptyString.
Proof. destruct l; [discriminate|congruence]. Qed.

(** The lines of a terminated text are complete. *)
Lemma readlines_terminated (text : string) :
  terminated text = true ->
  Forall (fun l => complete_line l = true) (readlines text).
Proof.
  induction text as [|c text IH]; [constructor|].
  intros H. cbn [readlines].
  destruct (is_newline c) eqn:Hc.
  - constructor; [cbn; assumption|].
    apply IH. destruct text; [reflexivity|exact H].
  - destruct text as [|c' text']; [cbn in H; congruence|].
    specialize (IH H).
    destruct (readlines (String c' text')) as [|l ls] eqn:Hr.
    + cbn in Hr. destruct (is_newline c'); [discriminate|].
      destruct (readlines text'); discriminate.
    + inversion IH as [|? ? Hl Hls]; subst.
      constructor; [|assumption].
      cbn [complete_line]. rewrite Hc, Hl.
      destruct l; [discriminate|reflexivity].
Qed.

Lemma no_newline_append (s1 s2 : string) :
  no_newline s1 = true -> complete_line s2 = true ->
  complete_line (s1 +:+ s2) = true.
Proof.
  induction s1 as [|c s1 IH]; [auto|].
  cbn [no_newline]. intros [Hc Hs]%andb_prop Hl.
  change (String c s1 +:+ s2) with (String c (s1 +:+ s2)).
  cbn [complete_line]. rewrite Hc, (IH Hs Hl).
  destruct (s1 +:+ s2) eqn:E; [|reflexivity].
  apply complete_line_nonempty in Hl. destruct s1; [contradiction|discriminate].
Qed.

Lemma env_entry_complete key_name key_value :
  no_newline key_name = true -> no_newline key_value = true ->
  complete_line (env_entry key_name key_value) = true.
Proof.
  intros Hk Hv. unfold env_entry.
  apply no_newline_append; [assumption|].
  apply (no_newline_append "="); [reflexivity|].
  apply no_newline_append; [assumption|reflexivity].
Qed.



(** X1: on a credentials file that is empty or ends with a line feed, and
    for a key and a value without line feed, [update_env_file] rewrites the
    file so that its lines are the old ones with the first line that starts
    with [key=] replaced where it stands (the number of lines is unchanged),
    or, when no line starts with [key=], the old ones followed by one new
    line [key=value]. *)
Theorem update_env_file_terminated w env_file key_name key_value text :
  files w !! env_file = Some text ->
  terminated text = true ->
  no_newline key_name = true -> no_newline key_value = true ->
  exists text' w',
    Launcher.update_env_file env_file key_name key_value w = (Returned tt, w') /\
    files w' = <[env_file := text']> (files w) /\
    match list_find (fun l => Is_true (startswith l (key_name +:+ "=")))
            (readlines text) with
    | Some (i, _) =>
        readlines text' = <[i := env_entry key_name key_value]> (readlines text) /\
        length (readlines text') = length (readlines text)
    | None => readlines text' = readlines text ++ [env_entry key_name key_value]
    end.
Proof.
  intros Hfile Hterm Hk Hv.
  unfold Launcher.update_env_file. rewrite Hfile.
  eexists _, _. split; [reflexivity|]. split; [reflexivity|].
  pose proof (readlines_terminated text Hterm) as Hlines.
  pose proof (env_entry_complete key_name key_value Hk Hv) as Hentry.
  assert (Hread : readlines (writelines (Launcher.update_lines key_name key_value (readlines text)))
                  = Launcher.update_lines key_name key_value (readlines text)).
  { apply readlines_writelines.
    unfold Launcher.update_lines. fold (env_entry key_name key_value).
    destruct (list_find _ (readlines text)) as [[i line]|].
    - apply Forall_insert; assumption.
    - apply Forall_app. split; [assumption|]. constructor; [assumption|constructor]. }
  rewrite Hread. unfold Launcher.update_lines. fold (env_entry key_name key_value).
  destruct (list_find _ (readlines text)) as [[i line]|].
  - split; [reflexivity|apply length_insert].
  - reflexivity.
Qed.

Lemma update_env_file_terminated_witness :
  exists text' w',
    Launcher.update_env_file ".env" "GEMINI_API_KEY" "AIza-live" launcher_env
      = (Returned tt, w') /\
    files w' = <[".env" := text']> (files launcher_env) /\
    readlines text'
      = <[1 := env_entry "GEMINI_API_KEY" "AIza-live"]> (readlines Launcher.env_content) /\
    length (readlines text') = length (readlines Launcher.env_content).
Proof.
  destruct (update_env_file_terminated launcher_env ".env" "GEMINI_API_KEY"
              "AIza-live" Launcher.env_content)
    as (text' & w' & Hrun & Hfiles & Hlines); try reflexivity.
  exists text', w'. split; [exact Hrun|]. split; [exact Hfiles|].
  exact Hlines.
Defined.

(** The launcher's own file: the empty GEMINI_API_KEY line is replaced
    where it stands, the other eight lines are untouched. *)
Example launcher_env_update :
  let w' := snd (Launcher.update_env_file ".env" "GEMINI_API_KEY" "AIza-live" launcher_env) in
  files w' !! ".env"
  = Some (unlines ["# Browser-Use API Configuration";
                   "GEMINI_API_KEY=AIza-live";
                   "OPENAI_API_KEY=";
                   "ANTHROPIC_API_KEY=";
                   "GROQ_API_KEY=";
                   "";
                   "# Browser Settings";
                   "HEADLESS=false";
                   "BROWSER_SLOW_MO=1000"]).
Proof. vm_compute. reflexivity. Qed.

(** A key the file does not have yet goes to a new last line. *)
Example launcher_env_append :
  let w' := snd (Launcher.update_env_file ".env" "LOG_LEVEL" "INFO" launcher_env) in
  (readlines <$> files w' !! ".env")
  = Some (readlines Launcher.env_content ++ ["LOG_LEVEL=INFO" +:+ nl]).
Proof. vm_compute. reflexivity. Qed.

(** C5 fails on the code when the last line of the file has no line feed
    and the key is absent: the entry is written onto the end of that line.
    The file had one line and still has one, the unrelated line
    [HEADLESS=false] is no longer there, and no line starts with the key. *)
Theorem update_env_file_merges_unterminated_line :
  let w' := snd (Launcher.update_env_file ".env" "GEMINI_API_KEY" "abc" unterminated_env) in
  files unterminated_env !! ".env" = Some "HEADLESS=false" /\
  files w' !! ".env" = Some ("HEADLESS=falseGEMINI_API_KEY=abc" +:+ nl) /\
  (readlines <$> files w' !! ".env")
    = Some ["HEADLESS=falseGEMINI_API_KEY=abc" +:+ nl] /\
  Launcher.update_lines "GEMINI_API_KEY" "abc" (readlines "HEADLESS=false")
    = ["HEADLESS=false"; "GEMINI_API_KEY=abc" +:+ nl].
Proof. vm_compute. repeat split; reflexivity. Qed.

(** C9: when the credentials file does not exist [update_env_file] returns
    normally and leaves the world as it was: no file is created, nothing
    is written, nothing is recorded. *)
Theorem update_env_file_absent (w : World) (env_file key_name key_value : string) :
  files w !! env_file = None ->
  Launcher.update_env_file env_file key_name key_value w = (Returned tt, w).
Proof.
  intros Habsent. unfold Launcher.update_env_file. rewrite Habsent. reflexivity.
Qed.

Lemma update_env_file_absent_witness :
  files no_env_file !! ".env" = None /\
  Launcher.update_env_file ".env" "GEMINI_API_KEY" "AIza-live" no_env_file
    = (Returned tt, no_env_file).
Proof.
  split; [reflexivity|].
  apply (update_env_file_absent no_env_file ".env" "GEMINI_API_KEY" "AIza-live").
  reflexivity.
Defined.

End CredentialsFile.

(** * Properties of the setup drivers and of the installation check *)

Lemma steps_called_app evs1 evs2 :
  steps_called (evs1 ++ evs2) = steps_called evs1 ++ steps_called evs2.
Proof.
  induction evs1 as [|ev evs1 IH]; [reflexivity|].
  destruct ev; cbn; congruence.
Qed.

Lemma step_results_app evs1 evs2 :
  step_results (evs1 ++ evs2) = step_results evs1 ++ step_results evs2.
Proof.
  induction evs1 as [|ev evs1 IH]; [reflexivity|].
  destruct ev; cbn; congruence.
Qed.

Section Containment.

Variable x : External.

Lemma contained_ret {A} allowed (a : A) : contained x allowed (ret a).
Proof. intros w Hx. exists (Returned a), w, []. repeat split; assumption. Qed.

Lemma contained_emit allowed ev :
  steps_called [ev] = [] -> step_results [ev] = [] ->
  contained x allowed (emit ev).
Proof.
  intros Hc Hr w Hx. exists (Returned tt), (record ev w), [ev].
  repeat split; assumption.
Qed.

Lemma contained_print allowed s : contained x allowed (print s).
Proof. apply contained_emit; reflexivity. Qed.

Lemma contained_bind {A B} allowed (m : M A) (k : A -> M B) :
  contained x allowed m -> (forall a, contained x allowed (k a)) ->
  contained x allowed (bind m k).
Proof.
  intros Hm Hk w Hx.
  destruct (Hm w Hx) as ([a|e] & w1 & evs1 & Hrun & Ht & Hx1 & Hc & Hr & Hok);
    unfold bind; rewrite Hrun.
  - destruct (Hk a w1 Hx1) as (r & w2 & evs2 & Hrun2 & Ht2 & Hx2 & Hc2 & Hr2 & Hok2).
    exists r, w2, (evs2 ++ evs1). rewrite Hrun2, Ht2, Ht.
    rewrite steps_called_app, step_results_app, Hc, Hc2, Hr, Hr2, app_assoc.
    repeat split; assumption.
  - exists (Raised e), w1, evs1. repeat split; assumption.
Qed.

Lemma contained_try {A} caught allowed (body : M A) catches handler :
  contained x caught body ->
  (forall e, caught e = true -> catches e = true) ->
  (forall e, contained x allowed (handler e)) ->
  contained x allowed (try_except body catches handler).
Proof.
  intros Hbody Hcatch Hhandler w Hx.
  destruct (Hbody w Hx) as ([a|e] & w1 & evs1 & Hrun & Ht & Hx1 & Hc & Hr & Hok);
    unfold try_except; rewrite Hrun.
  - exists (Returned a), w1, evs1. repeat split; assumption.
  - rewrite (Hcatch e Hok).
    destruct (Hhandler e w1 Hx1) as (r & w2 & evs2 & Hrun2 & Ht2 & Hx2 & Hc2 & Hr2 & Hok2).
    exists r, w2, (evs2 ++ evs1). rewrite Hrun2, Ht2, Ht.
    rewrite steps_called_app, step_results_app, Hc, Hc2, Hr, Hr2, app_assoc.
    repeat split; assumption.
Qed.

Lemma contained_subprocess allowed argv sh :
  commands_start x ->
  (forall e, isinstance_CalledProcessError e = true -> allowed e = true) ->
  contained x allowed (subprocess_run argv sh).
Proof.
  intros Hstart Hallowed w Hx. unfold subprocess_run, external.
  destruct (ext_subprocess (ext w) (trace w) argv sh) as [e|] eqn:E.
  - eexists (Raised e), _, [_]. repeat split; try assumption.
    apply Hallowed. rewrite Hx in E. exact (Hstart _ _ _ _ E).
  - eexists (Returned tt), _, [_]. repeat split; assumption.
Qed.

Lemma contained_get_sys_executable allowed :
  contained x allowed get_sys_executable.
Proof. intros w Hx. eexists (Returned _), w, []. repeat split; assumption. Qed.

Lemma contained_get_platform_system allowed :
  contained x allowed get_platform_system.
Proof. intros w Hx. eexists (Returned _), w, []. repeat split; assumption. Qed.

Lemma contained_path_exists allowed path :
  contained x allowed (path_exists path).
Proof. intros w Hx. eexists (Returned _), w, []. repeat split; assumption. Qed.

Lemma contained_write_text allowed path content :
  contained x allowed (write_text path content).
Proof. intros w Hx. eexists (Returned tt), _, [_]. repeat split; assumption. Qed.

Lemma contained_if {A} allowed (b : bool) (m1 m2 : M A) :
  contained x allowed m1 -> contained x allowed m2 ->
  contained x allowed (if b then m1 else m2).
Proof. destruct b; auto. Qed.

End Containment.

Section Drivers.

Variable x : External.
Hypothesis commands : commands_start x.

Local Ltac contain :=
  repeat first
    [ apply contained_bind; [|intros ?]
    | apply contained_ret
    | apply contained_print
    | apply contained_get_sys_executable
    | apply contained_get_platform_system
    | apply contained_path_exists
    | apply contained_write_text
    | apply contained_if
    | apply contained_emit; reflexivity
    | apply contained_subprocess;
        [exact commands | intros [[] ?]; (discriminate || reflexivity)]
    | eapply (contained_try x isinstance_CalledProcessError);
        [|intros [[] ?]; (discriminate || reflexivity) | intros ?] ].

Lemma check_python_version_returns :
  version_has_word x -> contained x nothing Setup.check_python_version.
Proof.
  intros Hword. unfold Setup.check_python_version.
  apply contained_bind; [apply contained_print|intros _].
  intros w Hx. rewrite Hx. destruct (version_info x) as [major minor].
  destruct ((major <? 3)%Z || (major =? 3)%Z && (minor <? 11)%Z).
  - revert w Hx. contain.
  - revert w Hx. apply contained_bind; [|intros short; contain].
    unfold first_word, version_has_word in *.
    destruct (take_word _); [contradiction|apply contained_ret].
Qed.

Lemma install_uv_returns : contained x nothing Setup.install_uv.
Proof. unfold Setup.install_uv. contain. Qed.

Lemma setup_install_browser_use_returns :
  contained x nothing Setup.install_browser_use.
Proof. unfold Setup.install_browser_use. contain. Qed.

Lemma install_chromium_returns : contained x nothing Setup.install_chromium.
Proof. unfold Setup.install_chromium. contain. Qed.

Lemma setup_env_file_returns dir : contained x nothing (Setup.setup_env_file dir).
Proof. unfold Setup.setup_env_file. contain. Qed.

Lemma create_demo_script_returns dir text :
  contained x nothing (Setup.create_demo_script dir text).
Proof. unfold Setup.create_demo_script. contain. Qed.

Lemma create_advanced_script_returns dir text :
  contained x nothing (Setup.create_advanced_script dir text).
Proof. unfold Setup.create_advanced_script. contain. Qed.

Lemma setup_steps_return dir demo advanced :
  version_has_word x ->
  Forall (fun s => contained x nothing (snd s)) (Setup.steps dir demo advanced).
Proof.
  intros Hword. unfold Setup.steps.
  repeat constructor; cbn [snd];
    auto using check_python_version_returns, install_uv_returns,
      setup_install_browser_use_returns, install_chromium_returns,
      setup_env_file_returns, create_demo_script_returns,
      create_advanced_script_returns.
Qed.

Lemma check_termux_environment_returns :
  contained x nothing Termux.check_termux_environment.
Proof.
  unfold Termux.check_termux_environment.
  apply contained_bind; [apply contained_print|intros _].
  intros w Hx. rewrite Hx. destruct (termux_prefix_exists x); revert w Hx; contain.
Qed.

Lemma update_packages_returns : contained x nothing Termux.update_packages.
Proof. unfold Termux.update_packages. contain. Qed.

Lemma install_packages_returns packages :
  contained x nothing (Termux.install_packages packages).
Proof.
  induction packages as [|package rest IH]; cbn [Termux.install_packages].
  - apply contained_ret.
  - apply contained_bind; [contain|intros _; exact IH].
Qed.

Lemma install_dependencies_returns : contained x nothing Termux.install_dependencies.
Proof.
  unfold Termux.install_dependencies.
  apply contained_bind; [apply contained_print|intros _].
  apply contained_bind; [apply install_packages_returns|intros _]. contain.
Qed.

Lemma pip_install_each_contained exe packages :
  contained x isinstance_CalledProcessError (Termux.pip_install_each exe packages).
Proof.
  induction packages as [|package rest IH]; cbn [Termux.pip_install_each].
  - apply contained_ret.
  - apply contained_bind; [apply contained_print|intros _].
    apply contained_bind; [contain|intros _; exact IH].
Qed.

Lemma install_python_packages_returns :
  contained x nothing Termux.install_python_packages.
Proof.
  unfold Termux.install_python_packages.
  apply contained_bind; [apply contained_print|intros _].
  eapply (contained_try x isinstance_CalledProcessError);
    [|intros e He; exact He|intros e; contain].
  apply contained_bind; [apply contained_get_sys_executable|intros exe].
  apply contained_bind; [contain|intros _].
  apply contained_bind; [apply pip_install_each_contained|intros _]. contain.
Qed.

Lemma setup_playwright_returns : contained x nothing Termux.setup_playwright.
Proof. unfold Termux.setup_playwright. contain. Qed.

Lemma setup_display_returns dir : contained x nothing (Termux.setup_display dir).
Proof. unfold Termux.setup_display. contain. Qed.

Lemma create_env_file_returns dir : contained x nothing (Termux.create_env_file dir).
Proof. unfold Termux.create_env_file. contain. Qed.

Lemma create_termux_demo_returns dir text :
  contained x nothing (Termux.create_termux_demo dir text).
Proof. unfold Termux.create_termux_demo. contain. Qed.

Lemma create_setup_instructions_returns dir text :
  contained x nothing (Termux.create_setup_instructions dir text).
Proof. unfold Termux.create_setup_instructions. contain. Qed.

Lemma termux_steps_return dir demo notes :
  Forall (fun s => contained x nothing (snd s)) (Termux.steps dir demo notes).
Proof.
  unfold Termux.steps.
  repeat constructor; cbn [snd];
    auto using update_packages_returns, install_dependencies_returns,
      install_python_packages_returns, setup_playwright_returns,
      setup_display_returns, create_env_file_returns,
      create_termux_demo_returns, create_setup_instructions_returns.
Qed.

(** The loop of the drivers, for steps that return: every step of the list
    is called, in order, each runs to its end whatever the earlier ones
    returned, and the list handed back is extended by exactly the steps that
    returned False. *)
Lemma run_steps_continues before steps :
  (forall name, contained x nothing (before name)) ->
  Forall (fun s => contained x nothing (snd s)) steps ->
  forall failed w, ext w = x ->
  exists w' evs,
    run_steps before steps failed w
      = (Returned (failed ++ failures (rev (step_results evs))), w') /\
    trace w' = evs ++ trace w /\ ext w' = x /\
    rev (steps_called evs) = List.map fst steps /\
    List.map fst (rev (step_results evs)) = List.map fst steps.
Proof.
  intros Hbefore Hsteps. induction Hsteps as [|[name step] rest Hstep _ IH].
  - intros failed w Hx. exists w, []. cbn. rewrite app_nil_r. repeat split. exact Hx.
  - intros failed w Hx. cbn [run_steps].
    destruct (Hbefore name w Hx) as ([[]|e] & w1 & evs1 & Hb & Ht1 & Hx1 & Hc1 & Hr1 & Hok1);
      [|discriminate Hok1].
    unfold bind at 1. rewrite Hb.
    unfold bind at 1, emit at 1.
    destruct (Hstep (record (EvStep name) w1) Hx1)
      as ([ok|e] & w2 & evs2 & Hs & Ht2 & Hx2 & Hc2 & Hr2 & Hok2);
      [|discriminate Hok2].
    cbn [snd] in Hs. unfold bind at 1. rewrite Hs.
    unfold bind at 1, emit at 1.
    destruct (IH (if ok then failed else failed ++ [name])
                (record (EvStepDone name ok) w2) Hx2)
      as (w3 & evs3 & Hrun & Ht3 & Hx3 & Hc3 & Hr3).
    rewrite Hrun.
    exists w3, (evs3 ++ [EvStepDone name ok] ++ evs2 ++ [EvStep name] ++ evs1).
    split; [|split; [|split; [exact Hx3|split]]].
    + f_equal. f_equal.
      rewrite !step_results_app, Hr1, Hr2. cbn.
      rewrite rev_app_distr. cbn. unfold failures. cbn.
      destruct ok; cbn; [reflexivity|]. rewrite <- app_assoc. reflexivity.
    + rewrite Ht3. cbn. rewrite Ht2. cbn. rewrite Ht1.
      repeat (rewrite <- app_assoc; cbn). reflexivity.
    + rewrite !steps_called_app, Hc1, Hc2. cbn.
      rewrite rev_app_distr. cbn. congruence.
    + rewrite !step_results_app, Hr1, Hr2. cbn.
      rewrite ?app_nil_r, rev_app_distr. cbn. congruence.
Qed.

(** A step that raises ends the loop: the drivers have no handler. *)
Lemma run_steps_raises before name (step : M bool) rest failed w w1 w2 e :
  before name w = (Returned tt, w1) ->
  step (record (EvStep name) w1) = (Raised e, w2) ->
  run_steps before ((name, step) :: rest) failed w = (Raised e, w2).
Proof.
  intros Hb Hs. cbn [run_steps]. unfold bind at 1. rewrite Hb.
  unfold bind at 1, emit at 1. unfold bind at 1. rewrite Hs. reflexivity.
Qed.

(** The report at the end: one line per recorded failure, in order. *)
Lemma print_failed_prints failed w :
  exists w', print_failed failed w = (Returned tt, w') /\
    trace w' = rev (List.map (fun step => EvPrint ("   - " +:+ step)) failed) ++ trace w.
Proof.
  revert w. induction failed as [|step rest IH]; intros w.
  - exists w. split; reflexivity.
  - cbn [print_failed]. unfold bind, print, emit.
    destruct (IH (record (EvPrint ("   - " +:+ step)) w)) as (w' & Hrun & Ht).
    exists w'. rewrite Hrun. split; [reflexivity|].
    rewrite Ht. cbn. rewrite <- app_assoc. reflexivity.
Qed.


Lemma failures_false results name :
  In (name, false) results -> In name (failures results).
Proof.
  intros Hin. unfold failures. apply in_map_iff. exists (name, false).
  split; [reflexivity|]. apply filter_In. split; [assumption|reflexivity].
Qed.

(** The loop of the drivers on steps that return, told by what the steps
    themselves did: each step of the list was run from the world its
    predecessor left, and the list handed back is extended by the names of
    those that returned False. *)
Lemma run_steps_run before steps :
  (forall name, contained x nothing (before name)) ->
  Forall (fun s => contained x nothing (snd s)) steps ->
  forall failed w, ext w = x ->
  exists oks w1,
    steps_run before steps w oks w1 /\
    run_steps before steps failed w
      = (Returned (failed ++ failed_names steps oks), w1).
Proof.
  intros Hbefore Hsteps. induction Hsteps as [|[name step] rest Hstep _ IH].
  - intros failed w Hx. exists [], w. split; [constructor|].
    cbn. rewrite app_nil_r. reflexivity.
  - intros failed w Hx. cbn [run_steps].
    destruct (Hbefore name w Hx) as ([[]|e] & w0 & evs0 & Hb & _ & Hx0 & _ & _ & Hok0);
      [|discriminate Hok0].
    unfold bind at 1. rewrite Hb. unfold bind at 1, emit at 1.
    destruct (Hstep (record (EvStep name) w0) Hx0)
      as ([ok|e] & w1 & evs1 & Hs & _ & Hx1 & _ & _ & Hok1); [|discriminate Hok1].
    cbn [snd] in Hs. unfold bind at 1. rewrite Hs. unfold bind at 1, emit at 1.
    destruct (IH (if ok then failed else failed ++ [name])
                (record (EvStepDone name ok) w1) Hx1) as (oks & w' & Hrun & Hloop).
    exists (ok :: oks), w'. split; [econstructor; eassumption|].
    rewrite Hloop. cbn [failed_names].
    destruct ok; [reflexivity|]. rewrite <- app_assoc. reflexivity.
Qed.

Lemma after_prints_app lines1 lines2 w :
  after_prints (lines1 ++ lines2) w = after_prints lines2 (after_prints lines1 w).
Proof. apply fold_left_app. Qed.

Lemma print_failed_after failed w :
  print_failed failed w = (Returned tt, after_prints (List.map report_line failed) w).
Proof.
  revert w. induction failed as [|step rest IH]; intros w; [reflexivity|].
  cbn [print_failed]. unfold bind, print, emit. apply IH.
Qed.

Lemma report_lines_all names :
  List.filter is_report_line (List.map report_line names) = List.map report_line names.
Proof.
  induction names as [|name names IH]; [reflexivity|].
  cbn [List.map List.filter].
  replace (is_report_line (report_line name)) with true
    by (destruct name; reflexivity).
  rewrite IH. reflexivity.
Qed.

(** X2: when every command the desktop driver runs can be started (a
    failure is a non-zero exit status), [run_full_setup] returns.  After
    its two opening lines each of its seven steps was run, in the order of
    the list and from the world the step before it left, whatever the
    earlier ones returned; after the last step nothing but lines are
    printed, and the report lines among them are one for every step that
    returned False, in order. *)
Theorem run_full_setup_completes dir demo advanced w :
  ext w = x -> version_has_word x ->
  exists oks w1 closing,
    steps_run (fun _ => ret tt) (Setup.steps dir demo advanced)
      (after_prints ["🚀 Browser-Use Complete Setup"; repeat_string "=" 50] w)
      oks w1 /\
    Setup.run_full_setup dir demo advanced w
      = (Returned tt, after_prints closing w1) /\
    List.filter is_report_line closing
      = List.map report_line (failed_names (Setup.steps dir demo advanced) oks).
Proof.
  intros Hx Hword. unfold Setup.run_full_setup.
  unfold bind at 1, print at 1, emit. unfold bind at 1, print at 1, emit.
  unfold bind at 1.
  match goal with |- context [run_steps ?b ?s ?f ?w0] =>
    destruct (run_steps_run b s (fun _ => contained_ret x nothing tt)
                (setup_steps_return dir demo advanced Hword) f w0 Hx)
      as (oks & w1 & Hrun & Hloop)
  end.
  exists oks, w1. rewrite Hloop. cbn [app].
  destruct (failed_names (Setup.steps dir demo advanced) oks) as [|f fs].
  - eexists [_;_;_;_;_;_;_;_;_;_;_;_;_;_;_].
    split; [exact Hrun|]. split; reflexivity.
  - unfold bind at 1, print at 1, emit.
    unfold bind at 1. unfold bind at 1, print at 1, emit.
    unfold bind at 1. rewrite print_failed_after.
    eexists ([_;_] ++ List.map report_line (f :: fs) ++ [_;_;_;_;_]).
    split; [exact Hrun|]. split.
    + rewrite !after_prints_app. reflexivity.
    + rewrite !List.filter_app, report_lines_all. cbn [List.filter].
      rewrite app_nil_r. reflexivity.
Qed.

(** X3: inside Termux, when every command can be started,
    [run_complete_setup] returns.  After its opening lines and the
    environment check each of its eight steps was run, in the order of the
    list and from the world the step before it left, each announced by the
    driver; after the last step nothing but lines are printed, and the
    report lines among them are one for every step that returned False, in
    order. *)
Theorem run_complete_setup_completes dir demo notes w :
  ext w = x -> termux_prefix_exists x = true ->
  exists oks w1 closing,
    steps_run (fun step_name => print ("\n🔄 " +:+ step_name +:+ "..."))
      (Termux.steps dir demo notes)
      (after_prints ["📱 Browser-Use Setup for Termux"; repeat_string "=" 50;
                     "🔍 Checking Termux environment...";
                     "✅ Termux environment detected!"] w)
      oks w1 /\
    Termux.run_complete_setup dir demo notes w
      = (Returned tt, after_prints closing w1) /\
    List.filter is_report_line closing
      = List.map report_line (failed_names (Termux.steps dir demo notes) oks).
Proof.
  intros Hx Hterm. unfold Termux.run_complete_setup.
  set (before := fun step_name : string => print _).
  unfold bind at 1, print at 1, emit. unfold bind at 1, print at 1, emit.
  unfold bind at 1, Termux.check_termux_environment.
  unfold bind at 1, print at 1, emit.
  cbn [record set_trace ext]. rewrite Hx, Hterm.
  unfold bind at 1, print at 1, emit. cbn [ret negb].
  unfold bind at 1.
  match goal with |- context [run_steps ?b ?s ?f ?w0] =>
    destruct (run_steps_run b s
                (fun name => contained_print x nothing _)
                (termux_steps_return dir demo notes) f w0 Hx)
      as (oks & w1 & Hrun & Hloop)
  end.
  exists oks, w1. rewrite Hloop. cbn [app].
  destruct (failed_names (Termux.steps dir demo notes) oks) as [|f fs].
  - eexists [_;_;_;_;_;_;_;_;_;_;_;_;_;_].
    split; [exact Hrun|]. split; reflexivity.
  - unfold bind at 1, print at 1, emit.
    unfold bind at 1. unfold bind at 1, print at 1, emit.
    rewrite print_failed_after.
    eexists ([_;_] ++ List.map report_line (f :: fs) ++ [_;_;_]).
    split; [exact Hrun|]. split.
    + rewrite !after_prints_app. reflexivity.
    + rewrite !List.filter_app, report_lines_all. cbn [List.filter].
      rewrite app_nil_r. reflexivity.
Qed.

(** X4: outside Termux [run_complete_setup] stops at its environment
    check.  It prints its two opening lines, that it checks the
    environment, and why it stops: the script is meant for Termux, the
    desktop script is the one to use.  It does nothing else and returns. *)
Theorem run_complete_setup_outside dir demo notes w :
  ext w = x -> termux_prefix_exists x = false ->
  Termux.run_complete_setup dir demo notes w
  = (Returned tt,
     after_prints ["📱 Browser-Use Setup for Termux"; repeat_string "=" 50;
                   "🔍 Checking Termux environment...";
                   "❌ This script is designed for Termux on Android";
                   "For PC setup, use browser_use_setup.py instead"] w).
Proof.
  intros Hx Hterm. unfold Termux.run_complete_setup.
  unfold bind at 1, print at 1, emit. unfold bind at 1, print at 1, emit.
  unfold bind at 1, Termux.check_termux_environment.
  unfold bind at 1, print at 1, emit.
  cbn [record set_trace ext]. rewrite Hx, Hterm. reflexivity.
Qed.

End Drivers.

Lemma commands_start_offline : commands_start offline.
Proof.
  intros h argv sh e. cbn.
  destruct argv as [|prog [|flag [|arg rest]]]; cbn;
    try destruct (String.eqb flag "--version");
    try discriminate; intros [= <-]; reflexivity.
Qed.

Lemma run_full_setup_completes_witness :
  commands_start offline /\ version_has_word offline /\
  exists oks w1 closing,
    steps_run (fun _ => ret tt) (Setup.steps "/home/user" "demo" "advanced")
      (after_prints ["🚀 Browser-Use Complete Setup"; repeat_string "=" 50]
         (start ∅ ∅ offline))
      oks w1 /\
    Setup.run_full_setup "/home/user" "demo" "advanced" (start ∅ ∅ offline)
      = (Returned tt, after_prints closing w1) /\
    List.filter is_report_line closing
      = List.map report_line
          (failed_names (Setup.steps "/home/user" "demo" "advanced") oks).
Proof.
  assert (Hword : version_has_word offline) by (vm_compute; discriminate).
  split; [exact commands_start_offline|]. split; [exact Hword|].
  apply (run_full_setup_completes offline commands_start_offline
           "/home/user" "demo" "advanced" (start ∅ ∅ offline));
    [reflexivity|exact Hword].
Defined.

Lemma run_complete_setup_completes_witness :
  commands_start offline /\ termux_prefix_exists offline = true /\
  exists oks w1 closing,
    steps_run (fun step_name => print ("\n🔄 " +:+ step_name +:+ "..."))
      (Termux.steps "/home/user" "demo" "notes")
      (after_prints ["📱 Browser-Use Setup for Termux"; repeat_string "=" 50;
                     "🔍 Checking Termux environment...";
                     "✅ Termux environment detected!"] (start ∅ ∅ offline))
      oks w1 /\
    Termux.run_complete_setup "/home/user" "demo" "notes" (start ∅ ∅ offline)
      = (Returned tt, after_prints closing w1) /\
    List.filter is_report_line closing
      = List.map report_line
          (failed_names (Termux.steps "/home/user" "demo" "notes") oks).
Proof.
  split; [exact commands_start_offline|]. split; [reflexivity|].
  apply (run_complete_setup_completes offline commands_start_offline
           "/home/user" "demo" "notes" (start ∅ ∅ offline)); reflexivity.
Defined.

Lemma run_complete_setup_outside_witness :
  termux_prefix_exists quiet = false /\
  history (snd (Termux.run_complete_setup "/home/user" "demo" "notes"
                  (start ∅ ∅ quiet)))
  = [EvPrint "📱 Browser-Use Setup for Termux";
     EvPrint "==================================================";
     EvPrint "🔍 Checking Termux environment...";
     EvPrint "❌ This script is designed for Termux on Android";
     EvPrint "For PC setup, use browser_use_setup.py instead"].
Proof.
  split; [reflexivity|].
  rewrite (run_complete_setup_outside quiet "/home/user" "demo" "notes"
             (start ∅ ∅ quiet)); reflexivity.
Defined.

Section Installers.

(** Without network every install of the desktop driver fails with a
    non-zero exit status: all seven steps still run, and the two that
    failed are reported together at the end. *)
Example run_full_setup_offline :
  let run := Setup.run_full_setup "/home/user" "demo" "advanced" (start ∅ ∅ offline) in
  fst run = Returned tt /\
  step_results (history (snd run)) =
    [("Python Version Check", true); ("UV Package Manager", true);
     ("Browser-Use Installation", false); ("Chromium Installation", false);
     ("Environment Setup", true); ("Demo Script Creation", true);
     ("Advanced Script Creation", true)] /\
  List.filter (fun s => String.prefix "   - " s) (printed (history (snd run))) =
    ["   - Browser-Use Installation"; "   - Chromium Installation"].
Proof. vm_compute. repeat split; reflexivity. Qed.

(** The same for the Termux driver, inside Termux. *)
Example run_complete_setup_offline :
  let run := Termux.run_complete_setup "/home/user" "demo" "notes" (start ∅ ∅ offline) in
  fst run = Returned tt /\
  step_results (history (snd run)) =
    [("Package Update", false); ("Dependencies Installation", true);
     ("Python Packages", false); ("Playwright Setup", true);
     ("Display Setup", true); ("Environment Configuration", true);
     ("Demo Script Creation", true); ("Instructions Creation", true)] /\
  List.filter (fun s => String.prefix "   - " s) (printed (history (snd run))) =
    ["   - Package Update"; "   - Python Packages"].
Proof. vm_compute. repeat split; reflexivity. Qed.

(** Outside Termux the Termux driver prints why and returns: no step runs,
    no exception is raised. *)
Example run_complete_setup_outside_termux :
  let run := Termux.run_complete_setup "/home/user" "demo" "notes" (start ∅ ∅ quiet) in
  fst run = Returned tt /\
  steps_called (trace (snd run)) = [] /\
  printed (history (snd run)) =
    ["📱 Browser-Use Setup for Termux";
     "==================================================";
     "🔍 Checking Termux environment...";
     "❌ This script is designed for Termux on Android";
     "For PC setup, use browser_use_setup.py instead"].
Proof. vm_compute. repeat split; reflexivity. Qed.

(** C7 fails on the code when a step raises instead of returning False.
    On a machine without uv the second step fails and is recorded, the
    third step runs, but its [uv pip install] raises FileNotFoundError,
    which [install_browser_use] does not catch: [run_full_setup] ends with
    that exception, the four remaining steps never run and nothing is
    reported. *)
Theorem run_full_setup_stops_without_uv (setup_dir demo_content advanced_content : string) :
  let run := Setup.run_full_setup setup_dir demo_content advanced_content
               (start ∅ ∅ without_uv) in
  fst run = Raised (no_such_file "uv") /\
  rev (steps_called (trace (snd run))) =
    ["Python Version Check"; "UV Package Manager"; "Browser-Use Installation"] /\
  step_results (history (snd run)) =
    [("Python Version Check", true); ("UV Package Manager", false)] /\
  head (trace (snd run)) =
    Some (EvSubprocess ["uv"; "pip"; "install"; "browser-use"] false
            (Some (no_such_file "uv"))) /\
  List.filter (fun s => String.prefix "   - " s) (printed (history (snd run))) = [].
Proof. vm_compute. repeat split; reflexivity. Qed.


(** X6: the desktop installer never overwrites a credentials file: when
    the file exists [setup_env_file] returns True and leaves every file as
    it was. *)
Theorem setup_env_file_keeps_existing (dir text : string) (w : World) :
  files w !! Setup.env_file dir = Some text ->
  exists w', Setup.setup_env_file dir w = (Returned true, w') /\
             files w' = files w.
Proof.
  intros Hfile. unfold Setup.setup_env_file, bind, print, emit, path_exists, ret.
  cbn. rewrite Hfile. cbn. eexists. split; reflexivity.
Qed.

Lemma setup_env_file_keeps_existing_witness :
  files (start ∅ {["/home/user/.env" := "GEMINI_API_KEY=AIza-live"]} quiet)
    !! Setup.env_file "/home/user" = Some "GEMINI_API_KEY=AIza-live" /\
  exists w',
    Setup.setup_env_file "/home/user"
      (start ∅ {["/home/user/.env" := "GEMINI_API_KEY=AIza-live"]} quiet)
      = (Returned true, w') /\
    files w' = files (start ∅ {["/home/user/.env" := "GEMINI_API_KEY=AIza-live"]} quiet).
Proof.
  split; [reflexivity|].
  apply (setup_env_file_keeps_existing "/home/user" "GEMINI_API_KEY=AIza-live").
  reflexivity.
Defined.

(** X7: the Termux installer always writes its template: after
    [create_env_file] the credentials file holds the template, whatever it
    held before. *)
Theorem create_env_file_overwrites (dir : string) (w : World) :
  exists w', Termux.create_env_file dir w = (Returned true, w') /\
             files w' !! Termux.env_file dir = Some Termux.env_content.
Proof.
  unfold Termux.create_env_file, bind, print, emit, write_text, ret. cbn.
  eexists. split; [reflexivity|]. cbn. apply lookup_insert_eq.
Qed.

(** C8 fails on the code in [check_installation].  With browser-use
    installed, Playwright missing and pip unable to install it, the
    CalledProcessError of [subprocess.run] leaves [check_installation]:
    the two installs of its second [except] clause are outside any [try].
    The sibling [install_browser_use] runs the same kind of command inside
    a [try] and returns False in the same world. *)
Theorem check_installation_raises :
  let run := Launcher.check_installation (start ∅ ∅ playwright_missing) in
  fst run
    = Raised (exit_status ["/usr/bin/python3"; "-m"; "pip"; "install"; "playwright"] "1") /\
  history (snd run) =
    [EvPrint "🔍 Checking installation...";
     EvImport "browser_use" None None;
     EvPrint "✅ Browser-use installed";
     EvImport "playwright" None
       (Some (Exn ModuleNotFoundError "No module named 'playwright'"));
     EvPrint "❌ Installing Playwright...";
     EvSubprocess ["/usr/bin/python3"; "-m"; "pip"; "install"; "playwright"] false
       (Some (exit_status ["/usr/bin/python3"; "-m"; "pip"; "install"; "playwright"] "1"))] /\
  fst (Launcher.install_browser_use (start ∅ ∅ playwright_missing)) = Returned false.
Proof. vm_compute. repeat split; reflexivity. Qed.

End Installers.


(** * More properties of the credentials file update *)

Section CredentialsFileTwice.


Lemma prefix_append (p s : string) : String.prefix p (p +:+ s) = true.
Proof.
  induction p as [|c p IH]; [destruct s; reflexivity|].
  change (String c p +:+ s) with (String c (p +:+ s)).
  cbn [String.prefix]. rewrite IH.
  destruct (ascii_dec c c); [reflexivity|contradiction].
Qed.






(** On a file whose last line has no line feed the second call does not
    find what the first one wrote: the entry is added once more. *)
Example update_env_file_twice_unterminated :
  let w1 := snd (Launcher.update_env_file ".env" "GEMINI_API_KEY" "abc" unterminated_env) in
  let w2 := snd (Launcher.update_env_file ".env" "GEMINI_API_KEY" "abc" w1) in
  files w2 !! ".env"
  = Some ("HEADLESS=falseGEMINI_API_KEY=abc" +:+ nl +:+ "GEMINI_API_KEY=abc" +:+ nl).
Proof. vm_compute. reflexivity. Qed.

End CredentialsFileTwice.


(** * The credentials file against the process environment *)

Section FileOverrides.

(** X9: [get_llm_instance] reloads the credentials file with [override=True]:
    an entry of the file replaces the variable of the process environment,
    also when the entry is empty.  When python-dotenv reads an empty value
    for each of the four provider variables (the file as [setup_api_keys]
    creates it), no provider is selected, whatever keys the process
    environment holds. *)
Theorem blank_entries_mask_exported_keys (w : World) :
  (forall p, ext_dotenv (ext w) (trace w) !! env_var p = Some "") ->
  Launcher.get_llm_instance w = (Raised Launcher.no_api_key, reloaded w) /\
  forall p, environ (reloaded w) !! env_var p = Some "".
Proof.
  intros Hblank.
  assert (Hcred : forall p, credentials w !! env_var p = Some "").
  { intros p. unfold credentials, credentials_at.
    apply lookup_union_Some_l, Hblank. }
  split; [|exact Hcred].
  apply get_llm_instance_none, highest_priority_absent.
  rewrite configured_count_cases. unfold configured.
  rewrite !Hcred. reflexivity.
Qed.

Lemma blank_entries_mask_exported_keys_witness :
  environ exported_key !! "GEMINI_API_KEY" = Some "AIza-live" /\
  Launcher.get_llm_instance exported_key
    = (Raised Launcher.no_api_key, reloaded exported_key).
Proof.
  split; [reflexivity|].
  apply (blank_entries_mask_exported_keys exported_key).
  intros []; reflexivity.
Defined.

End FileOverrides.


(** * Invariants of the installers *)

Lemma append_inj_l (a b c : string) : a +:+ b = a +:+ c -> b = c.
Proof.
  induction a as [|x a IH]; [auto|].
  change (String x a +:+ b) with (String x (a +:+ b)).
  change (String x a +:+ c) with (String x (a +:+ c)).
  intros [= H]. auto.
Qed.

Lemma commands_run_app evs1 evs2 :
  commands_run (evs1 ++ evs2) = commands_run evs1 ++ commands_run evs2.
Proof.
  induction evs1 as [|ev evs1 IH]; [reflexivity|].
  destruct ev; cbn; congruence.
Qed.

Section Preservation.

Variable I : World -> Prop.
Hypothesis I_timeless : timeless I.

Lemma preserves_ret {A} (a : A) : preserves I (ret a).
Proof. intros w r w' HI [= <- <-]. exact HI. Qed.

Lemma preserves_raise {A} e : preserves I (@raise A e).
Proof. intros w r w' HI [= <- <-]. exact HI. Qed.

Lemma preserves_emit ev : preserves I (emit ev).
Proof. intros w r w' HI [= <- <-]. apply I_timeless, HI. Qed.

Lemma preserves_print s : preserves I (print s).
Proof. apply preserves_emit. Qed.

Lemma preserves_bind {A B} (m : M A) (k : A -> M B) :
  preserves I m -> (forall a, preserves I (k a)) -> preserves I (bind m k).
Proof.
  intros Hm Hk w r w' HI. unfold bind.
  destruct (m w) as [[a|e] w1] eqn:Em.
  - apply (Hk a w1). apply (Hm w _ _ HI Em).
  - intros [= <- <-]. apply (Hm w _ _ HI Em).
Qed.

Lemma preserves_try {A} (body : M A) catches handler :
  preserves I body -> (forall e, preserves I (handler e)) ->
  preserves I (try_except body catches handler).
Proof.
  intros Hb Hh w r w' HI. unfold try_except.
  destruct (body w) as [[a|e] w1] eqn:Eb.
  - intros [= <- <-]. apply (Hb w _ _ HI Eb).
  - destruct (catches e).
    + apply (Hh e w1). apply (Hb w _ _ HI Eb).
    + intros [= <- <-]. apply (Hb w _ _ HI Eb).
Qed.

Lemma preserves_external r ev : preserves I (external r ev).
Proof.
  intros w r' w' HI. unfold external.
  destruct r; intros [= <- <-]; apply I_timeless, HI.
Qed.

Lemma preserves_subprocess argv sh : preserves I (subprocess_run argv sh).
Proof. intros w r w' HI. unfold subprocess_run. apply preserves_external, HI. Qed.

Lemma preserves_import_module m : preserves I (import_module m).
Proof. intros w r w' HI. unfold import_module. apply preserves_external, HI. Qed.

Lemma preserves_import_from m n : preserves I (import_from m n).
Proof. intros w r w' HI. unfold import_from. apply preserves_external, HI. Qed.

Lemma preserves_new cls kw : preserves I (new cls kw).
Proof.
  intros w r w' HI. unfold new.
  destruct (ext_new _ _ _ _); intros [= <- <-]; apply I_timeless, HI.
Qed.

Lemma preserves_await agent : preserves I (await_arun agent).
Proof.
  intros w r w' HI. unfold await_arun.
  destruct (ext_arun _ _ _); intros [= <- <-]; apply I_timeless, HI.
Qed.

Lemma preserves_getenv key : preserves I (getenv key).
Proof. intros w r w' HI [= <- <-]. exact HI. Qed.

Lemma preserves_get_sys_executable : preserves I get_sys_executable.
Proof. intros w r w' HI [= <- <-]. exact HI. Qed.

Lemma preserves_get_platform_system : preserves I get_platform_system.
Proof. intros w r w' HI [= <- <-]. exact HI. Qed.

Lemma preserves_path_exists path : preserves I (path_exists path).
Proof. intros w r w' HI [= <- <-]. exact HI. Qed.

Lemma preserves_int_of_getenv v d : preserves I (int_of_getenv v d).
Proof.
  unfold int_of_getenv. destruct v as [s|]; [|apply preserves_ret].
  intros w r w' HI. destruct (py_int (ext w) (trace w) s); intros [= <- <-]; exact HI.
Qed.

Lemma preserves_first_word s : preserves I (first_word s).
Proof.
  unfold first_word. destruct (take_word _);
    auto using @preserves_ret, @preserves_raise.
Qed.

Lemma preserves_if {A} (b : bool) (m1 m2 : M A) :
  preserves I m1 -> preserves I m2 -> preserves I (if b then m1 else m2).
Proof. destruct b; auto. Qed.

Lemma preserves_run_steps before steps :
  (forall name, preserves I (before name)) ->
  Forall (fun s => preserves I (snd s)) steps ->
  forall failed, preserves I (run_steps before steps failed).
Proof.
  intros Hb Hs. induction Hs as [|[name step] rest Hstep _ IH]; intros failed.
  - apply preserves_ret.
  - cbn [run_steps].
    apply preserves_bind; [apply Hb|intros _].
    apply preserves_bind; [apply preserves_emit|intros _].
    apply preserves_bind; [exact Hstep|intros ok].
    apply preserves_bind; [apply preserves_emit|intros _]. apply IH.
Qed.

Lemma preserves_print_failed failed : preserves I (print_failed failed).
Proof.
  induction failed as [|step rest IH]; cbn [print_failed].
  - apply preserves_ret.
  - apply preserves_bind; [apply preserves_print|intros _; exact IH].
Qed.

End Preservation.

Ltac keep :=
  repeat first
    [ apply preserves_bind; [|intros ?]
    | apply preserves_try; [|intros ?]
    | apply preserves_ret
    | apply preserves_raise
    | apply preserves_print
    | apply preserves_emit
    | apply preserves_subprocess
    | apply preserves_import_module
    | apply preserves_import_from
    | apply preserves_new
    | apply preserves_await
    | apply preserves_getenv
    | apply preserves_get_sys_executable
    | apply preserves_get_platform_system
    | apply preserves_path_exists
    | apply preserves_int_of_getenv
    | apply preserves_first_word
    | apply preserves_print_failed
    | apply preserves_if
    | assumption ].

(** The invariants about one file. *)
Lemma file_timeless path (Q : option string -> Prop) :
  timeless (fun w => Q (files w !! path)).
Proof. intros w t H. exact H. Qed.

Lemma preserves_write_other (Q : option string -> Prop) path other content :
  other <> path ->
  preserves (fun w => Q (files w !! path)) (write_text other content).
Proof.
  intros Hne w r w' HI [= <- <-]. cbn.
  rewrite lookup_insert_ne by exact Hne. exact HI.
Qed.

Lemma path_join_ne dir a b : a <> b -> path_join dir a <> path_join dir b.
Proof.
  intros Hne H. unfold path_join in H.
  apply append_inj_l in H. injection H as H. contradiction.
Qed.

Section DesktopFile.

Variables dir demo advanced : string.
Variable text : string.

Let kept : World -> Prop :=
  fun w => files w !! Setup.env_file dir = Some text.

Let kept_timeless : timeless kept.
Proof. intros w t H. exact H. Qed.

Lemma check_python_version_keeps : preserves kept Setup.check_python_version.
Proof.
  unfold Setup.check_python_version.
  apply preserves_bind; [apply preserves_print, kept_timeless|intros _].
  intros w r w' HI.
  destruct (version_info (ext w)) as [major minor].
  destruct ((major <? 3)%Z || (major =? 3)%Z && (minor <? 11)%Z).
  all: match goal with
       | HI : kept ?w0 |- ?m ?w0 = (?r0, ?w1) -> _ =>
           enough (H : preserves kept m) by exact (H w0 r0 w1 HI)
       end.
  all: keep; exact kept_timeless.
Qed.

Lemma setup_env_file_keeps : preserves kept (Setup.setup_env_file dir).
Proof.
  unfold Setup.setup_env_file.
  apply preserves_bind; [apply preserves_print, kept_timeless|intros _].
  intros w r w' HI. unfold bind at 1, path_exists.
  unfold kept in HI. rewrite HI, bool_decide_eq_true_2 by eauto.
  match goal with
  | |- ?m w = _ -> _ => enough (H : preserves kept m) by exact (H w r w' HI)
  end.
  keep; exact kept_timeless.
Qed.

Lemma setup_steps_keep :
  Forall (fun s => preserves kept (snd s)) (Setup.steps dir demo advanced).
Proof.
  unfold Setup.steps. repeat (apply List.Forall_cons; cbn [snd]); [..|apply List.Forall_nil].
  - apply check_python_version_keeps.
  - unfold Setup.install_uv. keep; exact kept_timeless.
  - unfold Setup.install_browser_use. keep; exact kept_timeless.
  - unfold Setup.install_chromium. keep; exact kept_timeless.
  - apply setup_env_file_keeps.
  - unfold Setup.create_demo_script.
    apply preserves_bind; [apply preserves_print, kept_timeless|intros _].
    apply preserves_bind;
      [apply (preserves_write_other (fun v => v = Some text)), path_join_ne;
       discriminate|intros _].
    keep; exact kept_timeless.
  - unfold Setup.create_advanced_script.
    apply preserves_bind; [apply preserves_print, kept_timeless|intros _].
    apply preserves_bind;
      [apply (preserves_write_other (fun v => v = Some text)), path_join_ne;
       discriminate|intros _].
    keep; exact kept_timeless.
Qed.

(** X10: an existing credentials file survives the desktop setup byte for byte,
    however the setup ends: also when a step raises and the driver stops. *)
Theorem run_full_setup_keeps_credentials (w : World) r w' :
  files w !! Setup.env_file dir = Some text ->
  Setup.run_full_setup dir demo advanced w = (r, w') ->
  files w' !! Setup.env_file dir = Some text.
Proof.
  intros Hfile. change (kept w) in Hfile. revert Hfile.
  enough (H : preserves kept (Setup.run_full_setup dir demo advanced))
    by (intros Hfile Hrun; exact (H w r w' Hfile Hrun)).
  unfold Setup.run_full_setup.
  apply preserves_bind; [apply preserves_print, kept_timeless|intros _].
  apply preserves_bind; [apply preserves_print, kept_timeless|intros _].
  apply preserves_bind;
    [apply preserves_run_steps;
       [exact kept_timeless|intros _; apply preserves_ret|apply setup_steps_keep]
    |intros failed].
  apply preserves_bind; [apply preserves_print, kept_timeless|intros _].
  apply preserves_bind; [destruct failed; keep; exact kept_timeless|intros _].
  keep; exact kept_timeless.
Qed.

End DesktopFile.

Lemma run_full_setup_keeps_credentials_witness :
  let run := Setup.run_full_setup "/home/user" "demo" "advanced" saved_key_without_uv in
  fst run = Raised (no_such_file "uv") /\
  files (snd run) !! Setup.env_file "/home/user"
    = Some ("GEMINI_API_KEY=AIza-live" +:+ nl).
Proof.
  split; [vm_compute; reflexivity|].
  apply (run_full_setup_keeps_credentials "/home/user" "demo" "advanced"
           ("GEMINI_API_KEY=AIza-live" +:+ nl) saved_key_without_uv
           (fst (Setup.run_full_setup "/home/user" "demo" "advanced" saved_key_without_uv))).
  - reflexivity.
  - apply surjective_pairing.
Defined.


(** * Returning, and what a returning run has established *)

Lemma bind_returned {A B} (m : M A) (k : A -> M B) w b w' :
  bind m k w = (Returned b, w') ->
  exists a w1, m w = (Returned a, w1) /\ k a w1 = (Returned b, w').
Proof.
  unfold bind. destruct (m w) as [[a|e] w1]; [eauto|discriminate].
Qed.

Lemma bind_assoc {A B C} (m : M A) (k1 : A -> M B) (k2 : B -> M C) w :
  bind (bind m k1) k2 w = bind m (fun a => bind (k1 a) k2) w.
Proof. unfold bind. destruct (m w) as [[a|e] w1]; reflexivity. Qed.

Lemma bind_ext {A B} (m : M A) (k k' : A -> M B) w :
  (forall a w1, k a w1 = k' a w1) -> bind m k w = bind m k' w.
Proof. intros H. unfold bind. destruct (m w) as [[a|e] w1]; auto. Qed.

Lemma run_steps_app before l1 l2 failed :
  forall w,
    run_steps before (l1 ++ l2) failed w
    = bind (run_steps before l1 failed) (run_steps before l2) w.
Proof.
  revert failed. induction l1 as [|[name step] l1 IH]; intros failed w.
  - reflexivity.
  - cbn [run_steps app]. rewrite bind_assoc.
    apply bind_ext; intros _ w1. rewrite bind_assoc.
    apply bind_ext; intros _ w2. rewrite bind_assoc.
    apply bind_ext; intros ok w3. rewrite bind_assoc.
    apply bind_ext; intros _ w4. apply IH.
Qed.

Section Returning.

Variable x : External.

Lemma returns_contained {A} (m : M A) : contained x nothing m -> returns x m.
Proof.
  intros Hm w Hx.
  destruct (Hm w Hx) as ([a|e] & w' & evs & Hrun & _ & Hx' & _ & _ & Hok);
    [eauto|discriminate].
Qed.

Lemma returns_ret {A} (a : A) : returns x (ret a).
Proof. intros w Hx. eauto. Qed.

Lemma returns_print s : returns x (print s).
Proof. intros w Hx. eexists tt, _. split; [reflexivity|exact Hx]. Qed.

Lemma returns_bind {A B} (m : M A) (k : A -> M B) :
  returns x m -> (forall a, returns x (k a)) -> returns x (bind m k).
Proof.
  intros Hm Hk w Hx. destruct (Hm w Hx) as (a & w1 & Hrun & Hx1).
  unfold bind. rewrite Hrun. apply Hk, Hx1.
Qed.

Lemma returns_print_failed failed : returns x (print_failed failed).
Proof.
  induction failed as [|step rest IH]; cbn [print_failed].
  - apply returns_ret.
  - apply returns_bind; [apply returns_print|intros _; exact IH].
Qed.

Lemma returns_run_steps before steps failed :
  (forall name, contained x nothing (before name)) ->
  Forall (fun s => contained x nothing (snd s)) steps ->
  returns x (run_steps before steps failed).
Proof.
  intros Hb Hs w Hx.
  destruct (run_steps_continues x before steps Hb Hs failed w Hx)
    as (w' & evs & Hrun & _ & Hx' & _).
  eauto.
Qed.

End Returning.

Section Establishing.

Variable E : World -> Prop.
Hypothesis E_timeless : timeless E.

Lemma establishes_bind_l {A B} (m : M A) (k : A -> M B) :
  establishes E m -> (forall a, preserves E (k a)) -> establishes E (bind m k).
Proof.
  intros Hm Hk w b w' Hrun.
  apply bind_returned in Hrun as (a & w1 & Hm1 & Hk1).
  exact (Hk a w1 _ _ (Hm w a w1 Hm1) Hk1).
Qed.

Lemma establishes_bind_r {A B} (m : M A) (k : A -> M B) :
  (forall a, establishes E (k a)) -> establishes E (bind m k).
Proof.
  intros Hk w b w' Hrun.
  apply bind_returned in Hrun as (a & w1 & _ & Hk1).
  exact (Hk a w1 b w' Hk1).
Qed.

(** A step that establishes [E] and is followed only by steps that keep it:
    when the loop returns, [E] holds. *)
Lemma run_steps_establishes before l1 name step l2 :
  establishes E step ->
  Forall (fun s => preserves E (snd s)) l2 ->
  (forall n, preserves E (before n)) ->
  forall failed,
    establishes E (run_steps before (l1 ++ (name, step) :: l2) failed).
Proof.
  intros Hstep Hl2 Hb.
  induction l1 as [|[n s] l1 IH]; intros failed; cbn [run_steps app].
  - apply establishes_bind_r; intros _.
    apply establishes_bind_r; intros _.
    apply establishes_bind_l; [exact Hstep|intros ok].
    apply preserves_bind; [apply preserves_emit, E_timeless|intros _].
    apply preserves_run_steps; assumption.
  - do 4 (apply establishes_bind_r; intros ?). apply IH.
Qed.

End Establishing.

(** * The Termux driver and the credentials file *)

Section TermuxFile.

Variable x : External.
Hypothesis commands : commands_start x.
Hypothesis in_termux : termux_prefix_exists x = true.
Variables dir demo notes : string.

Let reset : World -> Prop :=
  fun w => files w !! Termux.env_file dir = Some Termux.env_content.

Let reset_timeless : timeless reset.
Proof. intros w t H. exact H. Qed.

Lemma create_env_file_resets : establishes reset (Termux.create_env_file dir).
Proof.
  intros w a w'.
  unfold Termux.create_env_file, bind, print, emit, write_text, ret. cbn.
  intros [= <- <-]. unfold reset. cbn. apply lookup_insert_eq.
Qed.

Lemma termux_later_steps_keep :
  Forall (fun s => preserves reset (snd s))
    [("Demo Script Creation", Termux.create_termux_demo dir demo);
     ("Instructions Creation", Termux.create_setup_instructions dir notes)].
Proof.
  repeat (apply List.Forall_cons; cbn [snd]); [..|apply List.Forall_nil].
  - unfold Termux.create_termux_demo.
    apply preserves_bind; [apply preserves_print, reset_timeless|intros _].
    apply preserves_bind;
      [apply (preserves_write_other (fun v => v = Some Termux.env_content)),
         path_join_ne; discriminate|intros _].
    keep; exact reset_timeless.
  - unfold Termux.create_setup_instructions.
    apply preserves_bind; [apply preserves_print, reset_timeless|intros _].
    apply preserves_bind;
      [apply (preserves_write_other (fun v => v = Some Termux.env_content)),
         path_join_ne; discriminate|intros _].
    keep; exact reset_timeless.
Qed.

(** X11: inside Termux, when every command can be started, the setup returns
    and leaves the template in the credentials file, whatever the file
    held before: a key saved earlier is replaced by the placeholder. *)
Theorem run_complete_setup_resets_credentials (w : World) :
  ext w = x ->
  exists w',
    Termux.run_complete_setup dir demo notes w = (Returned tt, w') /\
    files w' !! Termux.env_file dir = Some Termux.env_content.
Proof.
  intros Hx.
  assert (Hret : returns x (Termux.run_complete_setup dir demo notes)).
  { unfold Termux.run_complete_setup.
    apply returns_bind; [apply returns_print|intros _].
    apply returns_bind; [apply returns_print|intros _].
    apply returns_bind;
      [apply returns_contained, check_termux_environment_returns|intros ok].
    destruct (negb ok); [apply returns_ret|].
    apply returns_bind;
      [apply returns_run_steps;
         [intros name; apply contained_print
         |apply termux_steps_return, commands]
      |intros failed].
    apply returns_bind; [apply returns_print|intros _].
    apply returns_bind;
      [destruct failed;
       repeat first [apply returns_bind; [|intros _] | apply returns_print
                    | apply returns_print_failed]
      |intros _].
    repeat first [apply returns_bind; [|intros _] | apply returns_print]. }
  destruct (Hret w Hx) as ([] & w' & Hrun & _).
  exists w'. split; [exact Hrun|].
  revert Hrun. unfold Termux.run_complete_setup.
  unfold bind at 1, print at 1, emit. unfold bind at 1, print at 1, emit.
  unfold bind at 1, Termux.check_termux_environment.
  unfold bind at 1, print at 1, emit.
  cbn [record set_trace ext]. rewrite Hx, in_termux.
  unfold bind at 1, print at 1, emit. cbn [ret negb].
  match goal with
  | |- ?m ?w0 = _ -> _ =>
      enough (H : establishes reset m) by (intros Hrun; exact (H w0 tt w' Hrun))
  end.
  apply establishes_bind_l.
  - change (Termux.steps dir demo notes)
      with ([("Package Update", Termux.update_packages);
             ("Dependencies Installation", Termux.install_dependencies);
             ("Python Packages", Termux.install_python_packages);
             ("Playwright Setup", Termux.setup_playwright);
             ("Display Setup", Termux.setup_display dir)]
            ++ ("Environment Configuration", Termux.create_env_file dir)
            :: [("Demo Script Creation", Termux.create_termux_demo dir demo);
                ("Instructions Creation", Termux.create_setup_instructions dir notes)]).
    apply run_steps_establishes.
    + exact reset_timeless.
    + exact create_env_file_resets.
    + exact termux_later_steps_keep.
    + intros n. apply preserves_print, reset_timeless.
  - intros failed.
    apply preserves_bind; [apply preserves_print, reset_timeless|intros _].
    apply preserves_bind; [destruct failed; keep; exact reset_timeless|intros _].
    keep; exact reset_timeless.
Qed.

End TermuxFile.

Lemma run_complete_setup_resets_credentials_witness :
  files saved_key_offline !! Termux.env_file "/home/user"
    = Some ("GEMINI_API_KEY=AIza-live" +:+ nl) /\
  exists w',
    Termux.run_complete_setup "/home/user" "demo" "notes" saved_key_offline
      = (Returned tt, w') /\
    files w' !! Termux.env_file "/home/user" = Some Termux.env_content.
Proof.
  split; [reflexivity|].
  apply (run_complete_setup_resets_credentials offline commands_start_offline
           eq_refl "/home/user" "demo" "notes" saved_key_offline).
  reflexivity.
Defined.


(** * What the steps return and print *)

Section Yielding.

Lemma yields_ret {A} (Q : A -> Prop) (a : A) : Q a -> yields Q (ret a).
Proof. intros HQ w a' w' [= <- <-]. exact HQ. Qed.

Lemma yields_bind_with {A B} (Qa : A -> Prop) (Q : B -> Prop) (m : M A) (k : A -> M B) :
  yields Qa m -> (forall a, Qa a -> yields Q (k a)) -> yields Q (bind m k).
Proof.
  intros Hm Hk w b w' Hrun.
  apply bind_returned in Hrun as (a & w1 & Hm1 & Hk1).
  exact (Hk a (Hm w a w1 Hm1) w1 b w' Hk1).
Qed.

Lemma yields_bind {A B} (Q : B -> Prop) (m : M A) (k : A -> M B) :
  (forall a, yields Q (k a)) -> yields Q (bind m k).
Proof.
  intros Hk. apply (yields_bind_with (fun _ => True)); [intros w a w' _; exact I|auto].
Qed.

Lemma yields_try {A} (Q : A -> Prop) (body : M A) catches handler :
  yields Q body -> (forall e, yields Q (handler e)) ->
  yields Q (try_except body catches handler).
Proof.
  intros Hb Hh w a w'. unfold try_except.
  destruct (body w) as [[a0|e] w1] eqn:Eb.
  - intros [= <- <-]. exact (Hb w a0 w1 Eb).
  - destruct (catches e); [apply Hh|discriminate].
Qed.

End Yielding.

Ltac yielding :=
  repeat first
    [ apply yields_bind; intros ?
    | apply yields_try; [|intros ?]
    | apply yields_ret; reflexivity ].

Section Emitting.

Variable P : event -> Prop.

Lemma emits_ret {A} (a : A) : emits P (ret a).
Proof. intros w r w' [= <- <-]. exists []. split; [reflexivity|constructor]. Qed.

Lemma emits_raise {A} e : emits P (@raise A e).
Proof. intros w r w' [= <- <-]. exists []. split; [reflexivity|constructor]. Qed.

Lemma emits_emit ev : P ev -> emits P (emit ev).
Proof.
  intros HP w r w' [= <- <-]. exists [ev]. split; [reflexivity|].
  constructor; [exact HP|constructor].
Qed.

Lemma emits_print s : P (EvPrint s) -> emits P (print s).
Proof. apply emits_emit. Qed.

Lemma emits_bind_with {A B} (Qa : A -> Prop) (m : M A) (k : A -> M B) :
  emits P m -> yields Qa m -> (forall a, Qa a -> emits P (k a)) ->
  emits P (bind m k).
Proof.
  intros Hm Hq Hk w r w'. unfold bind.
  destruct (m w) as [[a|e] w1] eqn:Em.
  - intros Hrun. destruct (Hm w _ _ Em) as (evs1 & Ht1 & HP1).
    destruct (Hk a (Hq w a w1 Em) w1 r w' Hrun) as (evs2 & Ht2 & HP2).
    exists (evs2 ++ evs1). rewrite Ht2, Ht1, app_assoc. split; [reflexivity|].
    apply Forall_app. split; assumption.
  - intros [= <- <-]. exact (Hm w _ _ Em).
Qed.

Lemma emits_bind {A B} (m : M A) (k : A -> M B) :
  emits P m -> (forall a, emits P (k a)) -> emits P (bind m k).
Proof.
  intros Hm Hk.
  apply (emits_bind_with (fun _ => True)); [exact Hm|intros w a w' _; exact I|auto].
Qed.

Lemma emits_try {A} (body : M A) catches handler :
  emits P body -> (forall e, emits P (handler e)) ->
  emits P (try_except body catches handler).
Proof.
  intros Hb Hh w r w'. unfold try_except.
  destruct (body w) as [[a|e] w1] eqn:Eb.
  - intros [= <- <-]. exact (Hb w _ _ Eb).
  - destruct (catches e).
    + intros Hrun. destruct (Hb w _ _ Eb) as (evs1 & Ht1 & HP1).
      destruct (Hh e w1 r w' Hrun) as (evs2 & Ht2 & HP2).
      exists (evs2 ++ evs1). rewrite Ht2, Ht1, app_assoc. split; [reflexivity|].
      apply Forall_app. split; assumption.
    + intros [= <- <-]. exact (Hb w _ _ Eb).
Qed.

Lemma emits_external r ev : P ev -> emits P (external r ev).
Proof.
  intros HP w r' w'. unfold external.
  destruct r; intros [= <- <-]; exists [ev];
    (split; [reflexivity|constructor; [exact HP|constructor]]).
Qed.

Lemma emits_subprocess argv sh :
  (forall r, P (EvSubprocess argv sh r)) -> emits P (subprocess_run argv sh).
Proof. intros HP w r w'. unfold subprocess_run. apply emits_external, HP. Qed.

Lemma emits_import_module m :
  (forall r, P (EvImport m None r)) -> emits P (import_module m).
Proof. intros HP w r w'. unfold import_module. apply emits_external, HP. Qed.

Lemma emits_import_from m n :
  (forall r, P (EvImport m (Some n) r)) -> emits P (import_from m n).
Proof. intros HP w r w'. unfold import_from. apply emits_external, HP. Qed.

Lemma emits_write_text path content :
  P (EvWrite path content) -> emits P (write_text path content).
Proof.
  intros HP w r w' [= <- <-]. exists [EvWrite path content].
  split; [reflexivity|constructor; [exact HP|constructor]].
Qed.

Lemma emits_load_dotenv override :
  P (EvLoadDotenv override) -> emits P (load_dotenv override).
Proof.
  intros HP w r w' [= <- <-]. exists [EvLoadDotenv override].
  split; [reflexivity|constructor; [exact HP|constructor]].
Qed.

Lemma emits_getenv key : emits P (getenv key).
Proof. intros w r w' [= <- <-]. exists []. split; [reflexivity|constructor]. Qed.

Lemma emits_get_sys_executable : emits P get_sys_executable.
Proof. intros w r w' [= <- <-]. exists []. split; [reflexivity|constructor]. Qed.

Lemma emits_get_platform_system : emits P get_platform_system.
Proof. intros w r w' [= <- <-]. exists []. split; [reflexivity|constructor]. Qed.

Lemma emits_path_exists path : emits P (path_exists path).
Proof. intros w r w' [= <- <-]. exists []. split; [reflexivity|constructor]. Qed.

Lemma emits_first_word s : emits P (first_word s).
Proof.
  unfold first_word. destruct (take_word _); auto using @emits_ret, @emits_raise.
Qed.

Lemma emits_if {A} (b : bool) (m1 m2 : M A) :
  emits P m1 -> emits P m2 -> emits P (if b then m1 else m2).
Proof. destruct b; auto. Qed.

Lemma emits_weaken (P0 : event -> Prop) {A} (m : M A) :
  (forall ev, P0 ev -> P ev) -> emits P0 m -> emits P m.
Proof.
  intros Himp Hm w r w' Hrun. destruct (Hm w r w' Hrun) as (evs & Ht & HP).
  exists evs. split; [exact Ht|]. eapply Forall_impl; eauto.
Qed.

End Emitting.

Ltac emitting :=
  repeat first
    [ apply emits_bind; [|intros ?]
    | apply emits_try; [|intros ?]
    | apply emits_ret
    | apply emits_raise
    | apply emits_print; first [exact I | reflexivity]
    | apply emits_emit; first [exact I | reflexivity]
    | apply emits_subprocess; intros ?; first [exact I | reflexivity]
    | apply emits_import_module; intros ?; first [exact I | reflexivity]
    | apply emits_import_from; intros ?; first [exact I | reflexivity]
    | apply emits_write_text; first [exact I | reflexivity]
    | apply emits_getenv
    | apply emits_get_sys_executable
    | apply emits_get_platform_system
    | apply emits_path_exists
    | apply emits_first_word
    | apply emits_if ].

(** * The failure report of the Termux driver *)

Section TermuxReport.

Variables dir demo notes : string.

(** The two steps of the Termux driver that can return False. *)
Let may_fail (name : string) : Prop :=
  name = "Package Update" \/ name = "Python Packages".

Let report_ok (ev : event) : Prop :=
  match ev with
  | EvPrint s => forall name, s = "   - " +:+ name -> may_fail name
  | _ => True
  end.

Lemma no_report_line_ok ev : no_report_line ev -> report_ok ev.
Proof.
  destruct ev; cbn; try tauto.
  intros H name ->. rewrite prefix_append in H. discriminate.
Qed.

(** Six of the eight steps return True whenever they return. *)
Lemma termux_steps_yield :
  Forall (fun s => may_fail (fst s) \/ yields (eq true) (snd s))
    (Termux.steps dir demo notes).
Proof.
  unfold Termux.steps. repeat (apply List.Forall_cons; cbn [fst snd]); [..|apply List.Forall_nil].
  - left. unfold may_fail. left. reflexivity.
  - right. unfold Termux.install_dependencies. yielding.
  - left. unfold may_fail. right. reflexivity.
  - right. unfold Termux.setup_playwright. yielding.
  - right. unfold Termux.setup_display. yielding.
  - right. unfold Termux.create_env_file. yielding.
  - right. unfold Termux.create_termux_demo. yielding.
  - right. unfold Termux.create_setup_instructions. yielding.
Qed.

Lemma run_steps_failed_names (Q : string -> Prop) before steps :
  Forall (fun s => Q (fst s) \/ yields (eq true) (snd s)) steps ->
  forall failed, Forall Q failed ->
    yields (Forall Q) (run_steps before steps failed).
Proof.
  induction 1 as [|[name step] rest Hstep _ IH]; intros failed Hfailed;
    cbn [run_steps].
  - apply yields_ret, Hfailed.
  - cbn [fst snd] in Hstep. do 2 (apply yields_bind; intros _).
    destruct Hstep as [Hname|Htrue].
    + apply yields_bind; intros ok. apply yields_bind; intros _. apply IH.
      destruct ok; [exact Hfailed|].
      apply Forall_app. split; [exact Hfailed|]. constructor; [exact Hname|constructor].
    + apply (yields_bind_with (eq true)); [exact Htrue|intros ok <-].
      apply yields_bind; intros _. apply IH, Hfailed.
Qed.

Lemma install_packages_emits packages :
  emits no_report_line (Termux.install_packages packages).
Proof.
  induction packages as [|package rest IH]; cbn [Termux.install_packages].
  - apply emits_ret.
  - apply emits_bind; [emitting|intros _; exact IH].
Qed.

Lemma pip_install_each_emits exe packages :
  emits no_report_line (Termux.pip_install_each exe packages).
Proof.
  induction packages as [|package rest IH]; cbn [Termux.pip_install_each].
  - apply emits_ret.
  - do 2 (apply emits_bind; [emitting|intros _]). exact IH.
Qed.

Lemma termux_steps_emit :
  Forall (fun s => emits no_report_line (snd s)) (Termux.steps dir demo notes).
Proof.
  unfold Termux.steps. repeat (apply List.Forall_cons; cbn [snd]); [..|apply List.Forall_nil].
  - unfold Termux.update_packages. emitting.
  - unfold Termux.install_dependencies.
    apply emits_bind; [emitting|intros _].
    apply emits_bind; [apply install_packages_emits|intros _]. emitting.
  - unfold Termux.install_python_packages.
    apply emits_bind; [emitting|intros _].
    apply emits_try; [|intros e; emitting].
    apply emits_bind; [emitting|intros exe].
    apply emits_bind; [emitting|intros _].
    apply emits_bind; [apply pip_install_each_emits|intros _]. emitting.
  - unfold Termux.setup_playwright. emitting.
  - unfold Termux.setup_display. emitting.
  - unfold Termux.create_env_file. emitting.
  - unfold Termux.create_termux_demo. emitting.
  - unfold Termux.create_setup_instructions. emitting.
Qed.

Lemma run_steps_emits (P : event -> Prop) before steps :
  (forall name, emits P (before name)) ->
  (forall name, P (EvStep name)) -> (forall name ok, P (EvStepDone name ok)) ->
  Forall (fun s => emits P (snd s)) steps ->
  forall failed, emits P (run_steps before steps failed).
Proof.
  intros Hb H1 H2. induction 1 as [|[name step] rest Hstep _ IH]; intros failed;
    cbn [run_steps].
  - apply emits_ret.
  - apply emits_bind; [apply Hb|intros _].
    apply emits_bind; [apply emits_emit, H1|intros _].
    apply emits_bind; [exact Hstep|intros ok].
    apply emits_bind; [apply emits_emit, H2|intros _]. apply IH.
Qed.

Lemma print_failed_emits failed :
  Forall may_fail failed -> emits report_ok (print_failed failed).
Proof.
  induction 1 as [|step rest Hstep _ IH]; cbn [print_failed].
  - apply emits_ret.
  - apply emits_bind; [|intros _; exact IH].
    apply emits_print. intros name Hname.
    apply append_inj_l in Hname. subst. exact Hstep.
Qed.

Lemma check_termux_environment_emits :
  emits no_report_line Termux.check_termux_environment.
Proof.
  unfold Termux.check_termux_environment.
  apply emits_bind; [emitting|intros _].
  intros w r w'. destruct (termux_prefix_exists (ext w)).
  all: match goal with
       | |- ?m ?w0 = (?r0, ?w1) -> _ =>
           enough (H : emits no_report_line m) by exact (H w0 r0 w1)
       end.
  all: emitting.
Qed.

(** X12: the report at the end of the Termux setup can only name the steps
    "Package Update" and "Python Packages": the other six steps return True
    whenever they return, also when the command they ran has failed. *)
Theorem run_complete_setup_reports_two_steps (w : World) r w' :
  Termux.run_complete_setup dir demo notes w = (r, w') ->
  exists evs, trace w' = evs ++ trace w /\
    forall name, In (EvPrint ("   - " +:+ name)) evs ->
      name = "Package Update" \/ name = "Python Packages".
Proof.
  enough (H : emits report_ok (Termux.run_complete_setup dir demo notes)).
  { intros Hrun. destruct (H w r w' Hrun) as (evs & Ht & HP).
    exists evs. split; [exact Ht|]. intros name Hin.
    rewrite Forall_forall in HP.
    apply (HP (EvPrint ("   - " +:+ name))); [apply list_elem_of_In, Hin|reflexivity]. }
  assert (Hquiet : forall A (m : M A), emits no_report_line m -> emits report_ok m).
  { intros A m. apply emits_weaken, no_report_line_ok. }
  unfold Termux.run_complete_setup.
  apply emits_bind; [apply Hquiet; emitting|intros _].
  apply emits_bind; [apply Hquiet; emitting|intros _].
  apply emits_bind; [apply Hquiet, check_termux_environment_emits|intros ok].
  destruct (negb ok); [apply emits_ret|].
  apply (emits_bind_with report_ok (Forall may_fail)).
  - apply Hquiet, run_steps_emits;
      [intros name; emitting|intros; exact I|intros; exact I|apply termux_steps_emit].
  - apply run_steps_failed_names; [apply termux_steps_yield|constructor].
  - intros failed Hfailed.
    apply emits_bind; [apply Hquiet; emitting|intros _].
    apply emits_bind; [|intros _; apply Hquiet; emitting].
    destruct failed as [|f fs]; [apply Hquiet; emitting|].
    apply emits_bind; [apply Hquiet; emitting|intros _].
    apply print_failed_emits, Hfailed.
Qed.

End TermuxReport.

Lemma run_complete_setup_reports_two_steps_witness :
  let run := Termux.run_complete_setup "/home/user" "demo" "notes" (start ∅ ∅ offline) in
  exists evs, trace (snd run) = evs ++ [] /\
    In (EvPrint "   - Package Update") evs /\
    In (EvPrint "   - Python Packages") evs /\
    forall name, In (EvPrint ("   - " +:+ name)) evs ->
      name = "Package Update" \/ name = "Python Packages".
Proof.
  destruct (run_complete_setup_reports_two_steps "/home/user" "demo" "notes"
              (start ∅ ∅ offline)
              (fst (Termux.run_complete_setup "/home/user" "demo" "notes" (start ∅ ∅ offline)))
              (snd (Termux.run_complete_setup "/home/user" "demo" "notes" (start ∅ ∅ offline))))
    as (evs & Ht & Hnames); [vm_compute; reflexivity|].
  exists evs. split; [exact Ht|].
  rewrite app_nil_r in Ht. subst evs.
  split; [vm_compute; tauto|]. split; [vm_compute; tauto|]. exact Hnames.
Defined.


(** * The package loops of the Termux installer *)

Lemma lookup_map {A B} (f : A -> B) (l : list A) (n : nat) :
  List.map f l !! n = f <$> l !! n.
Proof.
  revert n. induction l as [|a l IH]; intros [|n]; cbn; auto.
Qed.

Section PackageLoops.

Variable x : External.
Hypothesis commands : commands_start x.

Lemma install_packages_attempts packages (w : World) :
  ext w = x ->
  exists w' evs,
    Termux.install_packages packages w = (Returned tt, w') /\
    trace w' = evs ++ trace w /\ ext w' = x /\
    List.map fst (rev (commands_run evs))
      = List.map (fun package => ["pkg"; "install"; package; "-y"]) packages.
Proof.
  revert w. induction packages as [|package rest IH]; intros w Hx.
  - exists w, []. repeat split. exact Hx.
  - cbn [Termux.install_packages].
    unfold bind at 1, try_except, bind at 1, print at 1, emit, subprocess_run, external.
    cbn [record set_trace trace ext].
    destruct (ext_subprocess (ext w) _ _ _) as [e|] eqn:E.
    + rewrite Hx in E. rewrite (commands _ _ _ _ E).
      unfold print, emit.
      match goal with |- context [Termux.install_packages rest ?w0] =>
        destruct (IH w0 Hx) as (w' & evs & Hrun & Ht & Hx' & Hc)
      end.
      exists w'; eexists (evs ++ [_;_;_]). rewrite Hrun. split; [reflexivity|].
      split; [rewrite Ht, <- app_assoc; reflexivity|]. split; [exact Hx'|].
      rewrite commands_run_app, rev_app_distr, map_app, Hc. reflexivity.
    + match goal with |- context [Termux.install_packages rest ?w0] =>
        destruct (IH w0 Hx) as (w' & evs & Hrun & Ht & Hx' & Hc)
      end.
      exists w'; eexists (evs ++ [_;_]). rewrite Hrun. split; [reflexivity|].
      split; [rewrite Ht, <- app_assoc; reflexivity|]. split; [exact Hx'|].
      rewrite commands_run_app, rev_app_distr, map_app, Hc. reflexivity.
Qed.

(** X13: [install_dependencies] gives every package of its list its own
    attempt, in order, whatever the earlier attempts did, and returns True
    whether or not anything could be installed. *)
Theorem install_dependencies_attempts_all (w : World) :
  ext w = x ->
  exists w' evs,
    Termux.install_dependencies w = (Returned true, w') /\
    trace w' = evs ++ trace w /\
    List.map fst (rev (commands_run evs)) = pkg_commands.
Proof.
  intros Hx. unfold Termux.install_dependencies.
  unfold bind at 1, print at 1, emit. unfold bind at 1.
  match goal with |- context [Termux.install_packages ?l ?w0] =>
    destruct (install_packages_attempts l w0 Hx) as (w' & evs & Hrun & Ht & Hx' & Hc)
  end.
  rewrite Hrun. eexists _, ([_] ++ evs ++ [_]). split; [reflexivity|].
  split; [cbn; rewrite Ht, <- app_assoc; reflexivity|].
  rewrite !commands_run_app, app_nil_r. exact Hc.
Qed.

Lemma pip_install_each_stops exe packages (w : World) :
  ext w = x ->
  exists r w' evs,
    Termux.pip_install_each exe packages w = (r, w') /\
    trace w' = evs ++ trace w /\ ext w' = x /\
    match r with
    | Returned _ =>
        rev (commands_run evs)
        = List.map (fun package => succeeded [exe; "-m"; "pip"; "install"; package])
            packages
    | Raised e =>
        isinstance_CalledProcessError e = true /\
        exists n package,
          packages !! n = Some package /\
          rev (commands_run evs)
          = List.map (fun package => succeeded [exe; "-m"; "pip"; "install"; package])
              (take n packages)
            ++ [([exe; "-m"; "pip"; "install"; package], Some e)]
    end.
Proof.
  revert w. induction packages as [|package rest IH]; intros w Hx.
  - exists (Returned tt), w, []. repeat split. exact Hx.
  - cbn [Termux.pip_install_each].
    unfold bind at 1, print at 1, emit. unfold bind at 1, subprocess_run, external.
    cbn [record set_trace trace ext].
    destruct (ext_subprocess (ext w) _ _ _) as [e|] eqn:E.
    + eexists (Raised e), _, [_;_]. split; [reflexivity|]. split; [reflexivity|].
      split; [exact Hx|]. rewrite Hx in E. split; [exact (commands _ _ _ _ E)|].
      exists 0, package. split; reflexivity.
    + match goal with |- context [Termux.pip_install_each exe rest ?w0] =>
        destruct (IH w0 Hx) as (r & w' & evs & Hrun & Ht & Hx' & Hc)
      end.
      exists r, w'; eexists (evs ++ [_;_]). rewrite Hrun. split; [reflexivity|].
      split; [rewrite Ht, <- app_assoc; reflexivity|]. split; [exact Hx'|].
      rewrite commands_run_app, rev_app_distr. cbn [commands_run rev app].
      destruct r as [[]|e].
      * rewrite Hc. reflexivity.
      * destruct Hc as (He & n & p & Hp & Hc). split; [exact He|].
        exists (S n), p. split; [exact Hp|]. rewrite Hc. reflexivity.
Qed.

(** X14: [install_python_packages] stops at the first command that fails: the
    commands it has run are the first ones of its list, all but the last
    of them successful, and it returns True exactly when all six commands
    were run and succeeded. *)
Theorem install_python_packages_stops_at_failure (w : World) :
  ext w = x ->
  exists ok w' evs,
    Termux.install_python_packages w = (Returned ok, w') /\
    trace w' = evs ++ trace w /\
    if ok then
      rev (commands_run evs) = List.map succeeded (pip_commands (sys_executable x))
    else
      exists n argv e,
        pip_commands (sys_executable x) !! n = Some argv /\
        rev (commands_run evs)
        = List.map succeeded (take n (pip_commands (sys_executable x)))
          ++ [(argv, Some e)] /\
        head evs = Some (EvPrint ("❌ Failed to install Python packages: " +:+ exn_str e)).
Proof.
  intros Hx. unfold Termux.install_python_packages.
  unfold bind at 1, print at 1, emit. unfold try_except.
  unfold bind at 1, get_sys_executable. cbn [record set_trace trace ext]. rewrite Hx.
  unfold bind at 1, subprocess_run, external. cbn [record set_trace trace ext].
  rewrite Hx.
  destruct (ext_subprocess x _ _ _) as [e|] eqn:E.
  - rewrite (commands _ _ _ _ E). cbn.
    eexists false, _, [_;_;_]. split; [reflexivity|]. split; [reflexivity|].
    exists 0. eexists _, e. split; [reflexivity|]. split; reflexivity.
  - unfold bind at 1.
    match goal with |- context [Termux.pip_install_each ?exe ?l ?w0] =>
      destruct (pip_install_each_stops exe l w0 Hx) as (r & w' & evs & Hrun & Ht & Hx' & Hc)
    end.
    rewrite Hrun. destruct r as [[]|e].
    + cbn. eexists true, _, ([_] ++ evs ++ [_;_]). split; [reflexivity|].
      split; [cbn; rewrite Ht, <- app_assoc; reflexivity|].
      rewrite !commands_run_app, !rev_app_distr. cbn [commands_run rev app].
      rewrite app_nil_r, Hc. reflexivity.
    + destruct Hc as (He & n & p & Hp & Hc). rewrite He. cbn.
      eexists false, _, ([_] ++ evs ++ [_;_]). split; [reflexivity|].
      split; [cbn; rewrite Ht, <- app_assoc; reflexivity|].
      exists (S n). eexists _, e. split; [|split; [|reflexivity]].
      * unfold pip_commands. rewrite lookup_cons. rewrite lookup_map, Hp. reflexivity.
      * rewrite !commands_run_app, !rev_app_distr. cbn [commands_run rev app].
        rewrite app_nil_r, Hc. unfold pip_commands.
        rewrite firstn_cons, firstn_map, List.map_cons, List.map_map. reflexivity.
Qed.

End PackageLoops.

Lemma install_dependencies_attempts_all_witness :
  commands_start offline /\
  exists w' evs,
    Termux.install_dependencies (start ∅ ∅ offline) = (Returned true, w') /\
    trace w' = evs ++ trace (start ∅ ∅ offline) /\
    List.map fst (rev (commands_run evs)) = pkg_commands.
Proof.
  split; [exact commands_start_offline|].
  apply (install_dependencies_attempts_all offline commands_start_offline
           (start ∅ ∅ offline)).
  reflexivity.
Defined.

(** Without network all seven installs fail, one after the other. *)
Example install_dependencies_offline :
  let run := Termux.install_dependencies (start ∅ ∅ offline) in
  fst run = Returned true /\
  List.map fst (commands_run (history (snd run))) = pkg_commands /\
  List.filter (fun c => bool_decide (snd c = None)) (commands_run (history (snd run))) = [].
Proof. vm_compute. repeat split; reflexivity. Qed.

Lemma commands_start_no_dotenv_package : commands_start no_dotenv_package.
Proof.
  intros h argv sh e. cbn.
  destruct (among "python-dotenv" argv); [|discriminate].
  intros [= <-]. reflexivity.
Qed.

Lemma install_python_packages_stops_at_failure_witness :
  commands_start no_dotenv_package /\
  exists ok w' evs,
    Termux.install_python_packages (start ∅ ∅ no_dotenv_package) = (Returned ok, w') /\
    trace w' = evs ++ trace (start ∅ ∅ no_dotenv_package) /\
    if ok then
      rev (commands_run evs)
      = List.map succeeded (pip_commands (sys_executable no_dotenv_package))
    else
      exists n argv e,
        pip_commands (sys_executable no_dotenv_package) !! n = Some argv /\
        rev (commands_run evs)
        = List.map succeeded (take n (pip_commands (sys_executable no_dotenv_package)))
          ++ [(argv, Some e)] /\
        head evs = Some (EvPrint ("❌ Failed to install Python packages: " +:+ exn_str e)).
Proof.
  split; [exact commands_start_no_dotenv_package|].
  apply (install_python_packages_stops_at_failure no_dotenv_package
           commands_start_no_dotenv_package (start ∅ ∅ no_dotenv_package)).
  reflexivity.
Defined.

(** When python-dotenv cannot be installed, the three packages after it
    are never tried. *)
Example install_python_packages_without_dotenv :
  let run := Termux.install_python_packages (start ∅ ∅ no_dotenv_package) in
  let pip package := ["/usr/bin/python3"; "-m"; "pip"; "install"; package] in
  fst run = Returned false /\
  List.map fst (commands_run (history (snd run)))
    = [["/usr/bin/python3"; "-m"; "pip"; "install"; "--upgrade"; "pip"];
       pip "browser-use"; pip "python-dotenv"].
Proof. vm_compute. repeat split; reflexivity. Qed.


(** * The launcher's menu *)

(** ** Running interactive code step by step *)

Lemma io_bind_ret {A B} (a : A) (k : A -> IO B) c w :
  io_bind (io_ret a) k c w = k a c w.
Proof. reflexivity. Qed.

Lemma io_bind_lift {A B} (m : M A) (k : A -> IO B) c w :
  io_bind (lift m) k c w
  = match m w with
    | (Returned a, w') => k a c w'
    | (Raised e, w') => Some (Raised e, c, w')
    end.
Proof. unfold io_bind, lift. destruct (m w) as [[a|e] w']; reflexivity. Qed.

Lemma io_bind_print {B} s (k : unit -> IO B) c w :
  io_bind (lift (print s)) k c w = k tt c (record (EvPrint s) w).
Proof. reflexivity. Qed.

Lemma io_bind_getenv {B} key (k : option string -> IO B) c w :
  io_bind (lift (getenv key)) k c w = k (environ w !! key) c w.
Proof. reflexivity. Qed.

Lemma io_bind_path_exists {B} path (k : bool -> IO B) c w :
  io_bind (lift (path_exists path)) k c w
  = k (bool_decide (is_Some (files w !! path))) c w.
Proof. reflexivity. Qed.

Lemma io_bind_write_text {B} path content (k : unit -> IO B) c w :
  io_bind (lift (write_text path content)) k c w
  = k tt c (record (EvWrite path content) (set_files (<[path := content]> (files w)) w)).
Proof. reflexivity. Qed.

Lemma io_bind_input {B} prompt (k : string -> IO B) c w :
  io_bind (input prompt) k c w
  = let shown := (length (trace w), prompt) :: prompts c in
    match stdin c with
    | line :: rest => k line {| stdin := rest; prompts := shown |} w
    | [] => Some (Raised eof_error, {| stdin := []; prompts := shown |}, w)
    end.
Proof. unfold io_bind, input. destruct (stdin c); reflexivity. Qed.

Lemma io_bind_assoc {A B C} (m : IO A) (k1 : A -> IO B) (k2 : B -> IO C) c w :
  io_bind (io_bind m k1) k2 c w = io_bind m (fun a => io_bind (k1 a) k2) c w.
Proof. unfold io_bind. destruct (m c w) as [[[[a|e] c1] w1]|]; reflexivity. Qed.

Section ApiKeys.

Variable env_file : string.

(** X15: with a key of any provider in the environment [setup_api_keys] asks
    nothing: it reads no line, returns True and reports the configured
    variables in the order Gemini, OpenAI, Anthropic, Groq.  The only
    change to the files is the template, written where no credentials file
    existed. *)
Theorem setup_api_keys_finds_keys (c : Console) (w : World) (p : provider) :
  configured (environ w) p = true ->
  exists w',
    Menu.setup_api_keys env_file c w = Some (Returned true, c, w') /\
    environ w' = environ w /\
    files w' = with_template env_file (files w) /\
    head (trace w')
    = Some (EvPrint ("✅ Found API keys: " +:+
              repr_list (List.map env_var
                           (List.filter (configured (environ w)) report_order)))).
Proof.
  intros Hp. unfold Menu.setup_api_keys, with_template, report_order.
  rewrite io_bind_print, io_bind_path_exists. cbn [files record set_trace].
  unfold configured in *. cbn [List.filter List.map env_var] in *.
  destruct (files w !! env_file) as [text|] eqn:Hfile.
  - rewrite bool_decide_eq_true_2 by eauto. rewrite io_bind_ret.
    rewrite !io_bind_getenv. cbn [environ record set_trace snd].
    destruct (truthy (environ w !! "GEMINI_API_KEY")) eqn:E1,
      (truthy (environ w !! "OPENAI_API_KEY")) eqn:E2,
      (truthy (environ w !! "ANTHROPIC_API_KEY")) eqn:E3,
      (truthy (environ w !! "GROQ_API_KEY")) eqn:E4;
      try (destruct p; cbn in Hp; congruence).
    all: rewrite io_bind_print; eexists; split; [reflexivity|]; repeat split.
  - rewrite bool_decide_eq_false_2 by (intros [? ?]; discriminate).
    rewrite io_bind_write_text.
    rewrite !io_bind_getenv. cbn [environ record set_trace set_files snd].
    destruct (truthy (environ w !! "GEMINI_API_KEY")) eqn:E1,
      (truthy (environ w !! "OPENAI_API_KEY")) eqn:E2,
      (truthy (environ w !! "ANTHROPIC_API_KEY")) eqn:E3,
      (truthy (environ w !! "GROQ_API_KEY")) eqn:E4;
      try (destruct p; cbn in Hp; congruence).
    all: rewrite io_bind_print; eexists; split; [reflexivity|]; repeat split.
Qed.

Lemma no_provider_truthy (env : gmap string string) :
  (forall q, configured env q = false) ->
  truthy (env !! "GEMINI_API_KEY") = false /\
  truthy (env !! "OPENAI_API_KEY") = false /\
  truthy (env !! "ANTHROPIC_API_KEY") = false /\
  truthy (env !! "GROQ_API_KEY") = false.
Proof.
  intros H. repeat split;
    [apply (H Gemini)|apply (H OpenAI)|apply (H Anthropic)|apply (H Groq)].
Qed.

Lemma key_name_of_word (p : provider) :
  upper (provider_word p) +:+ "_API_KEY" = env_var p /\
  among (provider_word p) ["gemini"; "openai"; "anthropic"; "groq"] = true.
Proof. destruct p; split; reflexivity. Qed.

(** The template with one key filled in is what [update_lines] makes of the
    template: the provider's line is replaced where it stands. *)
Lemma update_template (p : provider) (key : string) :
  writelines (Launcher.update_lines (env_var p) key (readlines Launcher.env_content))
  = env_template (only_key p key).
Proof. destruct p; reflexivity. Qed.

(** X16: with no key in the environment, the answers y, a provider's name
    (both in any letter case) and a key that is not blank make
    [setup_api_keys] return True having read exactly these three lines.
    The key, stripped of surrounding blanks, is saved under the provider's
    variable as [update_env_file] saves it; in a directory without
    credentials file the file becomes the template with this one key filled
    in.  The process environment is left as it was: the key is saved, not
    loaded. *)
Theorem setup_api_keys_saves_key (c : Console) (w : World) (p : provider)
    (answer name key : string) (rest : list string) :
  (forall q, configured (environ w) q = false) ->
  stdin c = answer :: name :: key :: rest ->
  lower answer = "y" -> lower name = provider_word p -> str_strip key <> "" ->
  exists c' w' old,
    Menu.setup_api_keys env_file c w = Some (Returned true, c', w') /\
    stdin c' = rest /\
    environ w' = environ w /\
    with_template env_file (files w) !! env_file = Some old /\
    files w'
    = <[env_file := writelines (Launcher.update_lines (env_var p) (str_strip key)
                                  (readlines old))]> (files w) /\
    (files w !! env_file = None ->
     files w' !! env_file = Some (env_template (only_key p (str_strip key)))).
Proof.
  intros Hnone Hstdin Hans Hname Hkey.
  destruct (no_provider_truthy _ Hnone) as (E1 & E2 & E3 & E4).
  destruct (key_name_of_word p) as (Hvar & Hamong).
  apply String.eqb_neq in Hkey.
  unfold Menu.setup_api_keys, with_template.
  rewrite io_bind_print, io_bind_path_exists. cbn [files record set_trace].
  destruct (files w !! env_file) as [text|] eqn:Hfile.
  - rewrite bool_decide_eq_true_2 by eauto. rewrite io_bind_ret.
    rewrite !io_bind_getenv. cbn [environ record set_trace snd List.filter].
    rewrite E1, E2, E3, E4. rewrite !io_bind_print, io_bind_input. cbn zeta.
    rewrite Hstdin, Hans. cbn [String.eqb Ascii.eqb Bool.eqb].
    rewrite io_bind_input. cbn [stdin]. cbn zeta.
    rewrite Hname, Hamong, io_bind_input. cbn [stdin]. cbn zeta.
    rewrite Hkey. cbn [negb]. rewrite Hvar, io_bind_lift.
    unfold Launcher.update_env_file. cbn [files record set_trace].
    rewrite Hfile. unfold write_text. rewrite io_bind_print.
    eexists _, _, text. split; [reflexivity|]. repeat split.
    intros; discriminate.
  - rewrite bool_decide_eq_false_2 by (intros [? ?]; discriminate).
    rewrite io_bind_write_text.
    rewrite !io_bind_getenv. cbn [environ record set_trace set_files snd List.filter].
    rewrite E1, E2, E3, E4. rewrite !io_bind_print, io_bind_input. cbn zeta.
    rewrite Hstdin, Hans. cbn [String.eqb Ascii.eqb Bool.eqb].
    rewrite io_bind_input. cbn [stdin]. cbn zeta.
    rewrite Hname, Hamong, io_bind_input. cbn [stdin]. cbn zeta.
    rewrite Hkey. cbn [negb]. rewrite Hvar, io_bind_lift.
    unfold Launcher.update_env_file. cbn [files record set_trace set_files].
    rewrite lookup_insert_eq. unfold write_text. rewrite io_bind_print.
    eexists _, _, Launcher.env_content. split; [reflexivity|].
    split; [reflexivity|]. split; [reflexivity|].
    split; [reflexivity|].
    cbn [files record set_trace set_files].
    split; [apply insert_insert_eq|].
    intros _. rewrite lookup_insert_eq, update_template. reflexivity.
Qed.


End ApiKeys.

Section Tests.

Variable env_file : string.





End Tests.


(** ** What a session emits *)

Section IoEmitting.

Variable P : event -> Prop.

Lemma io_emits_ret {A} (a : A) : io_emits P (io_ret a).
Proof. intros c w r c' w' [= <- <- <-]. exists []. split; [reflexivity|constructor]. Qed.

Lemma io_emits_out_of_fuel {A} : io_emits P (@out_of_fuel A).
Proof. intros c w r c' w'. discriminate. Qed.

Lemma io_emits_lift {A} (m : M A) : emits P m -> io_emits P (lift m).
Proof.
  intros Hm c w r c' w'. unfold lift.
  destruct (m w) as [r0 w0] eqn:Em. intros [= <- <- <-]. exact (Hm w _ _ Em).
Qed.

Lemma io_emits_input prompt : io_emits P (input prompt).
Proof.
  intros c w r c' w'. unfold input.
  destruct (stdin c); intros [= <- <- <-]; exists []; (split; [reflexivity|constructor]).
Qed.

Lemma io_emits_bind {A B} (m : IO A) (k : A -> IO B) :
  io_emits P m -> (forall a, io_emits P (k a)) -> io_emits P (io_bind m k).
Proof.
  intros Hm Hk c w r c' w'. unfold io_bind.
  destruct (m c w) as [[[[a|e] c1] w1]|] eqn:Em; [| |discriminate].
  - intros Hrun. destruct (Hm _ _ _ _ _ Em) as (evs1 & Ht1 & HP1).
    destruct (Hk a _ _ _ _ _ Hrun) as (evs2 & Ht2 & HP2).
    exists (evs2 ++ evs1). rewrite Ht2, Ht1, app_assoc. split; [reflexivity|].
    apply Forall_app. split; assumption.
  - intros [= <- <- <-]. exact (Hm _ _ _ _ _ Em).
Qed.

Lemma io_emits_if {A} (b : bool) (m1 m2 : IO A) :
  io_emits P m1 -> io_emits P m2 -> io_emits P (if b then m1 else m2).
Proof. destruct b; auto. Qed.

End IoEmitting.

Ltac io_emitting :=
  repeat first
    [ apply io_emits_bind; [|intros ?]
    | apply io_emits_ret
    | apply io_emits_input
    | apply io_emits_out_of_fuel
    | apply io_emits_if
    | apply io_emits_lift; emitting ].

(** ** The launcher never builds a headless Browser *)

Section Windowed.

Lemma windowed_browser_calls evs :
  Forall windowed evs <->
  forall kw, In kw (browser_calls evs) ->
    exists n, kw = [("headless", VBool false); ("slow_mo", VInt n)].
Proof.
  induction evs as [|ev evs IH].
  - split; [intros _ kw []|constructor].
  - rewrite Forall_cons, IH. destruct ev; cbn [browser_calls windowed]; try tauto.
    destruct (String.eqb_spec cls "Browser") as [->|Hne].
    + split.
      * intros [Hw Hall] kw [<-|Hin]; [apply Hw; reflexivity|apply Hall, Hin].
      * intros Hall. split; [intros _; apply Hall; left; reflexivity|].
        intros kw Hin. apply Hall. right. exact Hin.
    + split; [tauto|]. intros Hall. split; [intros Heq; contradiction|exact Hall].
Qed.

Lemma run_automation_task_windowed task :
  emits windowed (Launcher.run_automation_task task false).
Proof.
  intros w r w' Hrun.
  destruct (run_automation_task_trace w task false)
    as (r0 & w0 & evs & Hrun0 & Ht & _ & _ & _ & _ & _ & _ & Hkw).
  rewrite Hrun0 in Hrun. injection Hrun as <- <-.
  exists evs. split; [exact Ht|]. apply windowed_browser_calls.
  intros kw Hin. destruct (Hkw kw Hin) as (n & -> & _). eauto.
Qed.

Lemma update_env_file_emits P env_file key_name key_value :
  (forall content, P (EvWrite env_file content)) ->
  emits P (Launcher.update_env_file env_file key_name key_value).
Proof.
  intros HP w r w'. unfold Launcher.update_env_file.
  destruct (files w !! env_file).
  - apply emits_write_text, HP.
  - apply emits_ret.
Qed.

Lemma print_tasks_emits P items :
  (forall s, P (EvPrint s)) -> emits P (Menu.print_tasks items).
Proof.
  intros HP. induction items as [|[key task] rest IH]; cbn [Menu.print_tasks].
  - apply emits_ret.
  - apply emits_bind; [apply emits_print, HP|intros _; exact IH].
Qed.

Lemma run_each_emits P tests :
  (forall s, P (EvPrint s)) ->
  Forall (fun t => emits P (snd t)) tests -> emits P (Menu.run_each tests).
Proof.
  intros HP. induction 1 as [|[name test] rest Htest _ IH]; cbn [Menu.run_each].
  - apply emits_ret.
  - apply emits_bind; [|intros _; exact IH].
    apply emits_try; [|intros e; apply emits_print, HP].
    apply emits_bind; [exact Htest|intros ok].
    destruct ok; apply emits_print, HP.
Qed.

Variable env_file : string.

Lemma setup_api_keys_windowed : io_emits windowed (Menu.setup_api_keys env_file).
Proof.
  unfold Menu.setup_api_keys. io_emitting.
  destruct (List.filter _ _); io_emitting.
  apply update_env_file_emits. intros; exact I.
Qed.

Lemma run_tests_windowed : emits windowed (Menu.run_tests env_file).
Proof.
  unfold Menu.run_tests. apply emits_bind; [emitting|intros _].
  apply run_each_emits; [intros; exact I|].
  unfold Menu.tests. repeat (apply List.Forall_cons; cbn [snd]); [..|apply List.Forall_nil].
  - intros w r w'. destruct (version_info (ext w)). apply emits_ret.
  - emitting.
  - emitting.
  - emitting.
  - emitting.
Qed.

Lemma run_predefined_tasks_windowed : io_emits windowed Menu.run_predefined_tasks.
Proof.
  unfold Menu.run_predefined_tasks.
  apply io_emits_bind; [io_emitting|intros _].
  apply io_emits_bind; [apply io_emits_lift, print_tasks_emits; intros; exact I|intros _].
  apply io_emits_bind; [io_emitting|intros line].
  destruct (Menu.lookup_task _).
  - apply io_emits_bind; [apply io_emits_lift, run_automation_task_windowed|intros _; io_emitting].
  - apply io_emits_if; [|io_emitting].
    apply io_emits_bind; [io_emitting|intros line2].
    apply io_emits_if; [|io_emitting].
    apply io_emits_bind; [apply io_emits_lift, run_automation_task_windowed|intros _; io_emitting].
Qed.

Lemma interactive_loop_windowed fuel : io_emits windowed (Menu.interactive_loop fuel).
Proof.
  induction fuel as [|fuel IH]; cbn [Menu.interactive_loop]; [apply io_emits_out_of_fuel|].
  apply io_emits_bind; [io_emitting|intros line].
  apply io_emits_if; [io_emitting|].
  apply io_emits_bind; [|intros _; exact IH].
  apply io_emits_if; [|io_emitting].
  apply io_emits_bind; [apply io_emits_lift, run_automation_task_windowed|intros _; io_emitting].
Qed.

Lemma main_loop_windowed fuel : io_emits windowed (Menu.main_loop env_file fuel).
Proof.
  induction fuel as [|fuel IH]; cbn [Menu.main_loop]; [apply io_emits_out_of_fuel|].
  apply io_emits_bind; [unfold Menu.show_menu; io_emitting|intros choice].
  repeat apply io_emits_if.
  - apply io_emits_bind; [apply run_predefined_tasks_windowed|intros _; exact IH].
  - apply io_emits_bind; [|intros _; exact IH].
    unfold Menu.interactive_mode.
    do 2 (apply io_emits_bind; [io_emitting|intros _]). apply interactive_loop_windowed.
  - apply io_emits_bind; [apply setup_api_keys_windowed|intros _; exact IH].
  - apply io_emits_bind; [apply io_emits_lift, run_tests_windowed|intros _; exact IH].
  - apply io_emits_bind; [unfold Menu.show_docs; io_emitting|intros _; exact IH].
  - io_emitting.
  - apply io_emits_bind; [io_emitting|intros _; exact IH].
Qed.

Lemma check_installation_windowed : emits windowed Launcher.check_installation.
Proof.
  unfold Launcher.check_installation, Launcher.install_browser_use.
  apply emits_bind; [emitting|intros _].
  apply emits_bind; [emitting|intros early].
  destruct early; emitting.
Qed.

(** X19: whatever is typed and whatever the environment holds, every Browser
    the launcher builds is built with [headless=False] and a [slow_mo],
    nothing else: no menu choice and no setting leads to a headless
    browser. *)
Theorem launcher_never_headless (fuel : nat) (c : Console) (w : World) r c' w' :
  Menu.program env_file fuel c w = Some (r, c', w') ->
  exists evs, trace w' = evs ++ trace w /\
    forall kw, In kw (browser_calls evs) ->
      exists n, kw = [("headless", VBool false); ("slow_mo", VInt n)].
Proof.
  enough (H : io_emits windowed (Menu.program env_file fuel)).
  { intros Hrun. destruct (H _ _ _ _ _ Hrun) as (evs & Ht & HP).
    exists evs. split; [exact Ht|]. apply windowed_browser_calls, HP. }
  unfold Menu.program, Menu.main, Menu.init.
  apply io_emits_bind; [io_emitting|intros _].
  apply io_emits_bind; [apply io_emits_lift, emits_load_dotenv; exact I|intros _].
  do 3 (apply io_emits_bind; [io_emitting|intros _]).
  apply io_emits_bind; [apply io_emits_lift, check_installation_windowed|intros ok].
  apply io_emits_if; [io_emitting|].
  apply io_emits_bind; [apply setup_api_keys_windowed|intros keys].
  apply io_emits_if; [io_emitting|]. apply main_loop_windowed.
Qed.

End Windowed.


(** ** Sessions come to an end *)

Section IoEnding.

Variable allowed : exn -> Prop.







End IoEnding.

Section Ending.

Variable env_file : string.















End Ending.


(** ** Interactive mode runs what is typed *)

Section Interactive.

Lemma typed_tasks_cons line lines :
  typed_tasks (line :: lines)
  = if negb (String.eqb (str_strip line) "") then str_strip line :: typed_tasks lines
    else typed_tasks lines.
Proof. unfold typed_tasks. cbn [List.map List.filter]. reflexivity. Qed.

Lemma interactive_loop_runs lines q rest fuel (c : Console) (w : World) :
  stdin c = lines ++ q :: rest ->
  Forall (fun line => quits line = false) lines -> quits q = true ->
  length lines < fuel ->
  exists c' w',
    Menu.interactive_loop fuel c w = Some (Returned tt, c', w') /\
    stdin c' = rest /\
    run_all (typed_tasks lines) w = (Returned tt, w').
Proof.
  intros Hstdin Hlines Hq. revert fuel c w Hstdin.
  induction Hlines as [|line lines Hline _ IH]; intros [|fuel] c w Hstdin Hfuel;
    try (cbn in Hfuel; lia); cbn [Menu.interactive_loop].
  - rewrite io_bind_input. cbn zeta. rewrite Hstdin. cbn [app].
    unfold quits in Hq. rewrite Hq.
    eexists _, w. split; [reflexivity|]. split; reflexivity.
  - rewrite io_bind_input. cbn zeta. rewrite Hstdin. cbn [app].
    unfold quits in Hline. rewrite Hline. rewrite typed_tasks_cons.
    destruct (negb (String.eqb (str_strip line) "")).
    + rewrite io_bind_assoc, io_bind_lift.
      destruct (run_automation_task_trace w (str_strip line) false)
        as (r & w1 & _ & Hrun & _).
      rewrite Hrun, io_bind_ret.
      match goal with |- context [Menu.interactive_loop fuel ?c1 w1] =>
        destruct (IH fuel c1 w1) as (c' & w' & Hloop & Hrest & Hall);
          [reflexivity|cbn in Hfuel; lia|]
      end.
      exists c', w'. split; [exact Hloop|]. split; [exact Hrest|].
      cbn [run_all]. unfold bind. rewrite Hrun. exact Hall.
    + rewrite io_bind_ret.
      match goal with |- context [Menu.interactive_loop fuel ?c1 w] =>
        destruct (IH fuel c1 w) as (c' & w' & Hloop & Hrest & Hall);
          [reflexivity|cbn in Hfuel; lia|]
      end.
      exists c', w'. split; [exact Hloop|]. split; [exact Hrest|exact Hall].
Qed.

(** X21: interactive mode runs the lines typed, one task per line and in the
    order typed, up to the first line that says quit, exit or q in any
    letter case: each line is stripped of surrounding blanks, blank lines
    are skipped, a task that fails does not end the mode, and the lines
    after the quit word are left unread. *)
Theorem interactive_mode_runs_typed_tasks lines q rest fuel (c : Console) (w : World) :
  stdin c = lines ++ q :: rest ->
  Forall (fun line => quits line = false) lines -> quits q = true ->
  length lines < fuel ->
  exists c' w',
    Menu.interactive_mode fuel c w = Some (Returned tt, c', w') /\
    stdin c' = rest /\
    run_all (typed_tasks lines)
      (record (EvPrint "Type your automation tasks, or 'quit' to exit")
         (record (EvPrint "🎮 Interactive Browser Automation") w))
    = (Returned tt, w').
Proof.
  intros Hstdin Hlines Hq Hfuel. unfold Menu.interactive_mode.
  rewrite !io_bind_print.
  apply (interactive_loop_runs lines q rest); assumption.
Qed.

End Interactive.

Lemma interactive_mode_runs_typed_tasks_witness :
  exists c' w',
    Menu.interactive_mode 4 (typed ["  open example.com "; ""; "go"; " QUIT "; "1"])
      gemini_only
    = Some (Returned tt, c', w') /\
    stdin c' = ["1"] /\
    awaits (trace w') = 2.
Proof.
  destruct (interactive_mode_runs_typed_tasks
              ["  open example.com "; ""; "go"] " QUIT " ["1"] 4
              (typed ["  open example.com "; ""; "go"; " QUIT "; "1"]) gemini_only)
    as (c' & w' & Hrun & Hrest & Hall).
  - reflexivity.
  - repeat constructor.
  - reflexivity.
  - cbn. lia.
  - exists c', w'. split; [exact Hrun|]. split; [exact Hrest|].
    vm_compute in Hall. injection Hall as <-. reflexivity.
Defined.


(** ** The menu on concrete sessions *)

Lemma setup_api_keys_finds_keys_witness :
  configured (environ gemini_only) Gemini = true /\
  exists w',
    Menu.setup_api_keys ".env" (typed ["n"]) gemini_only
    = Some (Returned true, typed ["n"], w') /\
    files w' !! ".env" = Some Launcher.env_content /\
    head (trace w') = Some (EvPrint "✅ Found API keys: ['GEMINI_API_KEY']").
Proof.
  split; [reflexivity|].
  destruct (setup_api_keys_finds_keys ".env" (typed ["n"]) gemini_only Gemini eq_refl)
    as (w' & Hrun & _ & Hfiles & Hhead).
  exists w'. split; [exact Hrun|]. split; [rewrite Hfiles; reflexivity|exact Hhead].
Defined.

Lemma setup_api_keys_saves_key_witness :
  exists c' w',
    Menu.setup_api_keys ".env" (typed ["Y"; "Gemini"; "  AIza-live  "; "6"]) no_env_file
    = Some (Returned true, c', w') /\
    stdin c' = ["6"] /\
    environ w' = environ no_env_file /\
    files w' !! ".env" = Some (env_template (only_key Gemini "AIza-live")).
Proof.
  destruct (setup_api_keys_saves_key ".env"
              (typed ["Y"; "Gemini"; "  AIza-live  "; "6"]) no_env_file Gemini
              "Y" "Gemini" "  AIza-live  " ["6"])
    as (c' & w' & old & Hrun & Hrest & Henv & _ & _ & Hfresh).
  - intros []; reflexivity.
  - reflexivity.
  - reflexivity.
  - reflexivity.
  - vm_compute. discriminate.
  - exists c', w'. repeat (split; [assumption|]). apply Hfresh. reflexivity.
Defined.

(** The file a first key leaves in a fresh directory. *)
Example fresh_directory_key :
  env_template (only_key Gemini "AIza-live")
  = unlines ["# Browser-Use API Configuration";
             "GEMINI_API_KEY=AIza-live";
             "OPENAI_API_KEY=";
             "ANTHROPIC_API_KEY=";
             "GROQ_API_KEY=";
             "";
             "# Browser Settings";
             "HEADLESS=false";
             "BROWSER_SLOW_MO=1000"].
Proof. reflexivity. Qed.


(** The provider name is compared as typed, blanks included. *)
Example setup_api_keys_trailing_blank :
  fst <$> Menu.setup_api_keys ".env" (typed ["y"; "gemini "; "AIza-live"]) no_env_file
  = Some (Returned false, {| stdin := ["AIza-live"];
                             prompts := [(7, "Choose provider (gemini/openai/anthropic/groq): ");
                                         (7, nl +:+ "Would you like to add an API key now? (y/n): ")] |}).
Proof. vm_compute. reflexivity. Qed.

Lemma launcher_never_headless_witness :
  environ termux_settings !! "HEADLESS" = Some "true" /\
  exists r c' w' evs,
    Menu.program ".env" 3 (typed ["1"; "5"; "6"]) termux_settings = Some (r, c', w') /\
    trace w' = evs ++ trace termux_settings /\
    browser_calls evs = [[("headless", VBool false); ("slow_mo", VInt 2000)]].
Proof.
  split; [reflexivity|].
  destruct (Menu.program ".env" 3 (typed ["1"; "5"; "6"]) termux_settings)
    as [[[r c'] w']|] eqn:Hrun; [|vm_compute in Hrun; discriminate].
  destruct (launcher_never_headless ".env" 3 (typed ["1"; "5"; "6"]) termux_settings
              r c' w' Hrun) as (evs & Ht & _).
  exists r, c', w', evs. split; [reflexivity|]. split; [exact Ht|].
  vm_compute in Hrun. injection Hrun as <- <- <-.
  cbn [trace termux_settings start] in Ht. rewrite app_nil_r in Ht. subst evs.
  vm_compute. reflexivity.
Defined.


(** A session that runs out of input ends with the EOFError of [input]. *)
Example main_end_of_input :
  (fun r => (fst (fst r), stdin (snd (fst r))))
    <$> Menu.main ".env" 4 (typed ["4"; "5"]) gemini_only
  = Some (Raised eof_error, []).
Proof. vm_compute. reflexivity. Qed.

(** A key exported in the shell, next to the launcher's own template: the
    key setup finds the key, and every task fails for want of a key. *)
Example exported_key_session :
  (fun r => List.filter (fun s => String.prefix "✅ Found" s || String.prefix "❌ Task" s)
              (printed (history (snd r))))
    <$> Menu.program ".env" 4 (typed ["1"; "1"; "6"]) exported_key
  = Some ["✅ Found API keys: ['GEMINI_API_KEY']";
          "❌ Task failed: No valid API key found. Please set up an API key first."].
Proof. vm_compute. reflexivity. Qed.


(** * The scripts the installers write *)

Section Scripts.

Local Ltac oracle :=
  match goal with
  | |- context [ext_import ?x ?h ?m ?n] => destruct (ext_import x h m n) eqn:?
  | |- context [ext_new ?x ?h ?c ?k] => destruct (ext_new x h c k) eqn:?
  | |- context [ext_arun ?x ?h ?a] => destruct (ext_arun x h a) eqn:?
  end.

Local Ltac run :=
  unfold try_except, bind, print, emit, import_from, external, getenv, new,
    await_arun, ret, raise;
  cbn [record set_trace trace ext environ files fst snd];
  repeat (oracle; cbn [record set_trace trace ext environ files fst snd
                         isinstance_Exception]).


Local Ltac in_cases H :=
  cbn in H;
  repeat match type of H with
         | _ \/ _ => destruct H as [H|H]
         | False => destruct H
         | _ = _ => first [discriminate H | injection H; intros; subst | subst]
         end.

(** X22: the Termux demo refuses to run without a key of its own: when
    GEMINI_API_KEY is unset, empty, or still the placeholder of the
    template, it prints where to get a key and does nothing else. *)
Theorem termux_demo_rejects_placeholder (w : World) :
  truthy (environ w !! "GEMINI_API_KEY") = false \/
  environ w !! "GEMINI_API_KEY" = Some placeholder ->
  exists w',
    TermuxDemo.termux_demo w = (Returned tt, w') /\
    history w' = history w ++
      [EvPrint "🤖 Starting Termux Browser Automation Demo...";
       EvPrint "❌ Please set your GEMINI_API_KEY in the .env file!";
       EvPrint "Get a free key from: https://makersuite.google.com/app/apikey"].
Proof.
  intros Hkey. unfold TermuxDemo.termux_demo.
  unfold bind at 1, print at 1, emit. unfold bind at 1, getenv.
  cbn [record set_trace trace ext environ].
  assert (Hcond : negb (truthy (environ w !! "GEMINI_API_KEY"))
                  || bool_decide (environ w !! "GEMINI_API_KEY"
                                  = Some "your_gemini_api_key_here") = true).
  { destruct Hkey as [-> | ->]; [reflexivity|]. apply orb_true_r. }
  rewrite Hcond. eexists. split; [reflexivity|].
  unfold history. cbn [trace record set_trace rev]. rewrite <- !app_assoc. reflexivity.
Qed.

Lemma termux_demo_rejects_placeholder_witness :
  environ template_key !! "GEMINI_API_KEY" = Some placeholder /\
  (exists w', Launcher.get_llm_instance template_key
              = (Returned (client Gemini placeholder, "Gemini (FREE)"), w')) /\
  exists w',
    TermuxDemo.termux_demo template_key = (Returned tt, w') /\
    history w' = history template_key ++
      [EvPrint "🤖 Starting Termux Browser Automation Demo...";
       EvPrint "❌ Please set your GEMINI_API_KEY in the .env file!";
       EvPrint "Get a free key from: https://makersuite.google.com/app/apikey"].
Proof.
  split; [reflexivity|]. split; [eexists; vm_compute; reflexivity|].
  apply (termux_demo_rejects_placeholder template_key). right. reflexivity.
Defined.



(** With the placeholder as its key the desktop demo builds its client and
    runs its agent. *)
Example demo_search_placeholder :
  let run := Demo.demo_search template_key in
  fst run = Returned tt /\
  awaits (trace (snd run)) = 1 /\
  In (EvNew "ChatGoogleGenerativeAI"
        [("model", VStr "gemini-1.5-flash"); ("google_api_key", VStr placeholder)] None)
     (trace (snd run)).
Proof. vm_compute. tauto. Qed.

Lemma setup_llm_run (w : World) :
  Advanced.setup_llm w
  = if truthy (environ w !! "GEMINI_API_KEY") then
      (import_from "langchain_google_genai" "ChatGoogleGenerativeAI" ;;
       key <- getenv "GEMINI_API_KEY" ;;
       llm <- new "ChatGoogleGenerativeAI"
                [("model", VStr "gemini-1.5-flash"); ("google_api_key", of_option key)] ;;
       print "✅ Using Gemini API (FREE)" ;;
       ret llm) w
    else if truthy (environ w !! "OPENAI_API_KEY") then
      (import_from "langchain_openai" "ChatOpenAI" ;;
       key <- getenv "OPENAI_API_KEY" ;;
       llm <- new "ChatOpenAI" [("model", VStr "gpt-4"); ("api_key", of_option key)] ;;
       print "✅ Using OpenAI API" ;;
       ret llm) w
    else (Raised Advanced.no_api_key, w).
Proof.
  unfold Advanced.setup_llm. unfold bind at 1, getenv at 1.
  destruct (truthy (environ w !! "GEMINI_API_KEY")); [reflexivity|].
  unfold bind at 1, getenv at 1.
  destruct (truthy (environ w !! "OPENAI_API_KEY")); reflexivity.
Qed.

(** X25: the advanced script knows two providers.  With a Gemini key it builds
    the Gemini client, otherwise with an OpenAI key the OpenAI client;
    with neither it raises its ValueError having done nothing, whatever
    Groq or Anthropic key is set.  It installs nothing: a client library
    that cannot be imported is an error. *)
Theorem setup_llm_knows_two_providers (w : World) :
  (configured (environ w) Gemini = false -> configured (environ w) OpenAI = false ->
   Advanced.setup_llm w = (Raised Advanced.no_api_key, w)) /\
  (forall llm w', Advanced.setup_llm w = (Returned llm, w') ->
     exists p key,
       environ w !! env_var p = Some key /\ key <> "" /\ llm = client p key /\
       (p = Gemini \/ (p = OpenAI /\ configured (environ w) Gemini = false))) /\
  (forall r w', Advanced.setup_llm w = (r, w') ->
     exists evs, trace w' = evs ++ trace w /\ existsb is_subprocess evs = false).
Proof.
  unfold configured. cbn [env_var]. rewrite setup_llm_run.
  destruct (truthy (environ w !! "GEMINI_API_KEY")) eqn:E1.
  - destruct (truthy_Some _ E1) as (key & Hkey & Hne).
    split; [discriminate|]. run.
    all: rewrite ?Hkey; cbn [of_option].
    all: split;
      [ first [ intros llm w' H; discriminate H
              | intros llm w' [= <- <-]; exists Gemini, key;
                repeat split; auto ] |].
    all: intros r w' [= <- <-].
    all: first [eexists [_]; split; reflexivity | eexists [_;_]; split; reflexivity
               | eexists [_;_;_]; split; reflexivity].
  - destruct (truthy (environ w !! "OPENAI_API_KEY")) eqn:E2.
    + destruct (truthy_Some _ E2) as (key & Hkey & Hne).
      split; [discriminate|]. run.
      all: rewrite ?Hkey; cbn [of_option].
      all: split;
        [ first [ intros llm w' H; discriminate H
                | intros llm w' [= <- <-]; exists OpenAI, key;
                  repeat split; auto ] |].
      all: intros r w' [= <- <-].
      all: first [eexists [_]; split; reflexivity | eexists [_;_]; split; reflexivity
                 | eexists [_;_;_]; split; reflexivity].
    + split; [reflexivity|]. split; [intros llm w' H; discriminate H|].
      intros r w' [= <- <-]. exists []. split; reflexivity.
Qed.

Lemma setup_llm_knows_two_providers_witness :
  configured (environ two_keys) Groq = true /\
  configured (environ two_keys) Anthropic = true /\
  (exists w', Launcher.get_llm_instance two_keys
              = (Returned (client Groq "gsk_live", "Groq (FREE)"), w')) /\
  Advanced.setup_llm two_keys = (Raised Advanced.no_api_key, two_keys).
Proof.
  split; [reflexivity|]. split; [reflexivity|].
  split; [eexists; vm_compute; reflexivity|].
  destruct (setup_llm_knows_two_providers two_keys) as (Hnone & _).
  apply Hnone; reflexivity.
Defined.

(** X26: in the Termux demo's [run_custom_task] only the run itself is guarded:
    a failing run is caught and printed, while a failing import or
    constructor leaves the function as an exception, before anything has
    been awaited.  Its Browser is always headless. *)
Theorem run_custom_task_guards_only_the_run (task : string) (w : World) :
  exists r w' evs,
    TermuxDemo.run_custom_task task w = (r, w') /\
    trace w' = evs ++ trace w /\
    (forall kw, In kw (browser_calls evs) -> kw = [("headless", VBool true)]) /\
    (forall m a e, In (EvAwait m a (inr e)) evs ->
       r = Returned tt /\
       head evs = Some (EvPrint ("❌ Custom Task Failed: " +:+ exn_str e))) /\
    match r with
    | Returned _ => awaits evs = 1
    | Raised e =>
        awaits evs = 0 /\
        ((exists m n, head evs = Some (EvImport m n (Some e))) \/
         (exists cls kw, head evs = Some (EvNew cls kw (Some e))))
    end.
Proof.
  unfold TermuxDemo.run_custom_task. run.
  all: first
    [ eexists _, _, [_]; (split; [reflexivity|]); (split; [reflexivity|])
    | eexists _, _, [_;_]; (split; [reflexivity|]); (split; [reflexivity|])
    | eexists _, _, [_;_;_]; (split; [reflexivity|]); (split; [reflexivity|])
    | eexists _, _, [_;_;_;_]; (split; [reflexivity|]); (split; [reflexivity|])
    | eexists _, _, [_;_;_;_;_]; (split; [reflexivity|]); (split; [reflexivity|])
    | eexists _, _, [_;_;_;_;_;_]; (split; [reflexivity|]); (split; [reflexivity|])
    | eexists _, _, [_;_;_;_;_;_;_]; (split; [reflexivity|]); (split; [reflexivity|])
    | eexists _, _, [_;_;_;_;_;_;_;_]; (split; [reflexivity|]); (split; [reflexivity|]) ].
  all: split; [intros kw H; in_cases H; reflexivity|].
  all: split; [intros m0 a0 e0 H; in_cases H; split; reflexivity|].
  all: first [ reflexivity
             | split; [reflexivity|]; left; eexists _, _; reflexivity
             | split; [reflexivity|]; right; eexists _, _; reflexivity ].
Qed.










(** With a key, a task that fails is reported and [main] returns; so is
    the end of input at the second question. *)
Example advanced_main_end_of_input :
  (fun r => (fst (fst r), head (trace (snd r))))
    <$> Advanced.main (typed ["1"]) gemini_only
  = Some (Returned tt,
          Some (EvPrint "Make sure your API key is set correctly in the .env file")).
Proof. vm_compute. reflexivity. Qed.

End Scripts.
